(** * fastqreader.cpp: the chunked FASTQ reader, embedded in Rocq

    The development follows [src/fastqreader.cpp] function by function.

    - A [std::string] is a [list ascii]; a file name too.
    - An [int] or [size_t] is a [Z] (no value here comes near the word size).
    - A [FILE*] or [gzFile] is an [option stream]: [None] is the null
      pointer, a [stream] holds the bytes not yet read and the end-of-file
      indicator of the C library.  Two handles opened by name are two
      streams; the pointer [stdin] given to the two readers of a paired
      reader is one stream, handed from one reader to the other.
    - [mBuf] holds the bytes the last refill delivered; the bytes of the
      array past [mBufDataLen] are never read by the scanner (it stops at
      [ctx.len]), so they are not kept.  [ctx.buf] is a pointer to [mBuf]:
      the scanner is handed the pointee.
    - An access outside an array or a string is undefined behaviour in
      C++: the embedding stops there with [Fault].  [error_exit] ends the
      process: [Exit].  A loop that has no bound takes fuel, and answers
      [Spin] when the fuel is gone.
    - What the code writes to [cerr] changes no control flow and is left out. *)

From Stdlib Require Import ZArith Bool Ascii String List Lia.
Import ListNotations.
Open Scope Z_scope.

(** ** Bytes and strings *)

Definition bytes := list ascii.

Definition LF : ascii := "010"%char.
Definition CR : ascii := "013"%char.

(** A string literal as bytes. *)
Definition s2b (s : string) : bytes := list_ascii_of_string s.

(** [std::string::empty]. *)
Definition empty (s : bytes) : bool :=
  match s with [] => true | _ => false end.

(** [std::string::back]: the last character, undefined on the empty string. *)
Fixpoint back (s : bytes) : option ascii :=
  match s with
  | [] => None
  | [c] => Some c
  | _ :: t => back t
  end.

(** [std::string::pop_back] on a string that is not empty. *)
Definition pop_back (s : bytes) : bytes := removelast s.

(** [string(p + a, b - a)]: the bytes [a .. b) of a buffer. *)
Definition window (buf : bytes) (a b : Z) : bytes :=
  firstn (Z.to_nat (b - a)) (skipn (Z.to_nat a) buf).

(** [buf[i]], for an index inside the delivered bytes. *)
Definition buf_at (buf : bytes) (i : Z) : option ascii :=
  if i <? 0 then None else nth_error buf (Z.to_nat i).

(** ** Outcomes *)

Inductive fault : Type :=
| BufIndex (i : Z)      (* mBuf[i] read outside the array *)
| BackOfEmpty           (* back() of an empty string *)
| NullHandle.           (* a null FILE* or reader dereferenced *)

Inductive outcome (A : Type) : Type :=
| Ret (a : A)
| Fault (f : fault)
| Exit (msg : bytes)
| Spin.

Arguments Ret {A} a.
Arguments Fault {A} f.
Arguments Exit {A} msg.
Arguments Spin {A}.

Definition bind {A B : Type} (c : outcome A) (k : A -> outcome B) : outcome B :=
  match c with
  | Ret a => k a
  | Fault f => Fault f
  | Exit m => Exit m
  | Spin => Spin
  end.

Notation "x <- c ;; k" := (bind c (fun x => k))
  (at level 61, c at next level, right associativity).
Notation "' p <- c ;; k" := (bind c (fun x => let p := x in k))
  (at level 61, p pattern, c at next level, right associativity).

(** ** The byte source *)

Record stream : Type := mkStream {
  unread : bytes;        (* the bytes the next reads will deliver *)
  eof_flag : bool        (* feof / gzeof *)
}.

(** [fread(buf, 1, n, f)] and [gzread(f, buf, n)] on an open stream: up to
    [n] bytes; the end-of-file indicator is raised when fewer than [n]
    were left, and not when exactly [n] were. *)
Definition stream_read (n : Z) (s : stream) : bytes * stream :=
  let k := Z.to_nat n in
  (firstn k (unread s),
   mkStream (skipn k (unread s))
            (eof_flag s || (Z.of_nat (length (unread s)) <? n))).

(** What the process can open: [fs path] is the byte stream that opening
    [path] yields (for a gzip file, the decompressed bytes), [None] when
    the path cannot be opened; [stdin_data] is what standard input holds. *)
Record world : Type := mkWorld {
  fs : bytes -> option bytes;
  stdin_data : bytes
}.

Definition open_stream (w : world) (path : bytes) : option stream :=
  option_map (fun d => mkStream d false) (fs w path).

(** ** The reader *)

Definition FQ_BUF_SIZE : Z := Z.shiftl 1 20.

Inductive fq_state : Type := INITIAL | NEW_CHUNK | DONE.

Record fq_context : Type := mkCtx {
  len : Z;
  start : Z;
  end_ : Z;
  partial : bytes
}.

Record FastqReader : Type := mkReader {
  mFilename : bytes;
  mZipFile : option stream;
  mZipped : bool;
  mFile : option stream;
  mStdinMode : bool;
  mPhred64 : bool;
  mHasQuality : bool;
  mBuf : bytes;
  mBufDataLen : Z;
  mBufUsedLen : Z;
  mHasNoLineBreakAtEnd : bool;
  ctx : fq_context;
  state : fq_state
}.

Definition set_ctx (c : fq_context) (r : FastqReader) : FastqReader :=
  mkReader (mFilename r) (mZipFile r) (mZipped r) (mFile r) (mStdinMode r)
           (mPhred64 r) (mHasQuality r) (mBuf r) (mBufDataLen r)
           (mBufUsedLen r) (mHasNoLineBreakAtEnd r) c (state r).

Definition set_state (s : fq_state) (r : FastqReader) : FastqReader :=
  mkReader (mFilename r) (mZipFile r) (mZipped r) (mFile r) (mStdinMode r)
           (mPhred64 r) (mHasQuality r) (mBuf r) (mBufDataLen r)
           (mBufUsedLen r) (mHasNoLineBreakAtEnd r) (ctx r) s.

Definition set_partial (p : bytes) (c : fq_context) : fq_context :=
  mkCtx (len c) (start c) (end_ c) p.

(** [hasNoLineBreakAtEnd]. *)
Definition hasNoLineBreakAtEnd (r : FastqReader) : bool :=
  mHasNoLineBreakAtEnd r.

(** The read of [readToBuf]: [gzread] answers -1 on a null handle;
    [fread] on a null [FILE*] is undefined. *)
Definition pull (r : FastqReader)
  : outcome (Z * bytes * option stream * option stream) :=
  if mZipped r then
    match mZipFile r with
    | None => Ret (-1, mBuf r, None, mFile r)
    | Some s =>
        let '(d, s') := stream_read FQ_BUF_SIZE s in
        Ret (Z.of_nat (length d), d, Some s', mFile r)
    end
  else
    match mFile r with
    | None => Fault NullHandle
    | Some s =>
        let '(d, s') := stream_read FQ_BUF_SIZE s in
        Ret (Z.of_nat (length d), d, mZipFile r, Some s')
    end.

(** [readToBuf]. *)
Definition readToBuf (r : FastqReader) : outcome FastqReader :=
  '(n, d, zf, f) <- pull r ;;
  flag <- (if n <? FQ_BUF_SIZE then
             match buf_at d (n - 1) with
             | None => Fault (BufIndex (n - 1))
             | Some c =>
                 Ret (if Ascii.eqb c LF then mHasNoLineBreakAtEnd r else true)
             end
           else Ret (mHasNoLineBreakAtEnd r)) ;;
  Ret (mkReader (mFilename r) zf (mZipped r) f (mStdinMode r)
                (mPhred64 r) (mHasQuality r) d n 0 flag
                (mkCtx n 0 0 (partial (ctx r))) (state r)).

(** [eof]: [gzeof] of a null handle is 0. *)
Definition eof (r : FastqReader) : bool :=
  match (if mZipped r then mZipFile r else mFile r) with
  | Some s => eof_flag s
  | None => false
  end.

(** Modelled from the spec: [ends_with] of util.h, which is not among the
    sources; the spec calls it the classification of a path by its suffix. *)
Definition ends_with (s suffix : bytes) : bool :=
  (length suffix <=? length s)%nat &&
  (if list_eq_dec ascii_dec (skipn (length s - length suffix) s) suffix
   then true else false).

(** [init].  [error_exit] (util.h) prints its message and ends the process.
    [gzopen] and [fopen] answer a null handle for a path that cannot be
    opened; [gzrewind] changes nothing on a stream just opened, and
    answers -1, ignored here, on a null one. *)
Definition init (w : world) (r : FastqReader) : outcome FastqReader :=
  if ends_with (mFilename r) (s2b ".gz") then
    readToBuf
      (mkReader (mFilename r) (open_stream w (mFilename r)) true (mFile r)
                (mStdinMode r) (mPhred64 r) (mHasQuality r) (mBuf r)
                (mBufDataLen r) (mBufUsedLen r) (mHasNoLineBreakAtEnd r)
                (ctx r) (state r))
  else
    let f := if list_eq_dec ascii_dec (mFilename r) (s2b "/dev/stdin")
             then Some (mkStream (stdin_data w) false)
             else open_stream w (mFilename r) in
    match f with
    | None => Exit (s2b "Failed to open file: " ++ mFilename r)
    | Some _ =>
        readToBuf
          (mkReader (mFilename r) (mZipFile r) false f
                    (mStdinMode r) (mPhred64 r) (mHasQuality r) (mBuf r)
                    (mBufDataLen r) (mBufUsedLen r) (mHasNoLineBreakAtEnd r)
                    (ctx r) (state r))
    end.

(** The constructor.  Modelled from the spec: the first value of [state]
    and of [ctx], which the header (not among the sources) gives them;
    the spec names SCANNING, here [INITIAL], as the initial state, and
    a cursor at offset 0 with nothing accumulated. *)
Definition FastqReader_new (w : world) (filename : bytes)
    (hasQuality phred64 : bool) : outcome FastqReader :=
  init w (mkReader filename None false None false phred64 hasQuality
                   [] 0 0 false (mkCtx 0 0 0 []) INITIAL).

(** [scan_buf]: the loop walks the bytes [end .. len) of the buffer up to
    the first line feed. *)
Fixpoint scan_from (l : bytes) (e : Z) : Z :=
  match l with
  | [] => e
  | c :: t => if Ascii.eqb c LF then e else scan_from t (e + 1)
  end.

Definition scan_buf (buf : bytes) (c : fq_context) : fq_context * bool :=
  let e := scan_from (window buf (end_ c) (len c)) (end_ c) in
  (mkCtx (len c) (start c) e (partial c), e =? len c).

(** [next]: the line, [*complete], and the context after. *)
Definition next (buf : bytes) (c : fq_context) : bytes * bool * fq_context :=
  let '(c1, r) := scan_buf buf c in
  let line := window buf (start c1) (end_ c1) in
  if r then (line, false, c1)
  else
    let nx := end_ c1 + 1 in
    (line, true, mkCtx (len c1) nx nx (partial c1)).

(** [getLine]: one round of the [while] per unit of fuel. *)
Fixpoint getLine_loop (fuel : nat) (r : FastqReader)
  : outcome (bytes * FastqReader) :=
  match state r with
  | DONE => Ret ([], r)
  | INITIAL =>
      match fuel with
      | O => Spin
      | S fuel' =>
          let '(result, c, cx) := next (mBuf r) (ctx r) in
          let p := partial cx ++ result in
          if c then
            match back p with
            | None => Fault BackOfEmpty
            | Some ch =>
                Ret (if Ascii.eqb ch CR then pop_back p else p,
                     set_ctx (set_partial [] cx) r)
            end
          else
            getLine_loop fuel'
              (set_state NEW_CHUNK (set_ctx (set_partial p cx) r))
      end
  | NEW_CHUNK =>
      match fuel with
      | O => Spin
      | S fuel' =>
          if (len (ctx r) <? FQ_BUF_SIZE) || (len (ctx r) =? 0) || eof r
          then getLine_loop fuel' (set_state DONE r)
          else
            r' <- readToBuf r ;;
            getLine_loop fuel' (set_state INITIAL r')
      end
  end.

(** The bytes the source still holds. *)
Definition left_to_read (r : FastqReader) : nat :=
  match (if mZipped r then mZipFile r else mFile r) with
  | Some s => length (unread s)
  | None => O
  end.

(** [getLine], with rounds enough for every reader ([getLine_total],
    [getLine_loop_more]). *)
Definition getLine (r : FastqReader) : outcome (bytes * FastqReader) :=
  getLine_loop (2 * left_to_read r + 3)%nat r.

(** Modelled from the spec: the record type [Read] of read.h, which is not
    among the sources; the constructor call of [read] gives its fields. *)
Record Read : Type := mkRead {
  mName : bytes;
  mSeq : bytes;
  mStrand : bytes;
  mQuality : bytes;
  mHasPhred64 : bool
}.

(** [mBufUsedLen >= mBufDataLen && eof()]. *)
Definition used_up (r : FastqReader) : bool :=
  (mBufDataLen r <=? mBufUsedLen r) && eof r.

(** The condition of the [while] of [read]. *)
Definition not_a_name (name : bytes) (r : FastqReader) : bool :=
  (empty name && negb (used_up r))
  || (negb (empty name) && negb (Ascii.eqb (hd zero name) "@"%char)).

(** The [while] of [read]: one [getLine] per unit of fuel. *)
Fixpoint skip_loop (fuel : nat) (name : bytes) (r : FastqReader)
  : outcome (bytes * FastqReader) :=
  if not_a_name name r then
    match fuel with
    | O => Spin
    | S fuel' =>
        '(name', r') <- getLine r ;;
        skip_loop fuel' name' r'
    end
  else Ret (name, r).

(** [FastqReader::read]: [None] is the null pointer. *)
Definition read (fuel : nat) (r : FastqReader)
  : outcome (option Read * FastqReader) :=
  if mZipped r && (match mZipFile r with None => true | Some _ => false end)
  then Ret (None, r)
  else if used_up r then Ret (None, r)
  else
    '(name, r1) <- getLine r ;;
    if empty name then Ret (None, r1)
    else
      '(name, r2) <- skip_loop fuel name r1 ;;
      if empty name then Ret (None, r2)
      else
        '(sequence, r3) <- getLine r2 ;;
        '(strand, r4) <- getLine r3 ;;
        if negb (mHasQuality r4) then
          let quality := repeat "K"%char (length sequence) in
          Ret (Some (mkRead name sequence strand quality (mPhred64 r4)), r4)
        else
          '(quality, r5) <- getLine r4 ;;
          if negb (length quality =? length sequence)%nat then Ret (None, r5)
          else
            Ret (Some (mkRead name sequence strand quality (mPhred64 r5)), r5).

(** [close]: the handle in use becomes the null pointer. *)
Definition close (r : FastqReader) : FastqReader :=
  if mZipped r then
    mkReader (mFilename r) None (mZipped r) (mFile r) (mStdinMode r)
             (mPhred64 r) (mHasQuality r) (mBuf r) (mBufDataLen r)
             (mBufUsedLen r) (mHasNoLineBreakAtEnd r) (ctx r) (state r)
  else
    mkReader (mFilename r) (mZipFile r) (mZipped r) None (mStdinMode r)
             (mPhred64 r) (mHasQuality r) (mBuf r) (mBufDataLen r)
             (mBufUsedLen r) (mHasNoLineBreakAtEnd r) (ctx r) (state r).

(** [isZipFastq], with [ends_with] as in [init]. *)
Definition isZipFastq (filename : bytes) : bool :=
  if ends_with filename (s2b ".fastq.gz") then true
  else if ends_with filename (s2b ".fq.gz") then true
  else if ends_with filename (s2b ".fasta.gz") then true
  else if ends_with filename (s2b ".fa.gz") then true
  else false.

(** [isFastq]. *)
Definition isFastq (filename : bytes) : bool :=
  if ends_with filename (s2b ".fastq") then true
  else if ends_with filename (s2b ".fq") then true
  else if ends_with filename (s2b ".fasta") then true
  else if ends_with filename (s2b ".fa") then true
  else false.

(** [isZipped]. *)
Definition isZipped (r : FastqReader) : bool := mZipped r.

(** The loop of [test]: one round per unit of [rounds_left]. *)
Fixpoint test_loop (rounds_left fuel : nat) (reader1 reader2 : FastqReader)
  : outcome bool :=
  match rounds_left with
  | O => Spin
  | S n =>
      '(r1, reader1') <- read fuel reader1 ;;
      '(r2, reader2') <- read fuel reader2 ;;
      match r1, r2 with
      | Some a, Some b =>
          if list_eq_dec ascii_dec (mSeq a) (mSeq b)
          then test_loop n fuel reader1' reader2'
          else Ret false
      | _, _ => Ret true
      end
  end.

(** [FastqReader::test].  The two readers are built with the default
    values of [hasQuality] and [phred64], which the header (not among the
    sources) gives: they are arguments here. *)
Definition test (w : world) (hasQuality phred64 : bool)
    (rounds_left fuel : nat) : outcome bool :=
  reader1 <- FastqReader_new w (s2b "testdata/R1.fq") hasQuality phred64 ;;
  reader2 <- FastqReader_new w (s2b "testdata/R1.fq.gz") hasQuality phred64 ;;
  test_loop rounds_left fuel reader1 reader2.

(** ** The paired reader *)

(** Modelled from the spec: [ReadPair] of read.h, a left and a right record. *)
Record ReadPair : Type := mkReadPair {
  pLeft : Read;
  pRight : Read
}.

(** The paired reader.  [shares_stdin] is no member of the class: it says
    that [mLeft->mFile] and [mRight->mFile] are the same pointer, [stdin],
    which the code has as the equality of the two pointers and a stream
    value does not show.  What one reader takes from standard input is
    then gone for the other. *)
Record FastqReaderPair : Type := {
  mLeft : FastqReader;
  mRight : option FastqReader;
  mInterleaved : bool;
  shares_stdin : bool
}.

(** A paired reader whose two readers have each a file of their own. *)
Definition mkPair (l : FastqReader) (r : option FastqReader)
    (interleaved : bool) : FastqReaderPair :=
  Build_FastqReaderPair l r interleaved false.

(** The reader [r], its [FILE] in the state [f]. *)
Definition with_file (f : option stream) (r : FastqReader) : FastqReader :=
  mkReader (mFilename r) (mZipFile r) (mZipped r) f (mStdinMode r)
           (mPhred64 r) (mHasQuality r) (mBuf r) (mBufDataLen r)
           (mBufUsedLen r) (mHasNoLineBreakAtEnd r) (ctx r) (state r).

(** [init] gives the reader the pointer [stdin] for this file name. *)
Definition on_stdin (filename : bytes) : bool :=
  negb (ends_with filename (s2b ".gz"))
  && (if list_eq_dec ascii_dec filename (s2b "/dev/stdin")
      then true else false).

(** What standard input still holds once the reader [r] on it is built. *)
Definition stdin_after (r : FastqReader) : bytes :=
  match mFile r with Some s => unread s | None => [] end.

(** The constructor from two paths.  Two files opened by name are two
    streams, also under the same name; standard input is one stream: when
    both names are "/dev/stdin" both readers are given the pointer
    [stdin], the refill of the right constructor reads on from where that
    of the left one stopped, and the two readers share the stream from
    then on.  (The right constructor is run on what is left of standard
    input; the end-of-file indicator needs no copy: it is raised only
    when nothing is left, and the refill that finds nothing raises it.) *)
Definition FastqReaderPair_new (w : world) (leftName rightName : bytes)
    (hasQuality phred64 interleaved : bool) : outcome FastqReaderPair :=
  l <- FastqReader_new w leftName hasQuality phred64 ;;
  if interleaved then Ret (mkPair l None interleaved)
  else if on_stdin leftName && on_stdin rightName then
    r <- FastqReader_new (mkWorld (fs w) (stdin_after l)) rightName
                         hasQuality phred64 ;;
    Ret (Build_FastqReaderPair (with_file (mFile r) l) (Some r)
                               interleaved true)
  else
    r <- FastqReader_new w rightName hasQuality phred64 ;;
    Ret (mkPair l (Some r) interleaved).

(** [if(!l || !r) return NULL; else return new ReadPair(l, r)]. *)
Definition pair_up (l r : option Read) : option ReadPair :=
  match l, r with
  | Some a, Some b => Some (mkReadPair a b)
  | _, _ => None
  end.

(** [FastqReaderPair::read].  When the two readers share standard input,
    the right reader finds the stream as the left one left it, and the
    left reader will find it as the right one leaves it. *)
Definition FastqReaderPair_read (fuel : nat) (p : FastqReaderPair)
  : outcome (option ReadPair * FastqReaderPair) :=
  '(l, left1) <- read fuel (mLeft p) ;;
  if mInterleaved p then
    '(r, left2) <- read fuel left1 ;;
    Ret (pair_up l r,
         Build_FastqReaderPair left2 (mRight p) (mInterleaved p)
                               (shares_stdin p))
  else
    match mRight p with
    | None => Fault NullHandle
    | Some right0 =>
        if shares_stdin p then
          '(r, right1) <- read fuel (with_file (mFile left1) right0) ;;
          Ret (pair_up l r,
               Build_FastqReaderPair (with_file (mFile right1) left1)
                                     (Some right1) (mInterleaved p) true)
        else
          '(r, right1) <- read fuel right0 ;;
          Ret (pair_up l r, mkPair left1 (Some right1) (mInterleaved p))
    end.

(** ** Inputs for the examples *)

(** The lines [ls], each followed by a line feed. *)
Definition nl (ls : list string) : bytes :=
  concat (map (fun l => s2b l ++ [LF]) ls).

(** A world in which every path opens on the bytes [d]. *)
Definition one_file (d : bytes) : world := mkWorld (fun _ => Some d) [].

(** A world with the files listed. *)
Definition files (l : list (string * bytes)) : world :=
  mkWorld (fun p =>
             option_map snd
               (find (fun e => if list_eq_dec ascii_dec (s2b (fst e)) p
                               then true else false) l))
          [].

(** The results of [n] successive calls of [read]. *)
Fixpoint reads (fuel : nat) (n : nat) (r : FastqReader)
  : outcome (list (option Read) * FastqReader) :=
  match n with
  | O => Ret ([], r)
  | S n' =>
      '(x, r1) <- read fuel r ;;
      '(xs, r2) <- reads fuel n' r1 ;;
      Ret (x :: xs, r2)
  end.

(** The results of [n] successive calls of [FastqReaderPair::read]. *)
Fixpoint pair_reads (fuel : nat) (n : nat) (p : FastqReaderPair)
  : outcome (list (option ReadPair) * FastqReaderPair) :=
  match n with
  | O => Ret ([], p)
  | S n' =>
      '(x, p1) <- FastqReaderPair_read fuel p ;;
      '(xs, p2) <- pair_reads fuel n' p1 ;;
      Ret (x :: xs, p2)
  end.

(** ** Definitions for the statements *)

(** The handle [readToBuf] and [eof] work on. *)
Definition handle (r : FastqReader) : option stream :=
  if mZipped r then mZipFile r else mFile r.

(** The rounds [getLine_loop] can still make. *)
Definition rounds (r : FastqReader) : nat :=
  match state r with
  | INITIAL => 2 * left_to_read r + 3
  | NEW_CHUNK => 2 * left_to_read r + 2
  | DONE => 0
  end%nat.

(** One trailing carriage return less, if there is one. *)
Definition chomp (line : bytes) : bytes :=
  match back line with
  | Some ch => if Ascii.eqb ch CR then pop_back line else line
  | None => line
  end.

(** A reader on which the two tests at the head of [read] fail. *)
Definition live (r : FastqReader) : bool :=
  negb (mZipped r &&
        match mZipFile r with None => true | Some _ => false end)
  && negb (used_up r).

(** No line feed inside. *)
Definition no_lf (l : bytes) : bool :=
  forallb (fun c => negb (Ascii.eqb c LF)) l.

(** A line that [getLine] can return: no line feed inside, and not empty. *)
Definition is_line (l : bytes) : bool := negb (empty l) && no_lf l.

(** The bytes the source of [r] has not delivered yet. *)
Definition unread_of (r : FastqReader) : bytes :=
  match handle r with Some s => unread s | None => [] end.

(** The bytes the lines to come are made of: what is accumulated, the rest
    of the chunk, and what the source still holds. *)
Definition pending (r : FastqReader) : bytes :=
  partial (ctx r) ++ skipn (Z.to_nat (start (ctx r))) (mBuf r) ++ unread_of r.

(** A reader about to scan: the cursor is inside the chunk, the chunk is
    what the last refill delivered, and a short chunk or a raised
    end-of-file indicator means that the source is exhausted. *)
Record scanning (r : FastqReader) : Prop := mkScanning {
  sc_state : state r = INITIAL;
  sc_end : end_ (ctx r) = start (ctx r);
  sc_start : 0 <= start (ctx r) <= len (ctx r);
  sc_len : len (ctx r) = Z.of_nat (length (mBuf r));
  sc_cap : 0 < len (ctx r) <= FQ_BUF_SIZE;
  sc_data : mBufDataLen r = len (ctx r);
  sc_used : mBufUsedLen r = 0;
  sc_partial : ~ In LF (partial (ctx r));
  sc_source : exists s, handle r = Some s /\
                (len (ctx r) < FQ_BUF_SIZE -> unread s = []) /\
                (eof_flag s = true -> len (ctx r) < FQ_BUF_SIZE)
}.

(** A reader between two calls of [getLine]: scanning, nothing accumulated. *)
Definition ready (r : FastqReader) : Prop :=
  scanning r /\ partial (ctx r) = [].

(** The bytes of a record: four lines with quality, three without. *)
Definition record_bytes (hasQuality : bool)
    (rc : bytes * bytes * bytes * bytes) : bytes :=
  let '(n, s, p, q) := rc in
  ("@"%char :: n) ++ LF :: s ++ LF :: p ++ LF ::
  (if hasQuality then q ++ [LF] else []).

(** The lines of a record are lines [getLine] can return. *)
Definition record_ok (hasQuality : bool)
    (rc : bytes * bytes * bytes * bytes) : bool :=
  let '(n, s, p, q) := rc in
  no_lf n && is_line s && is_line p && (if hasQuality then is_line q else true).

(** What [read] makes of a record. *)
Definition record_read (hasQuality phred64 : bool)
    (rc : bytes * bytes * bytes * bytes) : option Read :=
  let '(n, s, p, q) := rc in
  if hasQuality then
    if (length (chomp q) =? length (chomp s))%nat
    then Some (mkRead ("@"%char :: chomp n) (chomp s) (chomp p) (chomp q)
                      phred64)
    else None
  else
    Some (mkRead ("@"%char :: chomp n) (chomp s) (chomp p)
                 (repeat "K"%char (length (chomp s))) phred64).

(** The bytes of a file are those of the chunks delivered so far and those
    the source still holds: [k] full chunks, then the current one. *)
Definition accounts (total : Z) (r : FastqReader) : Prop :=
  len (ctx r) <= FQ_BUF_SIZE /\
  exists k, 0 <= k /\
    total = k * FQ_BUF_SIZE + len (ctx r) + Z.of_nat (length (unread_of r)).

(** The records written one after the other. *)
Definition file_of (hasQuality : bool)
    (recs : list (bytes * bytes * bytes * bytes)) : bytes :=
  concat (map (record_bytes hasQuality) recs).

(** The lines [ls], each followed by a line feed. *)
Definition lines_bytes (ls : list bytes) : bytes :=
  concat (map (fun l => l ++ [LF]) ls).

(** A line that is not empty and that the skipping loop goes past: what
    [getLine] returns for it is empty or does not start with the marker. *)
Definition skipped_line (l : bytes) : bool :=
  is_line l && negb (Ascii.eqb (hd zero (chomp l)) "@"%char).

(** A record whose quality line is one character short, then a good one. *)
Definition short_quality_then_good : bytes :=
  nl ["@r1"; "ACGT"; "+"; "III"; "@r2"; "GGTT"; "+"; "JJJJ"]%string.

(** The reader opened on [short_quality_then_good]. *)
Definition short_quality_reader : FastqReader :=
  mkReader (s2b "in.fq") None false (Some (mkStream [] true)) false false true
           short_quality_then_good 31 0 false (mkCtx 31 0 0 []) INITIAL.

Definition two_records : bytes :=
  nl ["@r1"; "ACGT"; "+"; "IIII"; "@r2"; "GGTT"; "+"; "JJJJ"]%string.

(** The reader a path that opens on [two_records] gives, for a plain file
    ([zipped = false]) and for a gzip file. *)
Definition two_records_reader (path : bytes) (zipped phred64 : bool)
  : FastqReader :=
  mkReader path
           (if zipped then Some (mkStream [] true) else None)
           zipped
           (if zipped then None else Some (mkStream [] true))
           false phred64 true
           two_records 32 0 false (mkCtx 32 0 0 []) INITIAL.

(** The spec's example without quality lines. *)
Definition two_records_no_quality : bytes :=
  nl ["@r1"; "ACGT"; "+"; "@r2"; "GGTT"; "+"]%string.

Definition no_quality_reader : FastqReader :=
  mkReader (s2b "in.fq") None false (Some (mkStream [] true)) false false
           false two_records_no_quality 22 0 false (mkCtx 22 0 0 []) INITIAL.

(** A line that ends in two carriage returns and a line feed. *)
Definition double_cr : bytes := s2b "a" ++ [CR; CR; LF].

(** A reader in the middle of a line split by a refill: "AC" is
    accumulated, the chunk goes on with "GT\r\n". *)
Definition mid_line_reader : FastqReader :=
  mkReader (s2b "in.fq") None false (Some (mkStream [] true)) false false true
           (s2b "GT" ++ [CR; LF] ++ s2b "+" ++ [LF]) 6 0 false
           (mkCtx 6 0 0 (s2b "AC")) INITIAL.

(** A reader at the head of a chunk written with "\r\n" line ends. *)
Definition crlf_reader : FastqReader :=
  mkReader (s2b "in.fq") None false (Some (mkStream [] true)) false false true
           ((s2b "ACGT" ++ [CR]) ++ LF :: s2b "+" ++ [CR; LF]) 9 0 false
           (mkCtx 9 0 0 []) INITIAL.

(** Two records with a blank line between them. *)
Definition blank_between : bytes :=
  nl ["@r1"; "ACGT"; "+"; "IIII"; ""; "@r2"; "GGTT"; "+"; "JJJJ"]%string.

Definition one_record : bytes := nl ["@r1"; "ACGT"; "+"; "IIII"]%string.

(** [one_record] without its last byte, the line feed. *)
Definition one_record_cut : bytes := removelast one_record.

Definition garbage : bytes := nl ["garbage"]%string.

(** A reader as the constructor builds it, before [init], on a plain
    stream that holds [data], with the flag at [flag]. *)
Definition unfilled (data : bytes) (flag : bool) : FastqReader :=
  mkReader (s2b "in.fq") None false (Some (mkStream data false)) false
           false true [] 0 0 flag (mkCtx 0 0 0 []) INITIAL.

(** A world without files. *)
Definition no_files : world := mkWorld (fun _ => None) [].

(** A world without files, with the bytes [d] on standard input. *)
Definition piped (d : bytes) : world := mkWorld (fun _ => None) d.

(** The reader a gzip path that cannot be opened leaves, if the read
    outside the array comes back with a byte that gives [flag]. *)
Definition unopened_gz (hasQuality phred64 flag : bool) : FastqReader :=
  mkReader (s2b "reads.fq.gz") None true None false phred64 hasQuality
           [] (-1) 0 flag (mkCtx (-1) 0 0 []) INITIAL.

(** A record with a four-character sequence. *)
Definition rec4 (name sequence quality : string) : Read :=
  mkRead (s2b name) (s2b sequence) (s2b "+") (s2b quality) false.

Definition left_three : bytes :=
  nl ["@a/1"; "ACGT"; "+"; "IIII"; "@b/1"; "GGTT"; "+"; "JJJJ";
      "@c/1"; "TTAA"; "+"; "HHHH"]%string.

Definition right_two : bytes :=
  nl ["@a/2"; "TGCA"; "+"; "FFFF"; "@b/2"; "AACC"; "+"; "GGGG"]%string.

Definition interleaved_four : bytes :=
  nl ["@a/1"; "ACGT"; "+"; "IIII"; "@a/2"; "TGCA"; "+"; "FFFF";
      "@b/1"; "GGTT"; "+"; "JJJJ"; "@b/2"; "AACC"; "+"; "GGGG"]%string.

Definition pair_a : ReadPair :=
  mkReadPair (rec4 "@a/1" "ACGT" "IIII") (rec4 "@a/2" "TGCA" "FFFF").

Definition pair_b : ReadPair :=
  mkReadPair (rec4 "@b/1" "GGTT" "JJJJ") (rec4 "@b/2" "AACC" "GGGG").

Definition two_files : world :=
  files [("R1.fq", left_three); ("R2.fq", right_two)]%string.

Definition one_interleaved_file : world :=
  files [("R12.fq", interleaved_four)]%string.

(** [left_three] with a quality line one character short in its first
    record. *)
Definition left_three_short_quality : bytes :=
  nl ["@a/1"; "ACGT"; "+"; "III"; "@b/1"; "GGTT"; "+"; "JJJJ";
      "@c/1"; "TTAA"; "+"; "HHHH"]%string.

Definition short_quality_files : world :=
  files [("R1.fq", left_three_short_quality); ("R2.fq", right_two)]%string.

(** [right_two] and [interleaved_four] without their last line feed. *)
Definition cut_right_files : world :=
  files [("R1.fq", left_three); ("R2.fq", removelast right_two)]%string.

Definition cut_interleaved_file : world :=
  files [("R12.fq", removelast interleaved_four)]%string.

(** The records of [left_three], [right_two] and [interleaved_four]. *)
Definition rec_a1 : bytes * bytes * bytes * bytes :=
  (s2b "a/1", s2b "ACGT", s2b "+", s2b "IIII").
Definition rec_a2 : bytes * bytes * bytes * bytes :=
  (s2b "a/2", s2b "TGCA", s2b "+", s2b "FFFF").
Definition rec_b1 : bytes * bytes * bytes * bytes :=
  (s2b "b/1", s2b "GGTT", s2b "+", s2b "JJJJ").
Definition rec_b2 : bytes * bytes * bytes * bytes :=
  (s2b "b/2", s2b "AACC", s2b "+", s2b "GGGG").
Definition rec_c1 : bytes * bytes * bytes * bytes :=
  (s2b "c/1", s2b "TTAA", s2b "+", s2b "HHHH").

(** The quality line of the record is as long as its sequence line, each
    without its carriage return: the test of [read]. *)
Definition record_fits (hasQuality : bool)
    (rc : bytes * bytes * bytes * bytes) : bool :=
  let '(n, s, p, q) := rc in
  if hasQuality then (length (chomp q) =? length (chomp s))%nat else true.

(** The record [read] builds from the lines of a record. *)
Definition record_of (hasQuality phred64 : bool)
    (rc : bytes * bytes * bytes * bytes) : Read :=
  let '(n, s, p, q) := rc in
  mkRead ("@"%char :: chomp n) (chomp s) (chomp p)
         (if hasQuality then chomp q
          else repeat "K"%char (length (chomp s)))
         phred64.

(** What the constructor opens for [path]: standard input for
    "/dev/stdin", the file of that name otherwise; [None] when the path
    cannot be opened. *)
Definition source_of (w : world) (path : bytes) : option bytes :=
  if ends_with path (s2b ".gz") then fs w path
  else if list_eq_dec ascii_dec path (s2b "/dev/stdin")
       then Some (stdin_data w)
       else fs w path.

(** The reader [init] hands to the first refill, for a path opened on the
    bytes [d]. *)
Definition opened (path : bytes) (hasQuality phred64 : bool) (d : bytes)
  : FastqReader :=
  let gz := ends_with path (s2b ".gz") in
  mkReader path (if gz then Some (mkStream d false) else None) gz
           (if gz then None else Some (mkStream d false))
           false phred64 hasQuality [] 0 0 false (mkCtx 0 0 0 []) INITIAL.

(** The settings of a reader. *)
Definition config (r : FastqReader) : bytes * bool * bool * bool :=
  (mFilename r, mZipped r, mHasQuality r, mPhred64 r).

(** The flag says that the chunk in the buffer is shorter than the
    capacity and that its last byte is no line feed. *)
Definition flag_ok (r : FastqReader) : Prop :=
  mHasNoLineBreakAtEnd r =
  (mBufDataLen r <? FQ_BUF_SIZE) &&
  match buf_at (mBuf r) (mBufDataLen r - 1) with
  | Some c => negb (Ascii.eqb c LF)
  | None => false
  end.

(** What holds of a reader from its construction on, inside [getLine] too. *)
Record sound (r : FastqReader) : Prop := mkSound {
  so_used : mBufUsedLen r = 0;
  so_data : 0 < mBufDataLen r <= FQ_BUF_SIZE;
  so_len : len (ctx r) = mBufDataLen r;
  so_buf : Z.of_nat (length (mBuf r)) = mBufDataLen r;
  so_cursor : 0 <= start (ctx r) <= end_ (ctx r) /\ end_ (ctx r) <= len (ctx r);
  so_scan : state r = INITIAL -> end_ (ctx r) = start (ctx r);
  so_done : state r = DONE -> len (ctx r) < FQ_BUF_SIZE;
  so_flag : flag_ok r;
  so_stdin : mStdinMode r = false;
  so_source : exists s, handle r = Some s /\
                (len (ctx r) < FQ_BUF_SIZE -> unread s = []) /\
                (eof_flag s = true -> len (ctx r) < FQ_BUF_SIZE)
}.

(** A reader between two calls: about to scan with nothing accumulated,
    or in the terminal state. *)
Definition between (r : FastqReader) : Prop :=
  (state r = INITIAL /\ partial (ctx r) = []) \/ state r = DONE.

(** The bytes of the input lie in the buffer and the source: what the
    reader went past, the chunk in the buffer, what is still to be read. *)
Definition feeds (data : bytes) (r : FastqReader) : Prop :=
  exists pre, data = pre ++ mBuf r ++ unread_of r.

(** A reader about to scan the chunk in its buffer, nothing accumulated;
    nothing is asked of its source. *)
Record framed (r : FastqReader) : Prop := mkFramed {
  fr_state : state r = INITIAL;
  fr_end : end_ (ctx r) = start (ctx r);
  fr_start : 0 <= start (ctx r) <= len (ctx r);
  fr_len : len (ctx r) = Z.of_nat (length (mBuf r));
  fr_partial : partial (ctx r) = []
}.

(** The reader with its cursor [k] bytes further. *)
Definition advance (k : Z) (r : FastqReader) : FastqReader :=
  set_ctx (mkCtx (len (ctx r)) (start (ctx r) + k) (start (ctx r) + k) []) r.

(** Two readers on open sources in the same state, whatever their names
    and whichever of the two handles each uses. *)
Definition twin (a b : FastqReader) : Prop :=
  (exists s, handle a = Some s /\ handle b = Some s) /\
  mPhred64 a = mPhred64 b /\ mHasQuality a = mHasQuality b /\
  mBuf a = mBuf b /\ mBufDataLen a = mBufDataLen b /\
  mBufUsedLen a = mBufUsedLen b /\
  mHasNoLineBreakAtEnd a = mHasNoLineBreakAtEnd b /\
  ctx a = ctx b /\ state a = state b.

(** Two outcomes that agree: the same fault, exit or cut, or results
    related by [R]. *)
Definition agree {A : Type} (R : A -> A -> Prop) (x y : outcome A) : Prop :=
  match x, y with
  | Ret a, Ret b => R a b
  | Fault f, Fault g => f = g
  | Exit m, Exit n => m = n
  | Spin, Spin => True
  | _, _ => False
  end.

(** The same value, and twin readers. *)
Definition same_and_twin {A : Type} (x y : A * FastqReader) : Prop :=
  fst x = fst y /\ twin (snd x) (snd y).

(** The results of successive calls, taken two by two. *)
Fixpoint pairs (xs : list (option Read)) : list (option ReadPair) :=
  match xs with
  | a :: b :: t => pair_up a b :: pairs t
  | _ => []
  end.

(** The results of two sequences of calls, taken side by side. *)
Definition side_by_side (xs ys : list (option Read))
  : list (option ReadPair) :=
  map (fun ab => pair_up (fst ab) (snd ab)) (combine xs ys).

(** [two_records_reader] after its first record has been read. *)
Definition after_first_record : FastqReader :=
  set_ctx (mkCtx 32 16 16 []) (two_records_reader (s2b "in.fq") false false).

(** The reader opened on [one_record_cut], and the reader its first call
    of [read] leaves. *)
Definition cut_reader : FastqReader :=
  mkReader (s2b "in.fq") None false (Some (mkStream [] true)) false false
           true one_record_cut 15 0 true (mkCtx 15 0 0 []) INITIAL.

Definition cut_reader_done : FastqReader :=
  set_state DONE (set_ctx (mkCtx 15 11 15 (s2b "IIII")) cut_reader).

(** A line that is one carriage return, then a record. *)
Definition cr_then_record : bytes := [CR; LF] ++ one_record.

Definition cr_reader : FastqReader :=
  mkReader (s2b "in.fq") None false (Some (mkStream [] true)) false false
           true cr_then_record 18 0 false (mkCtx 18 0 0 []) INITIAL.

(** Two lines without the marker, then a record. *)
Definition junk_then_record : bytes :=
  nl ["junk"; "more junk"]%string ++ one_record.

Definition junk_reader : FastqReader :=
  mkReader (s2b "in.fq") None false (Some (mkStream [] true)) false false
           true junk_then_record 31 0 false (mkCtx 31 0 0 []) INITIAL.

(** The two records of [two_records], as lines. *)
Definition two_recs : list (bytes * bytes * bytes * bytes) :=
  [(s2b "r1", s2b "ACGT", s2b "+", s2b "IIII");
   (s2b "r2", s2b "GGTT", s2b "+", s2b "JJJJ")].

(** A world in which the two files of [test] hold [two_records]. *)
Definition test_files : world :=
  files [("testdata/R1.fq", two_records);
         ("testdata/R1.fq.gz", two_records)]%string.

(** * Properties *)

(** ** The line scanner always comes back *)

Lemma FQ_BUF_SIZE_pos : 0 < FQ_BUF_SIZE.
Proof. reflexivity. Qed.

(** The proofs below use the capacity through [FQ_BUF_SIZE_pos] only. *)
Opaque FQ_BUF_SIZE.

(** More fuel never changes an answer of [getLine_loop]. *)
Lemma getLine_loop_more :
  forall n r x, getLine_loop n r = x -> x <> Spin ->
  forall m, (n <= m)%nat -> getLine_loop m r = x.
Proof.
  induction n as [|n IH]; intros r x Hx Hs m Hm.
  - destruct m; simpl in *; destruct (state r); congruence.
  - destruct m as [|m]; [lia|].
    simpl in *. destruct (state r); try assumption.
    + destruct (next (mBuf r) (ctx r)) as [[result c] cx].
      destruct c; [assumption|].
      apply IH; [assumption|assumption|lia].
    + destruct (_ || _ || _).
      * apply IH; [assumption|assumption|lia].
      * destruct (readToBuf r) as [r'| | |]; simpl in *; try assumption.
        apply IH; [assumption|assumption|lia].
Qed.

Lemma stream_read_length :
  forall n s, 0 < n ->
  (length (fst (stream_read n s)) <= length (unread s))%nat /\
  (length (fst (stream_read n s)) <> 0%nat ->
   length (unread (snd (stream_read n s))) < length (unread s))%nat.
Proof.
  intros n s Hn. unfold stream_read. simpl.
  rewrite length_firstn, length_skipn. split; lia.
Qed.

(** In [H : bind c k = _], take the case in which [c] returned. *)
Ltac split_bind H b Hc :=
  match type of H with
  | bind ?c _ = _ =>
      destruct c as [b| | |] eqn:Hc;
      [cbn [bind] in H | cbn [bind] in H; discriminate H ..]
  end.

(** What a refill that returns has done. *)
Lemma readToBuf_Ret :
  forall r r', readToBuf r = Ret r' ->
  exists s d s',
    handle r = Some s /\ stream_read FQ_BUF_SIZE s = (d, s') /\
    0 < Z.of_nat (length d) /\
    handle r' = Some s' /\ mZipped r' = mZipped r /\
    mBuf r' = d /\ mBufDataLen r' = Z.of_nat (length d) /\
    mBufUsedLen r' = 0 /\
    ctx r' = mkCtx (Z.of_nat (length d)) 0 0 (partial (ctx r)) /\
    state r' = state r /\ mHasQuality r' = mHasQuality r /\
    mPhred64 r' = mPhred64 r.
Proof.
  intros r r' H.
  assert (Hflag : forall n d x b,
    (if n <? FQ_BUF_SIZE
     then match buf_at d (n - 1) with
          | None => Fault (BufIndex (n - 1))
          | Some c => Ret (if Ascii.eqb c LF then x else true)
          end
     else Ret x) = Ret b -> 0 < n).
  { intros n d x b E. pose proof FQ_BUF_SIZE_pos.
    destruct (n <? FQ_BUF_SIZE) eqn:En; [|lia].
    unfold buf_at in E. destruct (n - 1 <? 0) eqn:E1; [discriminate|lia]. }
  unfold readToBuf, pull, handle in *.
  destruct (mZipped r) eqn:Hz.
  - destruct (mZipFile r) as [s|] eqn:Hf.
    + destruct (stream_read FQ_BUF_SIZE s) as [d s'] eqn:Hs.
      cbn [bind] in H.
      split_bind H b Hc.
      apply Hflag in Hc. inversion H; subst; clear H.
      exists s, d, s'. cbn. repeat split; auto.
    + cbn [bind] in H.
      split_bind H b Hc.
      apply Hflag in Hc. lia.
  - destruct (mFile r) as [s|] eqn:Hf; [|discriminate].
    destruct (stream_read FQ_BUF_SIZE s) as [d s'] eqn:Hs.
    cbn [bind] in H.
    split_bind H b Hc.
    apply Hflag in Hc. inversion H; subst; clear H.
    exists s, d, s'. cbn. repeat split; auto.
Qed.

(** The bytes the source still holds. *)
Lemma left_to_read_handle :
  forall r, left_to_read r =
            match handle r with Some s => length (unread s) | None => O end.
Proof. reflexivity. Qed.

(** A refill that returns has delivered a byte, and left the source
    shorter. *)
Lemma readToBuf_progress :
  forall r r', readToBuf r = Ret r' ->
  (left_to_read r' < left_to_read r)%nat.
Proof.
  intros r r' H. apply readToBuf_Ret in H.
  destruct H as (s & d & s' & Hh & Hs & Hd & Hh' & _).
  rewrite !left_to_read_handle, Hh, Hh'.
  pose proof (stream_read_length FQ_BUF_SIZE s FQ_BUF_SIZE_pos) as [_ Hlt].
  rewrite Hs in Hlt. simpl in Hlt. apply Hlt. lia.
Qed.

(** A refill has no loop of its own. *)
Lemma readToBuf_no_Spin : forall r, readToBuf r <> Spin.
Proof.
  intro r. unfold readToBuf, pull.
  destruct (mZipped r); [destruct (mZipFile r) | destruct (mFile r)];
    try destruct (stream_read _ _); cbn [bind];
    try discriminate.
  all: match goal with
       | |- context [if ?b then _ else _] => destruct b
       end; cbn [bind]; try discriminate.
  all: destruct (buf_at _ _); cbn [bind]; discriminate.
Qed.

Lemma getLine_loop_enough :
  forall n r, (rounds r <= n)%nat -> getLine_loop n r <> Spin.
Proof.
  induction n as [|n IH]; intros r Hr.
  - unfold rounds in Hr. simpl. destruct (state r); try lia. discriminate.
  - unfold rounds in Hr. simpl. revert Hr. destruct (state r) eqn:Hst; intro Hr.
    + destruct (next (mBuf r) (ctx r)) as [[result c] cx].
      destruct c.
      * destruct (back _); discriminate.
      * apply IH. unfold rounds. simpl.
        change (left_to_read (set_state NEW_CHUNK (set_ctx _ r)))
          with (left_to_read r). lia.
    + destruct (_ || _ || _).
      * apply IH. unfold rounds. simpl. lia.
      * pose proof (readToBuf_no_Spin r) as Hns.
        destruct (readToBuf r) as [r'| | |] eqn:Hrb; simpl;
          try discriminate; [|congruence].
        apply IH. apply readToBuf_progress in Hrb.
        unfold rounds. simpl.
        change (left_to_read (set_state INITIAL r')) with (left_to_read r').
        lia.
    + discriminate.
Qed.

(** [getLine] returns, faults or exits: its loop is never cut short. *)
Lemma getLine_total : forall r, getLine r <> Spin.
Proof.
  intro r. unfold getLine. apply getLine_loop_enough.
  unfold rounds. destruct (state r); lia.
Qed.

(** [getLine] is its loop with any fuel from [rounds] on. *)
Lemma getLine_fuel :
  forall r n, (rounds r <= n)%nat -> getLine_loop n r = getLine r.
Proof.
  intros r n Hn.
  destruct (Nat.le_ge_cases n (2 * left_to_read r + 3)) as [H|H].
  - symmetry. apply (getLine_loop_more n r _ eq_refl); [|exact H].
    apply getLine_loop_enough. exact Hn.
  - apply (getLine_loop_more _ r _ eq_refl); [apply getLine_total|exact H].
Qed.

(** In the terminal state [getLine] answers the empty line and changes
    nothing. *)
Lemma getLine_DONE :
  forall r, state r = DONE -> getLine r = Ret ([], r).
Proof.
  intros r H. unfold getLine.
  destruct (2 * left_to_read r + 3)%nat; simpl; rewrite H; reflexivity.
Qed.

Lemma getLine_loop_DONE :
  forall n r, state r = DONE -> getLine_loop n r = Ret ([], r).
Proof. intros [|n] r H; simpl; rewrite H; reflexivity. Qed.

(** ** The two paths of the scanner *)

Lemma back_app_one : forall l c, back (l ++ [c]) = Some c.
Proof.
  induction l as [|a l IH]; intro c; [reflexivity|].
  simpl. rewrite IH. destruct (l ++ [c]) eqn:E; [|reflexivity].
  destruct l; discriminate.
Qed.

Lemma back_None : forall l, back l = None <-> l = [].
Proof.
  intro l. split; [|intros ->; reflexivity].
  destruct l as [|a l] using rev_ind; [reflexivity|].
  rewrite back_app_one. discriminate.
Qed.

Lemma chomp_CR : forall l, chomp (l ++ [CR]) = l.
Proof.
  intro l. unfold chomp, pop_back. rewrite back_app_one.
  simpl. apply removelast_last.
Qed.

Lemma chomp_other :
  forall l, back l <> Some CR -> chomp l = l.
Proof.
  intros l H. unfold chomp. destruct (back l) as [ch|]; [|reflexivity].
  destruct (Ascii.eqb ch CR) eqn:E; [|reflexivity].
  apply Ascii.eqb_eq in E. congruence.
Qed.

Lemma window_mid :
  forall pre mid post,
  window (pre ++ mid ++ post) (Z.of_nat (length pre))
         (Z.of_nat (length pre) + Z.of_nat (length mid)) = mid.
Proof.
  intros pre mid post. unfold window.
  rewrite Nat2Z.id.
  replace (Z.to_nat (Z.of_nat (length pre) + Z.of_nat (length mid)
                     - Z.of_nat (length pre))) with (length mid) by lia.
  rewrite skipn_app, skipn_all, Nat.sub_diag. simpl.
  rewrite firstn_app, firstn_all, Nat.sub_diag. simpl.
  apply app_nil_r.
Qed.

Lemma window_rest :
  forall pre rest,
  window (pre ++ rest) (Z.of_nat (length pre))
         (Z.of_nat (length (pre ++ rest))) = rest.
Proof.
  intros pre rest.
  pose proof (window_mid pre rest []) as H.
  rewrite app_nil_r in H. rewrite length_app, Nat2Z.inj_add. exact H.
Qed.

Lemma scan_from_stop :
  forall l post e, ~ In LF l ->
  scan_from (l ++ LF :: post) e = e + Z.of_nat (length l).
Proof.
  induction l as [|a l IH]; intros post e Hn.
  - simpl. lia.
  - simpl. destruct (Ascii.eqb a LF) eqn:E.
    + apply Ascii.eqb_eq in E. exfalso. apply Hn. left. exact E.
    + rewrite IH; [lia|]. intro Hin. apply Hn. right. exact Hin.
Qed.

Lemma scan_from_end :
  forall l e, ~ In LF l -> scan_from l e = e + Z.of_nat (length l).
Proof.
  induction l as [|a l IH]; intros e Hn.
  - simpl. lia.
  - simpl. destruct (Ascii.eqb a LF) eqn:E.
    + apply Ascii.eqb_eq in E. exfalso. apply Hn. left. exact E.
    + rewrite IH; [lia|]. intro Hin. apply Hn. right. exact Hin.
Qed.

(** [next] keeps what is accumulated and the length of the chunk. *)
Lemma next_keeps :
  forall buf c line b cx,
  next buf c = (line, b, cx) -> partial cx = partial c /\ len cx = len c.
Proof.
  intros buf c line b cx H. unfold next, scan_buf in H.
  destruct (_ =? _) in H; inversion H; subst; simpl; auto.
Qed.

(** [next] on a chunk that holds the line and its terminator. *)
Lemma next_line :
  forall pre l post p,
  ~ In LF l ->
  let buf := pre ++ l ++ LF :: post in
  let k := Z.of_nat (length pre) in
  let k' := Z.of_nat (length (pre ++ l ++ [LF])) in
  next buf (mkCtx (Z.of_nat (length buf)) k k p)
  = (l, true, mkCtx (Z.of_nat (length buf)) k' k' p).
Proof.
  intros pre l post p Hn buf k k'. unfold next, scan_buf. simpl.
  assert (Hw : window buf k (Z.of_nat (length buf)) = l ++ LF :: post)
    by apply window_rest.
  rewrite Hw, scan_from_stop by assumption.
  assert (Hlen : Z.of_nat (length buf)
                 = k + Z.of_nat (length l) + 1 + Z.of_nat (length post)).
  { unfold buf, k. rewrite !length_app. simpl. lia. }
  destruct (k + Z.of_nat (length l) =? Z.of_nat (length buf)) eqn:E; [lia|].
  unfold buf, k. rewrite window_mid.
  assert (Hk : k' = Z.of_nat (length pre) + Z.of_nat (length l) + 1).
  { unfold k'. rewrite !length_app. simpl. lia. }
  rewrite Hk. reflexivity.
Qed.

(** [next] on a chunk whose last bytes have no terminator. *)
Lemma next_tail :
  forall pre l p,
  ~ In LF l ->
  let buf := pre ++ l in
  let k := Z.of_nat (length pre) in
  next buf (mkCtx (Z.of_nat (length buf)) k k p)
  = (l, false, mkCtx (Z.of_nat (length buf)) k (Z.of_nat (length buf)) p).
Proof.
  intros pre l p Hn buf k. unfold next, scan_buf. simpl.
  assert (Hw : window buf k (Z.of_nat (length buf)) = l)
    by apply window_rest.
  rewrite Hw, scan_from_end by assumption.
  assert (Hlen : Z.of_nat (length buf) = k + Z.of_nat (length l)).
  { unfold buf, k. rewrite !length_app. lia. }
  rewrite <- Hlen, Z.eqb_refl, Hw. reflexivity.
Qed.

(** The terminator-found path of [getLine]: the accumulated bytes and the
    bytes up to the terminator make the line; its last character is
    inspected, and one carriage return is dropped. *)
Lemma getLine_complete :
  forall r result cx,
  state r = INITIAL ->
  next (mBuf r) (ctx r) = (result, true, cx) ->
  getLine r =
  match back (partial (ctx r) ++ result) with
  | None => Fault BackOfEmpty
  | Some _ => Ret (chomp (partial (ctx r) ++ result),
                   set_ctx (set_partial [] cx) r)
  end.
Proof.
  intros r result cx Hst Hn. unfold getLine.
  replace (2 * left_to_read r + 3)%nat
    with (S (2 * left_to_read r + 2)) by lia.
  simpl. rewrite Hst, Hn.
  destruct (next_keeps _ _ _ _ _ Hn) as [Hp _]. rewrite Hp.
  unfold chomp. destruct (back (partial (ctx r) ++ result)); reflexivity.
Qed.

(** The other path, in a chunk shorter than the capacity: [getLine] moves
    to [DONE] and answers the empty line; what it has accumulated stays in
    [partial]. *)
Lemma getLine_short_tail :
  forall r result cx,
  state r = INITIAL ->
  next (mBuf r) (ctx r) = (result, false, cx) ->
  len (ctx r) < FQ_BUF_SIZE ->
  getLine r =
  Ret ([], set_state DONE
             (set_state NEW_CHUNK
                (set_ctx (set_partial (partial (ctx r) ++ result) cx) r))).
Proof.
  intros r result cx Hst Hn Hlen. unfold getLine.
  replace (2 * left_to_read r + 3)%nat
    with (S (S (2 * left_to_read r + 1))) by lia.
  cbn [getLine_loop]. rewrite Hst, Hn.
  destruct (next_keeps _ _ _ _ _ Hn) as [Hp Hl]. rewrite Hp.
  cbn [state set_state set_ctx ctx set_partial len].
  rewrite Hl.
  destruct (len (ctx r) <? FQ_BUF_SIZE) eqn:E; [|lia].
  cbn [orb]. apply getLine_loop_DONE. reflexivity.
Qed.

(** ** The record assembler *)

Lemma skip_loop_stop :
  forall fuel name r,
  not_a_name name r = false -> skip_loop fuel name r = Ret (name, r).
Proof. intros [|fuel] name r H; simpl; rewrite H; reflexivity. Qed.

(** More fuel never changes an answer of the skipping loop, nor of [read]. *)
Lemma skip_loop_more :
  forall n name r x, skip_loop n name r = x -> x <> Spin ->
  forall m, (n <= m)%nat -> skip_loop m name r = x.
Proof.
  induction n as [|n IH]; intros name r x Hx Hs m Hm.
  - simpl in Hx. destruct (not_a_name name r) eqn:E; [congruence|].
    rewrite skip_loop_stop by assumption. exact Hx.
  - destruct m as [|m]; [lia|]. simpl in *.
    destruct (not_a_name name r); [|exact Hx].
    destruct (getLine r) as [[name' r']| | |]; simpl in *; try exact Hx.
    apply IH; [exact Hx|exact Hs|lia].
Qed.

Lemma read_more :
  forall n r x, read n r = x -> x <> Spin ->
  forall m, (n <= m)%nat -> read m r = x.
Proof.
  intros n r x Hx Hs m Hm. unfold read in *.
  destruct (_ && _); [exact Hx|].
  destruct (used_up r); [exact Hx|].
  destruct (getLine r) as [[name r1]| | |]; simpl in *; try exact Hx.
  destruct (empty name); [exact Hx|].
  destruct (skip_loop n name r1) as [[name' r2]| | |] eqn:E.
  - rewrite (skip_loop_more n name r1 _ E) by (discriminate || exact Hm).
    exact Hx.
  - rewrite (skip_loop_more n name r1 _ E) by (discriminate || exact Hm).
    exact Hx.
  - rewrite (skip_loop_more n name r1 _ E) by (discriminate || exact Hm).
    exact Hx.
  - simpl in Hx. congruence.
Qed.

(** Once the scanner is in its terminal state, [read] answers null and
    changes nothing. *)
Lemma read_DONE :
  forall fuel r, state r = DONE -> read fuel r = Ret (None, r).
Proof.
  intros fuel r H. unfold read.
  destruct (_ && _); [reflexivity|].
  destruct (used_up r); [reflexivity|].
  rewrite getLine_DONE by assumption. reflexivity.
Qed.

Lemma reads_DONE :
  forall fuel n r, state r = DONE -> reads fuel n r = Ret (repeat None n, r).
Proof.
  intros fuel n r H. induction n as [|n IH]; [reflexivity|].
  simpl. rewrite read_DONE by assumption. simpl. rewrite IH. reflexivity.
Qed.

Lemma reads_app :
  forall fuel a b r,
  reads fuel (a + b) r =
  '(xs, r1) <- reads fuel a r ;;
  '(ys, r2) <- reads fuel b r1 ;;
  Ret (xs ++ ys, r2).
Proof.
  intros fuel a. induction a as [|a IH]; intros b r.
  - simpl. destruct (reads fuel b r) as [[ys r2]| | |]; reflexivity.
  - simpl. destruct (read fuel r) as [[x r1]| | |]; simpl; try reflexivity.
    rewrite IH.
    destruct (reads fuel a r1) as [[xs r2]| | |]; simpl; try reflexivity.
    destruct (reads fuel b r2) as [[ys r3]| | |]; reflexivity.
Qed.

Lemma chomp_name :
  forall n, chomp ("@"%char :: n) = "@"%char :: chomp n.
Proof.
  intro n. unfold chomp, pop_back. destruct n as [|a n]; [reflexivity|].
  change (back ("@"%char :: a :: n)) with (back (a :: n)).
  destruct (back (a :: n)) as [ch|]; [|reflexivity].
  destruct (Ascii.eqb ch CR); reflexivity.
Qed.

Lemma live_guards :
  forall r, live r = true ->
  mZipped r && (match mZipFile r with None => true | Some _ => false end)
  = false /\ used_up r = false.
Proof.
  intros r H. unfold live in H. apply andb_true_iff in H.
  destruct H as [H1 H2]. apply negb_true_iff in H1, H2. auto.
Qed.

Lemma no_lf_In : forall l, no_lf l = true -> ~ In LF l.
Proof.
  intros l H Hin. unfold no_lf in H. rewrite forallb_forall in H.
  specialize (H LF Hin). rewrite Ascii.eqb_refl in H. discriminate.
Qed.

Lemma is_line_spec : forall l, is_line l = true -> ~ In LF l /\ l <> [].
Proof.
  intros l H. unfold is_line in H. apply andb_true_iff in H.
  destruct H as [H1 H2]. split; [apply no_lf_In; exact H2|].
  intros ->. discriminate.
Qed.

(** Reading lines never changes the configuration of the reader. *)
Lemma getLine_loop_keeps :
  forall n r l r', getLine_loop n r = Ret (l, r') ->
  mHasQuality r' = mHasQuality r /\ mPhred64 r' = mPhred64 r.
Proof.
  induction n as [|n IH]; intros r l r' H; simpl in H.
  - destruct (state r); inversion H; subst; auto.
  - destruct (state r).
    + destruct (next (mBuf r) (ctx r)) as [[result c] cx].
      destruct c.
      * destruct (back _); inversion H; subst; auto.
      * apply IH in H. exact H.
    + destruct (_ || _ || _).
      * apply IH in H. exact H.
      * split_bind H r1 Hr.
        apply IH in H. apply readToBuf_Ret in Hr.
        destruct Hr as (s & d & s' & _ & _ & _ & _ & _ & _ & _ & _ & _ & _
                        & Hq & Hp).
        cbn [set_state mHasQuality mPhred64] in H.
        destruct H as [H1 H2]. split; congruence.
    + inversion H; subst; auto.
Qed.

Lemma getLine_keeps :
  forall r l r', getLine r = Ret (l, r') ->
  mHasQuality r' = mHasQuality r /\ mPhred64 r' = mPhred64 r.
Proof. intros r l r'. apply getLine_loop_keeps. Qed.

Lemma skip_loop_keeps :
  forall n name r name' r', skip_loop n name r = Ret (name', r') ->
  mHasQuality r' = mHasQuality r /\ mPhred64 r' = mPhred64 r.
Proof.
  induction n as [|n IH]; intros name r name' r' H; simpl in H.
  - destruct (not_a_name name r); inversion H; subst; auto.
  - destruct (not_a_name name r); [|inversion H; subst; auto].
    destruct (getLine r) as [[l r1]| | |] eqn:E; try discriminate.
    cbn [bind] in H. apply IH in H. apply getLine_keeps in E.
    destruct H, E. split; congruence.
Qed.

(** ** Lines across chunks *)

Lemma ctx_eta :
  forall c, c = mkCtx (len c) (start c) (end_ c) (partial c).
Proof. intros []; reflexivity. Qed.

Lemma split_LF :
  forall l, ~ In LF l \/ exists a b, l = a ++ LF :: b /\ ~ In LF a.
Proof.
  induction l as [|c l IH].
  - left. intros [].
  - destruct (ascii_dec c LF) as [->|Hc].
    + right. exists [], l. split; [reflexivity|intros []].
    + destruct IH as [IH|(a & b & -> & Ha)].
      * left. intros [H|H]; [congruence|contradiction].
      * right. exists (c :: a), b. split; [reflexivity|].
        intros [H|H]; [congruence|contradiction].
Qed.

Lemma first_LF_unique :
  forall a b a' b',
  a ++ LF :: b = a' ++ LF :: b' -> ~ In LF a -> ~ In LF a' ->
  a = a' /\ b = b'.
Proof.
  induction a as [|x a IH]; intros b a' b' H Ha Ha'.
  - destruct a' as [|y a']; simpl in H.
    + inversion H. auto.
    + inversion H; subst. exfalso. apply Ha'. left. reflexivity.
  - destruct a' as [|y a']; simpl in H.
    + inversion H; subst. exfalso. apply Ha. left. reflexivity.
    + inversion H; subst.
      destruct (IH b a' b' H2) as [-> ->].
      * intro Hin. apply Ha. right. exact Hin.
      * intro Hin. apply Ha'. right. exact Hin.
      * auto.
Qed.

(** The chunk of a scanning reader, cut at the cursor. *)
Lemma scanning_cut :
  forall r, scanning r ->
  let pre := firstn (Z.to_nat (start (ctx r))) (mBuf r) in
  let cur := skipn (Z.to_nat (start (ctx r))) (mBuf r) in
  mBuf r = pre ++ cur /\
  ctx r = mkCtx (Z.of_nat (length (pre ++ cur))) (Z.of_nat (length pre))
                (Z.of_nat (length pre)) (partial (ctx r)).
Proof.
  intros r H pre cur.
  assert (Hb : mBuf r = pre ++ cur) by (symmetry; apply firstn_skipn).
  split; [exact Hb|].
  assert (Hp : Z.of_nat (length pre) = start (ctx r)).
  { unfold pre. rewrite length_firstn.
    pose proof (sc_start r H). pose proof (sc_len r H). lia. }
  rewrite <- Hb, Hp, <- (sc_len r H).
  rewrite (ctx_eta (ctx r)) at 1. rewrite (sc_end r H). reflexivity.
Qed.

(** The terminator is in the chunk: [getLine] returns the line and stays
    ready, the bytes after the terminator pending. *)
Lemma scanning_found :
  forall r c1 c2,
  scanning r ->
  skipn (Z.to_nat (start (ctx r))) (mBuf r) = c1 ++ LF :: c2 ->
  ~ In LF c1 -> partial (ctx r) ++ c1 <> [] ->
  exists r',
    getLine r = Ret (chomp (partial (ctx r) ++ c1), r') /\
    ready r' /\ pending r' = c2 ++ unread_of r /\
    mHasQuality r' = mHasQuality r /\ mPhred64 r' = mPhred64 r.
Proof.
  intros r c1 c2 H Hcur Hn Hne.
  destruct (scanning_cut r H) as [Hb Hc]. cbv zeta in Hb, Hc.
  rewrite Hcur in Hb, Hc.
  set (pre := firstn (Z.to_nat (start (ctx r))) (mBuf r)) in *.
  pose proof (next_line pre c1 c2 (partial (ctx r)) Hn) as Hnx.
  cbv zeta in Hnx. rewrite <- Hc in Hnx. rewrite <- Hb in Hnx.
  eexists. split; [|split; [|split; [|split]]].
  - rewrite (getLine_complete r _ _ (sc_state r H) Hnx).
    destruct (back (partial (ctx r) ++ c1)) eqn:Eb;
      [reflexivity|apply back_None in Eb; contradiction].
  - assert (Hk : Z.of_nat (length (pre ++ c1 ++ [LF]))
                 <= Z.of_nat (length (mBuf r))).
    { rewrite Hb, !length_app. simpl. lia. }
    split; [|reflexivity]. destruct H. split; simpl; auto; try lia.
    rewrite <- sc_len0. exact sc_source0.
  - unfold pending. simpl. rewrite Nat2Z.id.
    replace (mBuf r) with ((pre ++ c1 ++ [LF]) ++ c2)
      by (rewrite Hb, <- !app_assoc; reflexivity).
    rewrite skipn_app, skipn_all, Nat.sub_diag. reflexivity.
  - reflexivity.
  - reflexivity.
Qed.

Lemma left_to_read_unread :
  forall r, left_to_read r = length (unread_of r).
Proof.
  intro r. rewrite left_to_read_handle. unfold unread_of.
  destruct (handle r); reflexivity.
Qed.

(** A refill on a source that still holds bytes returns. *)
Lemma readToBuf_some :
  forall r s, handle r = Some s -> unread s <> [] ->
  exists r1, readToBuf r = Ret r1.
Proof.
  intros r s Hh Hu. pose proof FQ_BUF_SIZE_pos as HC.
  assert (Hd : forall x,
    exists b,
      (if Z.of_nat (length (firstn (Z.to_nat FQ_BUF_SIZE) (unread s)))
          <? FQ_BUF_SIZE
       then match buf_at (firstn (Z.to_nat FQ_BUF_SIZE) (unread s))
                    (Z.of_nat (length (firstn (Z.to_nat FQ_BUF_SIZE)
                                              (unread s))) - 1) with
            | None => Fault (BufIndex
                        (Z.of_nat (length (firstn (Z.to_nat FQ_BUF_SIZE)
                                                  (unread s))) - 1))
            | Some c => Ret (if Ascii.eqb c LF then x else true)
            end
       else Ret x) = Ret b).
  { intro x. set (d := firstn (Z.to_nat FQ_BUF_SIZE) (unread s)).
    assert (Hl : (0 < length d)%nat).
    { unfold d. rewrite length_firstn.
      destruct (unread s); [contradiction|]. simpl. lia. }
    destruct (Z.of_nat (length d) <? FQ_BUF_SIZE); [|eexists; reflexivity].
    unfold buf_at. destruct (Z.of_nat (length d) - 1 <? 0) eqn:E; [lia|].
    destruct (nth_error d (Z.to_nat (Z.of_nat (length d) - 1))) eqn:En;
      [eexists; reflexivity|].
    apply nth_error_None in En. lia. }
  unfold readToBuf, pull. unfold handle in Hh.
  destruct (mZipped r); rewrite Hh; unfold stream_read; cbn [bind];
    destruct (Hd (mHasNoLineBreakAtEnd r)) as [b Hb]; rewrite Hb;
    cbn [bind]; eexists; reflexivity.
Qed.

(** The terminator is not in the chunk and the source holds more: the
    rest of the chunk is accumulated, a refill follows, and [getLine] goes
    on as on the reader the refill leaves. *)
Lemma scanning_refill :
  forall r,
  scanning r ->
  ~ In LF (skipn (Z.to_nat (start (ctx r))) (mBuf r)) ->
  unread_of r <> [] ->
  exists r1,
    getLine r = getLine r1 /\
    scanning r1 /\
    pending r1 = pending r /\
    (length (unread_of r1) < length (unread_of r))%nat /\
    mHasQuality r1 = mHasQuality r /\ mPhred64 r1 = mPhred64 r /\
    (forall t, accounts t r -> accounts t r1).
Proof.
  intros r H Hn Hu.
  destruct (scanning_cut r H) as [Hb Hc]. cbv zeta in Hb, Hc.
  set (pre := firstn (Z.to_nat (start (ctx r))) (mBuf r)) in *.
  set (cur := skipn (Z.to_nat (start (ctx r))) (mBuf r)) in *.
  pose proof (next_tail pre cur (partial (ctx r)) Hn) as Hnx.
  cbv zeta in Hnx. rewrite <- Hc in Hnx. rewrite <- Hb in Hnx.
  destruct (sc_source r H) as (s & Hh & Hshort & Heof).
  assert (Hus : unread s <> []).
  { unfold unread_of in Hu. rewrite Hh in Hu. exact Hu. }
  assert (Hfull : len (ctx r) = FQ_BUF_SIZE).
  { pose proof (sc_cap r H).
    destruct (Z.eq_dec (len (ctx r)) FQ_BUF_SIZE) as [E|E]; [exact E|].
    exfalso. apply Hus, Hshort. lia. }
  assert (He : eof_flag s = false).
  { destruct (eof_flag s); [|reflexivity].
    specialize (Heof eq_refl). lia. }
  set (r2 := set_state NEW_CHUNK
               (set_ctx (set_partial (partial (ctx r) ++ cur)
                           (mkCtx (Z.of_nat (length (mBuf r)))
                                  (Z.of_nat (length pre))
                                  (Z.of_nat (length (mBuf r)))
                                  (partial (ctx r)))) r)).
  destruct (readToBuf_some r2 s Hh Hus) as [r1 Hr1].
  destruct (readToBuf_Ret r2 r1 Hr1)
    as (s0 & d & s' & Hh0 & Hs & Hd & Hh' & Hz & Hbuf & Hdl & Hul & Hctx
        & Hst & Hq & Hp).
  change (handle r2) with (handle r) in Hh0. rewrite Hh in Hh0.
  inversion Hh0; subst s0; clear Hh0.
  unfold stream_read in Hs. injection Hs as Ed Es.
  rewrite <- Ed in Hd, Hbuf, Hdl, Hctx. clear Ed d.
  assert (Hs' : unread s' = skipn (Z.to_nat FQ_BUF_SIZE) (unread s) /\
                eof_flag s' = (Z.of_nat (length (unread s)) <? FQ_BUF_SIZE)).
  { rewrite <- Es. simpl. rewrite He. auto. }
  destruct Hs' as [Hu' He']. clear Es.
  pose proof FQ_BUF_SIZE_pos as HC.
  rewrite length_firstn in Hd, Hdl, Hctx.
  exists (set_state INITIAL r1).
  assert (Hless : (length (unread_of (set_state INITIAL r1))
                   < length (unread_of r))%nat).
  { unfold unread_of. change (handle (set_state INITIAL r1)) with (handle r1).
    pose proof FQ_BUF_SIZE_pos.
    rewrite Hh', Hh, Hu', length_skipn.
    destruct (unread s); [contradiction|]. cbn [length]. lia. }
  split; [|split; [|split; [|split; [|split; [|split]]]]].
  - unfold getLine at 1.
    replace (2 * left_to_read r + 3)%nat
      with (S (S (2 * left_to_read r + 1))) by lia.
    cbn [getLine_loop]. rewrite (sc_state r H), Hnx.
    cbn [partial]. fold r2.
    change (state r2) with NEW_CHUNK. cbv iota.
    change (len (ctx r2)) with (Z.of_nat (length (mBuf r))).
    rewrite <- (sc_len r H), Hfull.
    rewrite Z.ltb_irrefl.
    destruct (FQ_BUF_SIZE =? 0) eqn:E0;
      [pose proof FQ_BUF_SIZE_pos; lia|].
    replace (eof r2) with false
      by (unfold eof; change (if mZipped r2 then mZipFile r2 else mFile r2)
            with (handle r); rewrite Hh, He; reflexivity).
    cbn [orb]. rewrite Hr1. cbn [bind].
    apply getLine_fuel. unfold rounds.
    change (state (set_state INITIAL r1)) with INITIAL. cbv iota.
    rewrite !left_to_read_unread. lia.
  - split.
    + reflexivity.
    + change (ctx (set_state INITIAL r1)) with (ctx r1). rewrite Hctx.
      reflexivity.
    + change (ctx (set_state INITIAL r1)) with (ctx r1). rewrite Hctx.
      simpl. lia.
    + change (ctx (set_state INITIAL r1)) with (ctx r1). rewrite Hctx.
      change (mBuf (set_state INITIAL r1)) with (mBuf r1). rewrite Hbuf.
      rewrite length_firstn. reflexivity.
    + change (ctx (set_state INITIAL r1)) with (ctx r1). rewrite Hctx.
      simpl. lia.
    + change (ctx (set_state INITIAL r1)) with (ctx r1). rewrite Hctx.
      exact Hdl.
    + exact Hul.
    + change (ctx (set_state INITIAL r1)) with (ctx r1). rewrite Hctx.
      simpl. intro Hin. apply in_app_or in Hin.
      destruct Hin as [Hin|Hin]; [exact (sc_partial r H Hin)|exact (Hn Hin)].
    + exists s'. change (handle (set_state INITIAL r1)) with (handle r1).
      change (ctx (set_state INITIAL r1)) with (ctx r1). rewrite Hctx.
      simpl. split; [exact Hh'|]. split.
      * intro Hlt. rewrite Hu'. apply skipn_all2. lia.
      * intro Ht. rewrite He' in Ht. apply Z.ltb_lt in Ht. lia.
  - unfold pending, unread_of.
    change (handle (set_state INITIAL r1)) with (handle r1).
    change (ctx (set_state INITIAL r1)) with (ctx r1).
    change (mBuf (set_state INITIAL r1)) with (mBuf r1).
    rewrite Hctx, Hbuf, Hh', Hh, Hu'. simpl.
    rewrite firstn_skipn. fold cur. rewrite <- app_assoc. reflexivity.
  - exact Hless.
  - exact Hq.
  - exact Hp.
  - intros t [Hle (k & Hk & Ht)]. unfold accounts, unread_of in *.
    change (handle (set_state INITIAL r1)) with (handle r1).
    change (ctx (set_state INITIAL r1)) with (ctx r1).
    rewrite Hh in Ht. rewrite Hh', Hctx, Hu', length_skipn.
    cbn [len]. split; [lia|]. exists (k + 1). split; [lia|]. lia.
Qed.

(** [getLine] on the stream: whatever the chunks, a scanning reader whose
    pending bytes start with a line that is not empty, and its terminator,
    returns that line, one carriage return less, and is left ready on the
    bytes after the terminator. *)
Lemma scanning_getLine :
  forall n r l rest,
  (length (unread_of r) <= n)%nat ->
  scanning r -> pending r = l ++ LF :: rest -> ~ In LF l -> l <> [] ->
  exists r',
    getLine r = Ret (chomp l, r') /\
    ready r' /\ pending r' = rest /\
    mHasQuality r' = mHasQuality r /\ mPhred64 r' = mPhred64 r.
Proof.
  assert (Found : forall r l rest c1 c2,
    scanning r -> pending r = l ++ LF :: rest -> ~ In LF l -> l <> [] ->
    skipn (Z.to_nat (start (ctx r))) (mBuf r) = c1 ++ LF :: c2 ->
    ~ In LF c1 ->
    exists r',
      getLine r = Ret (chomp l, r') /\
      ready r' /\ pending r' = rest /\
      mHasQuality r' = mHasQuality r /\ mPhred64 r' = mPhred64 r).
  { intros r l rest c1 c2 H Hp Hl Hne Hcur Hc1.
    unfold pending in Hp. rewrite Hcur in Hp.
    replace (partial (ctx r) ++ (c1 ++ LF :: c2) ++ unread_of r)
      with ((partial (ctx r) ++ c1) ++ LF :: (c2 ++ unread_of r)) in Hp
      by (rewrite <- !app_assoc; reflexivity).
    apply first_LF_unique in Hp; [|
      intro Hin; apply in_app_or in Hin;
      destruct Hin as [Hin|Hin];
      [exact (sc_partial r H Hin)|exact (Hc1 Hin)] | exact Hl].
    destruct Hp as [El Er]. subst l rest.
    apply scanning_found; assumption. }
  assert (Dry : forall r l rest,
    pending r = l ++ LF :: rest -> scanning r ->
    ~ In LF (skipn (Z.to_nat (start (ctx r))) (mBuf r)) ->
    unread_of r <> []).
  { intros r l rest Hp H Hn Hu. unfold pending in Hp.
    rewrite Hu, app_nil_r in Hp.
    assert (Hin : In LF (partial (ctx r)
                         ++ skipn (Z.to_nat (start (ctx r))) (mBuf r))).
    { rewrite Hp. apply in_or_app. right. left. reflexivity. }
    apply in_app_or in Hin.
    destruct Hin as [Hin|Hin]; [exact (sc_partial r H Hin)|exact (Hn Hin)]. }
  induction n as [|n IH]; intros r l rest Hlen H Hp Hl Hne.
  - destruct (split_LF (skipn (Z.to_nat (start (ctx r))) (mBuf r)))
      as [Hn|(c1 & c2 & Hcur & Hc1)].
    + exfalso. apply (Dry r l rest Hp H Hn).
      destruct (unread_of r); [reflexivity|simpl in Hlen; lia].
    + exact (Found r l rest c1 c2 H Hp Hl Hne Hcur Hc1).
  - destruct (split_LF (skipn (Z.to_nat (start (ctx r))) (mBuf r)))
      as [Hn|(c1 & c2 & Hcur & Hc1)].
    + destruct (scanning_refill r H Hn (Dry r l rest Hp H Hn))
        as (r1 & Hg & H1 & Hp1 & Hless & Hq & Hph & _).
      destruct (IH r1 l rest) as (r' & Hg' & Hr' & Hp' & Hq' & Hph');
        [lia|exact H1|congruence|exact Hl|exact Hne|].
      exists r'. rewrite Hg.
      split; [exact Hg'|]. split; [exact Hr'|]. split; [exact Hp'|].
      split; congruence.
    + exact (Found r l rest c1 c2 H Hp Hl Hne Hcur Hc1).
Qed.

Lemma ready_getLine :
  forall r l rest,
  ready r -> pending r = l ++ LF :: rest -> is_line l = true ->
  exists r',
    getLine r = Ret (chomp l, r') /\
    ready r' /\ pending r' = rest /\
    mHasQuality r' = mHasQuality r /\ mPhred64 r' = mPhred64 r.
Proof.
  intros r l rest [H _] Hp Hl. apply is_line_spec in Hl.
  destruct Hl as [Hl Hne].
  exact (scanning_getLine _ r l rest (Nat.le_refl _) H Hp Hl Hne).
Qed.

(** At an empty line the last character of an empty string is asked for,
    in whatever chunk the line lies. *)
Lemma ready_getLine_empty :
  forall r rest,
  ready r -> pending r = LF :: rest -> getLine r = Fault BackOfEmpty.
Proof.
  assert (G : forall n r rest,
    (length (unread_of r) <= n)%nat ->
    scanning r -> partial (ctx r) = [] -> pending r = LF :: rest ->
    getLine r = Fault BackOfEmpty).
  { induction n as [|n IH]; intros r rest Hlen H Hp0 Hp.
    all: unfold pending in Hp; rewrite Hp0 in Hp; simpl in Hp.
    all: destruct (skipn (Z.to_nat (start (ctx r))) (mBuf r)) as [|c cur]
           eqn:Hcur.
    all: try (* the terminator is in the chunk *)
      (simpl in Hp; inversion Hp; subst c;
       assert (Hcur' : skipn (Z.to_nat (start (ctx r))) (mBuf r)
                       = [] ++ LF :: cur) by exact Hcur;
       destruct (scanning_cut r H) as [Hb Hc]; cbv zeta in Hb, Hc;
       rewrite Hcur' in Hb, Hc;
       pose proof (next_line (firstn (Z.to_nat (start (ctx r))) (mBuf r))
                     [] cur (partial (ctx r)) (fun x => x)) as Hnx;
       cbv zeta in Hnx; rewrite <- Hc in Hnx; rewrite <- Hb in Hnx;
       rewrite (getLine_complete r _ _ (sc_state r H) Hnx), Hp0;
       reflexivity).
    - (* no byte left at all *)
      simpl in Hp. destruct (unread_of r); [discriminate|simpl in Hlen; lia].
    - (* the chunk is used up: the terminator comes with the refill *)
      simpl in Hp.
      assert (Hn : ~ In LF (skipn (Z.to_nat (start (ctx r))) (mBuf r)))
        by (rewrite Hcur; intros []).
      assert (Hu : unread_of r <> []) by (rewrite Hp; discriminate).
      destruct (scanning_refill r H Hn Hu)
        as (r1 & Hg & H1 & Hp1 & Hless & _).
      rewrite Hg.
      assert (Hpr : pending r = LF :: rest).
      { unfold pending. rewrite Hp0, Hcur. exact Hp. }
      rewrite Hpr in Hp1.
      apply (IH r1 rest); [lia|exact H1| |exact Hp1].
      destruct (partial (ctx r1)) as [|x p] eqn:Ep; [reflexivity|].
      exfalso. unfold pending in Hp1. rewrite Ep in Hp1.
      simpl in Hp1. inversion Hp1; subst x.
      apply (sc_partial r1 H1). rewrite Ep. left. reflexivity. }
  intros r rest [H Hp0] Hp.
  exact (G _ r rest (Nat.le_refl _) H Hp0 Hp).
Qed.

(** When the source is exhausted and the length of the file is no
    multiple of the capacity, the current chunk is a short one. *)
Lemma accounts_short :
  forall t r,
  scanning r -> accounts t r -> unread_of r = [] ->
  t mod FQ_BUF_SIZE <> 0 -> len (ctx r) < FQ_BUF_SIZE.
Proof.
  intros t r H [Hle (k & Hk & Ht)] Hu Hm.
  pose proof FQ_BUF_SIZE_pos as HC.
  rewrite Hu in Ht. cbn [length Z.of_nat] in Ht.
  destruct (Z.eq_dec (len (ctx r)) FQ_BUF_SIZE) as [E|E]; [|lia].
  exfalso. apply Hm. rewrite Ht, E.
  replace (k * FQ_BUF_SIZE + FQ_BUF_SIZE + 0) with ((k + 1) * FQ_BUF_SIZE)
    by lia.
  apply Z.mod_mul. lia.
Qed.

(** [getLine] on pending bytes that hold no terminator, in a file whose
    length is no multiple of the capacity: everything is accumulated,
    the scanner moves to its terminal state, and the empty line is
    returned; what was accumulated stays in [partial]. *)
Lemma scanning_getLine_unterminated :
  forall t n r,
  (length (unread_of r) <= n)%nat ->
  scanning r -> accounts t r -> t mod FQ_BUF_SIZE <> 0 ->
  ~ In LF (pending r) ->
  exists r',
    getLine r = Ret ([], r') /\ state r' = DONE /\
    partial (ctx r') = pending r /\
    mBufUsedLen r' < mBufDataLen r'.
Proof.
  intros t.
  assert (Last : forall r,
    scanning r -> accounts t r -> t mod FQ_BUF_SIZE <> 0 ->
    unread_of r = [] ->
    ~ In LF (skipn (Z.to_nat (start (ctx r))) (mBuf r)) ->
    exists r',
      getLine r = Ret ([], r') /\ state r' = DONE /\
      partial (ctx r') = pending r /\
      mBufUsedLen r' < mBufDataLen r').
  { intros r H Ha Hm Hu Hn.
    pose proof (accounts_short t r H Ha Hu Hm) as Hlt.
    destruct (scanning_cut r H) as [Hb Hc]. cbv zeta in Hb, Hc.
    pose proof (next_tail (firstn (Z.to_nat (start (ctx r))) (mBuf r))
                  (skipn (Z.to_nat (start (ctx r))) (mBuf r))
                  (partial (ctx r)) Hn) as Hnx.
    cbv zeta in Hnx. rewrite <- Hc in Hnx. rewrite <- Hb in Hnx.
    eexists. split; [|split; [|split]].
    - exact (getLine_short_tail r _ _ (sc_state r H) Hnx Hlt).
    - reflexivity.
    - unfold pending. rewrite Hu, app_nil_r. reflexivity.
    - cbn [mBufUsedLen mBufDataLen set_state set_ctx].
      rewrite (sc_used r H), (sc_data r H). apply (sc_cap r H). }
  assert (Cur : forall r,
    ~ In LF (pending r) ->
    ~ In LF (skipn (Z.to_nat (start (ctx r))) (mBuf r))).
  { intros r Hn Hin. apply Hn. unfold pending.
    apply in_or_app. right. apply in_or_app. left. exact Hin. }
  induction n as [|n IH]; intros r Hlen H Ha Hm Hn.
  - apply Last; try assumption; [|apply Cur; exact Hn].
    destruct (unread_of r); [reflexivity|simpl in Hlen; lia].
  - destruct (unread_of r) as [|c u] eqn:Hu.
    + apply Last; try assumption. apply Cur; exact Hn.
    + assert (Hu' : unread_of r <> []) by (rewrite Hu; discriminate).
      destruct (scanning_refill r H (Cur r Hn) Hu')
        as (r1 & Hg & H1 & Hp1 & Hless & _ & _ & Hacc).
      destruct (IH r1) as (r' & Hg' & Hd & Hp' & Hlt);
        [rewrite Hu in Hless; cbn [length] in Hless, Hlen; lia|exact H1
        |exact (Hacc t Ha)|exact Hm|rewrite Hp1; exact Hn|].
      exists r'. rewrite Hg, <- Hp1.
      split; [exact Hg'|]. split; [exact Hd|]. split; assumption.
Qed.

(** ** Records across chunks *)

Lemma ready_live : forall r, ready r -> live r = true.
Proof.
  intros r [H _]. unfold live, used_up.
  destruct (sc_source r H) as (s & Hh & _).
  rewrite (sc_data r H), (sc_used r H).
  pose proof (sc_cap r H) as Hc.
  destruct (len (ctx r) <=? 0) eqn:E; [lia|].
  unfold handle in Hh. destruct (mZipped r); [|reflexivity].
  rewrite Hh. reflexivity.
Qed.

(** [read] on the stream: a ready reader whose pending bytes start with
    the lines of a record returns the record, or null when the reader has
    quality and quality and sequence differ in length, and is left ready
    on the bytes after the record in both cases. *)
Lemma ready_read :
  forall fuel r rc rest,
  ready r ->
  pending r = record_bytes (mHasQuality r) rc ++ rest ->
  record_ok (mHasQuality r) rc = true ->
  exists r',
    read fuel r = Ret (record_read (mHasQuality r) (mPhred64 r) rc, r') /\
    ready r' /\ pending r' = rest /\
    mHasQuality r' = mHasQuality r /\ mPhred64 r' = mPhred64 r.
Proof.
  intros fuel r [[[n s] p] q] rest Hr Hp Hok.
  unfold record_ok in Hok.
  apply andb_true_iff in Hok. destruct Hok as [Hok Hq0].
  apply andb_true_iff in Hok. destruct Hok as [Hok Hp0].
  apply andb_true_iff in Hok. destruct Hok as [Hn Hs0].
  assert (Hn' : is_line ("@"%char :: n) = true).
  { unfold is_line. simpl. exact Hn. }
  unfold record_bytes in Hp.
  replace ((("@"%char :: n) ++ LF :: s ++ LF :: p ++ LF ::
            (if mHasQuality r then q ++ [LF] else [])) ++ rest)
    with (("@"%char :: n) ++ LF :: s ++ LF :: p ++ LF ::
          (if mHasQuality r then q ++ LF :: rest else rest))
    in Hp.
  2:{ rewrite <- app_assoc. simpl. do 2 f_equal.
      rewrite <- app_assoc. simpl. do 2 f_equal.
      rewrite <- app_assoc. simpl. do 2 f_equal.
      destruct (mHasQuality r); [|reflexivity].
      rewrite <- app_assoc. reflexivity. }
  destruct (ready_getLine r _ _ Hr Hp Hn')
    as (r1 & G1 & R1 & P1 & Q1 & F1).
  destruct (ready_getLine r1 _ _ R1 P1 Hs0)
    as (r2 & G2 & R2 & P2 & Q2 & F2).
  destruct (ready_getLine r2 _ _ R2 P2 Hp0)
    as (r3 & G3 & R3 & P3 & Q3 & F3).
  assert (Hq3 : mHasQuality r3 = mHasQuality r) by congruence.
  assert (Hf3 : mPhred64 r3 = mPhred64 r) by congruence.
  unfold record_read.
  destruct (mHasQuality r) eqn:Hq.
  - destruct (ready_getLine r3 _ _ R3 P3 Hq0)
      as (r4 & G4 & R4 & P4 & Q4 & F4).
    exists r4.
    split; [|split; [exact R4|split; [exact P4|split; congruence]]].
    unfold read.
    destruct (live_guards r (ready_live r Hr)) as [Hz Hu]. rewrite Hz, Hu.
    rewrite G1. cbn [bind]. rewrite chomp_name. cbn [empty].
    rewrite skip_loop_stop by reflexivity.
    cbn [bind empty]. rewrite G2. cbn [bind]. rewrite G3. cbn [bind].
    rewrite Hq3. cbn [negb]. rewrite G4. cbn [bind].
    replace (mPhred64 r4) with (mPhred64 r) by congruence.
    destruct (length (chomp q) =? length (chomp s))%nat; reflexivity.
  - exists r3.
    split; [|split; [exact R3|split; [exact P3|split; congruence]]].
    unfold read.
    destruct (live_guards r (ready_live r Hr)) as [Hz Hu]. rewrite Hz, Hu.
    rewrite G1. cbn [bind]. rewrite chomp_name. cbn [empty].
    rewrite skip_loop_stop by reflexivity.
    cbn [bind empty]. rewrite G2. cbn [bind]. rewrite G3. cbn [bind].
    rewrite Hq3, Hf3. reflexivity.
Qed.

(** The first refill leaves a ready reader, all the bytes pending. *)
Lemma readToBuf_ready :
  forall r0 data,
  handle r0 = Some (mkStream data false) -> data <> [] ->
  state r0 = INITIAL -> partial (ctx r0) = [] ->
  exists r,
    readToBuf r0 = Ret r /\ ready r /\ pending r = data /\
    mHasQuality r = mHasQuality r0 /\ mPhred64 r = mPhred64 r0 /\
    len (ctx r) + Z.of_nat (length (unread_of r)) = Z.of_nat (length data).
Proof.
  intros r0 data Hh Hd Hst Hp0.
  destruct (readToBuf_some r0 _ Hh Hd) as [r Hr].
  destruct (readToBuf_Ret r0 r Hr)
    as (s0 & d & s' & Hh0 & Hs & Hlen & Hh' & Hz & Hbuf & Hdl & Hul & Hctx
        & Hst' & Hq & Hp).
  rewrite Hh in Hh0. inversion Hh0; subst s0; clear Hh0.
  unfold stream_read in Hs. cbn [unread eof_flag orb] in Hs.
  injection Hs as Ed Es.
  pose proof FQ_BUF_SIZE_pos as HC.
  assert (Hu : unread_of r = skipn (Z.to_nat FQ_BUF_SIZE) data).
  { unfold unread_of. rewrite Hh', <- Es. reflexivity. }
  assert (Hdlen : Z.of_nat (length d)
                  = Z.min FQ_BUF_SIZE (Z.of_nat (length data))).
  { rewrite <- Ed, length_firstn. lia. }
  exists r. split; [exact Hr|]. split; [split|].
  - split.
    + congruence.
    + rewrite Hctx. reflexivity.
    + rewrite Hctx. cbn [len start end_ partial]. lia.
    + rewrite Hctx, Hbuf. reflexivity.
    + rewrite Hctx. cbn [len start end_ partial]. lia.
    + rewrite Hctx. exact Hdl.
    + exact Hul.
    + rewrite Hctx, Hp0. intros [].
    + exists s'. split; [exact Hh'|]. rewrite Hctx.
      cbn [len start end_ partial]. split.
      * intro Hlt. rewrite <- Es. cbn [unread]. apply skipn_all2. lia.
      * intro Ht. rewrite <- Es in Ht. cbn [eof_flag] in Ht.
        apply Z.ltb_lt in Ht. lia.
  - rewrite Hctx. exact Hp0.
  - split; [|split; [exact Hq|split; [exact Hp|]]].
    + unfold pending. rewrite Hctx, Hbuf, Hu, <- Ed.
      cbn [start partial]. rewrite Hp0, Z2Nat.inj_0, skipn_O, app_nil_l.
      apply firstn_skipn.
    + rewrite Hctx, Hu, length_skipn. cbn [len start end_ partial]. lia.
Qed.

(** The constructor on a path that opens on bytes: a ready reader. *)
Lemma new_ready :
  forall w path hasQuality phred64 data,
  fs w path = Some data -> path <> s2b "/dev/stdin" -> data <> [] ->
  exists r,
    FastqReader_new w path hasQuality phred64 = Ret r /\
    ready r /\ pending r = data /\
    mHasQuality r = hasQuality /\ mPhred64 r = phred64 /\
    len (ctx r) + Z.of_nat (length (unread_of r)) = Z.of_nat (length data).
Proof.
  intros w path hq p64 data Hfs Hp Hd.
  unfold FastqReader_new, init, open_stream. cbn [mFilename].
  rewrite Hfs. cbn [option_map].
  destruct (ends_with path (s2b ".gz")).
  - apply readToBuf_ready; [reflexivity|exact Hd|reflexivity|reflexivity].
  - destruct (list_eq_dec ascii_dec path (s2b "/dev/stdin"));
      [contradiction|].
    apply readToBuf_ready; [reflexivity|exact Hd|reflexivity|reflexivity].
Qed.

Lemma getLine_loop_accounts :
  forall t n r l r',
  getLine_loop n r = Ret (l, r') -> accounts t r -> accounts t r'.
Proof.
  intros t. induction n as [|n IH]; intros r l r' H Ha; simpl in H.
  - destruct (state r); inversion H; subst; exact Ha.
  - destruct (state r).
    + destruct (next (mBuf r) (ctx r)) as [[result c] cx] eqn:Hn.
      destruct (next_keeps _ _ _ _ _ Hn) as [_ Hl].
      destruct c.
      * destruct (back _); inversion H; subst.
        unfold accounts in *. cbn [ctx set_ctx set_partial len].
        rewrite Hl. exact Ha.
      * apply IH in H; [exact H|].
        unfold accounts in *. cbn [ctx set_ctx set_state set_partial len].
        rewrite Hl. exact Ha.
    + destruct (len (ctx r) <? FQ_BUF_SIZE) eqn:Hlt.
      * cbn [orb] in H. apply IH in H; [exact H|exact Ha].
      * cbn [orb] in H. destruct ((len (ctx r) =? 0) || eof r).
        -- apply IH in H; [exact H|exact Ha].
        -- split_bind H r1 Hr.
           apply IH in H; [exact H|].
           destruct (readToBuf_Ret r r1 Hr)
             as (s & d & s' & Hh & Hs & _ & Hh' & _ & _ & _ & _ & Hctx & _).
           unfold stream_read in Hs. injection Hs as Ed Es.
           destruct Ha as [Hle (k & Hk & Ht)].
           unfold accounts, unread_of in *.
           change (ctx (set_state INITIAL r1)) with (ctx r1).
           change (handle (set_state INITIAL r1)) with (handle r1).
           rewrite Hh in Ht. rewrite Hh', Hctx, <- Es, <- Ed.
           cbn [len unread]. rewrite length_firstn, length_skipn.
           pose proof FQ_BUF_SIZE_pos. split; [lia|].
           exists (k + 1). split; [lia|]. lia.
    + inversion H; subst; exact Ha.
Qed.

Lemma read_accounts :
  forall t fuel r x r',
  read fuel r = Ret (x, r') -> accounts t r -> accounts t r'.
Proof.
  intros t fuel r x r' H Ha.
  assert (G : forall a l b, getLine a = Ret (l, b) ->
                            accounts t a -> accounts t b)
    by (intros a l b; apply getLine_loop_accounts).
  assert (S : forall n name a name' b,
             skip_loop n name a = Ret (name', b) ->
             accounts t a -> accounts t b).
  { induction n as [|n IH]; intros name a name' b Hs Hacc; simpl in Hs.
    - destruct (not_a_name name a); inversion Hs; subst; exact Hacc.
    - destruct (not_a_name name a); [|inversion Hs; subst; exact Hacc].
      split_bind Hs y Hy. destruct y as [l a1].
      exact (IH _ _ _ _ Hs (G _ _ _ Hy Hacc)). }
  unfold read in H.
  destruct (_ && _); [inversion H; subst; exact Ha|].
  destruct (used_up r); [inversion H; subst; exact Ha|].
  split_bind H y1 H1. destruct y1 as [name r1].
  pose proof (G _ _ _ H1 Ha) as A1.
  destruct (empty name); [inversion H; subst; exact A1|].
  split_bind H y2 H2. destruct y2 as [name' r2].
  pose proof (S _ _ _ _ _ H2 A1) as A2.
  destruct (empty name'); [inversion H; subst; exact A2|].
  split_bind H y3 H3. destruct y3 as [sq r3].
  split_bind H y4 H4. destruct y4 as [sd r4].
  pose proof (G _ _ _ H4 (G _ _ _ H3 A2)) as A4.
  destruct (negb (mHasQuality r4)); [inversion H; subst; exact A4|].
  split_bind H y5 H5. destruct y5 as [ql r5].
  pose proof (G _ _ _ H5 A4) as A5.
  destruct (negb _); inversion H; subst; exact A5.
Qed.

(** At the end of the stream, in a chunk shorter than the capacity,
    [read] answers null and the scanner is in its terminal state. *)
Lemma ready_read_end :
  forall fuel r,
  ready r -> pending r = [] -> len (ctx r) < FQ_BUF_SIZE ->
  exists r', read fuel r = Ret (None, r') /\ state r' = DONE.
Proof.
  intros fuel r Hr Hp Hlt. pose proof (ready_live r Hr) as Hl.
  destruct Hr as [H Hp0].
  unfold pending in Hp. rewrite Hp0 in Hp. cbn [app] in Hp.
  apply app_eq_nil in Hp. destruct Hp as [Hcur _].
  destruct (scanning_cut r H) as [Hb Hc]. cbv zeta in Hb, Hc.
  rewrite Hcur in Hb, Hc.
  pose proof (next_tail (firstn (Z.to_nat (start (ctx r))) (mBuf r)) []
                (partial (ctx r)) (fun x => x)) as Hnx.
  cbv zeta in Hnx. rewrite <- Hc in Hnx. rewrite <- Hb in Hnx.
  eexists. split.
  - unfold read. destruct (live_guards r Hl) as [Hz Hu]. rewrite Hz, Hu.
    rewrite (getLine_short_tail r _ _ (sc_state r H) Hnx Hlt).
    reflexivity.
  - reflexivity.
Qed.

(** At the end of the stream, in a chunk as long as the capacity, the
    scanner asks for a refill, which delivers no byte and reads
    [mBuf[-1]]. *)
Lemma ready_read_end_full :
  forall fuel r,
  ready r -> pending r = [] -> len (ctx r) = FQ_BUF_SIZE ->
  read fuel r = Fault (BufIndex (-1)).
Proof.
  intros fuel r Hr Hp Hfull. pose proof (ready_live r Hr) as Hl.
  destruct Hr as [H Hp0].
  unfold pending in Hp. rewrite Hp0 in Hp. cbn [app] in Hp.
  apply app_eq_nil in Hp. destruct Hp as [Hcur Hu].
  destruct (scanning_cut r H) as [Hb Hc]. cbv zeta in Hb, Hc.
  rewrite Hcur in Hb, Hc.
  pose proof (next_tail (firstn (Z.to_nat (start (ctx r))) (mBuf r)) []
                (partial (ctx r)) (fun x => x)) as Hnx.
  cbv zeta in Hnx. rewrite <- Hc in Hnx. rewrite <- Hb in Hnx.
  destruct (sc_source r H) as (s & Hh & _ & Heof).
  assert (He : eof_flag s = false).
  { destruct (eof_flag s); [|reflexivity]. specialize (Heof eq_refl). lia. }
  assert (Hus : unread s = []).
  { unfold unread_of in Hu. rewrite Hh in Hu. exact Hu. }
  unfold read. destruct (live_guards r Hl) as [Hz Hg]. rewrite Hz, Hg.
  unfold getLine.
  replace (2 * left_to_read r + 3)%nat
    with (S (S (2 * left_to_read r + 1))) by lia.
  cbn [getLine_loop]. rewrite (sc_state r H), Hnx.
  cbn [partial state set_state set_ctx ctx set_partial len].
  rewrite <- (sc_len r H), Hfull, Z.ltb_irrefl.
  pose proof FQ_BUF_SIZE_pos as HC.
  destruct (FQ_BUF_SIZE =? 0) eqn:E0; [lia|].
  match goal with
  | |- context [eof ?x] =>
      replace (eof x) with false
        by (unfold eof;
            change (if mZipped x then mZipFile x else mFile x)
              with (handle r); rewrite Hh, He; reflexivity)
  end.
  cbn [orb].
  match goal with
  | |- context [readToBuf ?x] =>
      replace (readToBuf x) with (@Fault FastqReader (BufIndex (-1)))
  end; [reflexivity|].
  unfold readToBuf, pull. unfold handle in Hh.
  cbn [mZipped mZipFile mFile set_state set_ctx].
  destruct (mZipped r); rewrite Hh; unfold stream_read; rewrite Hus;
    rewrite firstn_nil; cbn [length Z.of_nat bind];
    destruct (0 <? FQ_BUF_SIZE) eqn:E; try lia; reflexivity.
Qed.

(** ** Whole files *)

(** A ready reader on the bytes of records returns them one per call (null
    for a record whose quality and sequence differ in length) and is left
    ready at the end of the stream. *)
Lemma reads_records :
  forall t fuel recs r,
  ready r -> accounts t r ->
  pending r = file_of (mHasQuality r) recs ->
  forallb (record_ok (mHasQuality r)) recs = true ->
  exists r',
    reads fuel (length recs) r
    = Ret (map (record_read (mHasQuality r) (mPhred64 r)) recs, r') /\
    ready r' /\ accounts t r' /\ pending r' = [].
Proof.
  intros t fuel recs. induction recs as [|rc recs IH]; intros r Hr Ha Hp Hok.
  - exists r. split; [reflexivity|]. split; [exact Hr|].
    split; [exact Ha|exact Hp].
  - cbn [forallb] in Hok. apply andb_true_iff in Hok.
    destruct Hok as [Hok1 Hok].
    unfold file_of in Hp. cbn [map concat] in Hp.
    destruct (ready_read fuel r rc _ Hr Hp Hok1)
      as (r1 & Hread & R1 & P1 & Q1 & F1).
    pose proof (read_accounts t fuel r _ r1 Hread Ha) as A1.
    rewrite <- Q1 in Hok.
    destruct (IH r1 R1 A1) as (r' & Hreads & R' & A' & P');
      [rewrite Q1; exact P1|exact Hok|].
    exists r'. split; [|split; [exact R'|split; [exact A'|exact P']]].
    cbn [length reads]. rewrite Hread. cbn [bind]. rewrite Hreads.
    cbn [bind map]. rewrite Q1, F1. reflexivity.
Qed.

Lemma reads_end :
  forall fuel k r,
  ready r -> pending r = [] -> len (ctx r) < FQ_BUF_SIZE ->
  exists r', reads fuel k r = Ret (repeat None k, r').
Proof.
  intros fuel [|k] r Hr Hp Hlt.
  - exists r. reflexivity.
  - destruct (ready_read_end fuel r Hr Hp Hlt) as (r1 & H1 & Hd).
    exists r1. cbn [reads]. rewrite H1. cbn [bind].
    rewrite (reads_DONE fuel k r1 Hd). reflexivity.
Qed.

Lemma file_of_not_empty :
  forall hasQuality recs, recs <> [] -> file_of hasQuality recs <> [].
Proof.
  intros hq [|[[[n s] p] q] recs] H; [contradiction|]. discriminate.
Qed.

(** At the end of a file the last chunk is shorter than the capacity,
    unless the length of the file is a multiple of the capacity. *)
Lemma accounts_end :
  forall t r,
  ready r -> accounts t r -> pending r = [] ->
  (t mod FQ_BUF_SIZE <> 0 -> len (ctx r) < FQ_BUF_SIZE) /\
  (t mod FQ_BUF_SIZE = 0 -> len (ctx r) = FQ_BUF_SIZE).
Proof.
  intros t r [H Hp0] [Hle (k & Hk & Ht)] Hp.
  pose proof FQ_BUF_SIZE_pos as HC. pose proof (sc_cap r H) as Hcap.
  unfold pending in Hp. apply app_eq_nil in Hp. destruct Hp as [_ Hp].
  apply app_eq_nil in Hp. destruct Hp as [_ Hu].
  rewrite Hu in Ht. cbn [length Z.of_nat] in Ht.
  split; intro Hm.
  - destruct (Z.eq_dec (len (ctx r)) FQ_BUF_SIZE) as [E|E]; [|lia].
    exfalso. apply Hm. rewrite Ht, E.
    replace (k * FQ_BUF_SIZE + FQ_BUF_SIZE + 0) with ((k + 1) * FQ_BUF_SIZE)
      by lia.
    apply Z.mod_mul. lia.
  - destruct (Z.eq_dec (len (ctx r)) FQ_BUF_SIZE) as [E|E]; [exact E|].
    exfalso.
    assert (Hmod : t mod FQ_BUF_SIZE = len (ctx r)).
    { rewrite Ht.
      replace (k * FQ_BUF_SIZE + len (ctx r) + 0)
        with (len (ctx r) + k * FQ_BUF_SIZE) by lia.
      rewrite Z.mod_add by lia. apply Z.mod_small. lia. }
    lia.
Qed.

(** The reader on a whole file of well-formed records, whatever its
    length and wherever the chunks end: the calls of [read] return the
    records in order (null in the place of a record whose quality and
    sequence differ in length); after the last record every call returns
    null, unless the length of the file is a multiple of the capacity, in
    which case the next call reads [mBuf[-1]]. *)
Theorem read_whole_file :
  forall w path hasQuality phred64 recs fuel,
  fs w path = Some (file_of hasQuality recs) ->
  path <> s2b "/dev/stdin" -> recs <> [] ->
  forallb (record_ok hasQuality) recs = true ->
  exists r0,
    FastqReader_new w path hasQuality phred64 = Ret r0 /\
    (Z.of_nat (length (file_of hasQuality recs)) mod FQ_BUF_SIZE <> 0 ->
     forall k, exists r_end,
       reads fuel (length recs + k) r0
       = Ret (map (record_read hasQuality phred64) recs ++ repeat None k,
              r_end)) /\
    (Z.of_nat (length (file_of hasQuality recs)) mod FQ_BUF_SIZE = 0 ->
     reads fuel (length recs + 1) r0 = Fault (BufIndex (-1))).
Proof.
  intros w path hq p64 recs fuel Hfs Hpath Hne Hok.
  destruct (new_ready w path hq p64 _ Hfs Hpath (file_of_not_empty hq recs Hne))
    as (r0 & Hnew & Hr0 & Hp0 & Hq & Hph & Hlen).
  exists r0. split; [exact Hnew|].
  assert (Ha0 : accounts (Z.of_nat (length (file_of hq recs))) r0).
  { split; [apply (sc_cap r0 (proj1 Hr0))|]. exists 0. lia. }
  rewrite <- Hq in Hok, Hp0.
  destruct (reads_records _ fuel recs r0 Hr0 Ha0 Hp0 Hok)
    as (r' & Hreads & Hr' & Ha' & Hp').
  rewrite Hq, Hph in Hreads.
  destruct (accounts_end _ r' Hr' Ha' Hp') as [Hshort Hfull].
  split; intro Hm.
  - intro k. destruct (reads_end fuel k r' Hr' Hp' (Hshort Hm))
      as (r_end & Hend).
    exists r_end. rewrite reads_app, Hreads. cbn [bind]. rewrite Hend.
    reflexivity.
  - rewrite reads_app, Hreads. cbn [bind reads].
    rewrite (ready_read_end_full fuel r' Hr' Hp' (Hfull Hm)). reflexivity.
Qed.

(** The constructor, by what the path opens on. *)
Lemma new_cases :
  forall w path hasQuality phred64,
  FastqReader_new w path hasQuality phred64 =
  match source_of w path with
  | Some d => readToBuf (opened path hasQuality phred64 d)
  | None =>
      if ends_with path (s2b ".gz") then Fault (BufIndex (-2))
      else Exit (s2b "Failed to open file: " ++ path)
  end.
Proof.
  intros w path hq p64.
  unfold FastqReader_new, init, source_of, opened, open_stream.
  cbn [mFilename mZipFile mFile mStdinMode mPhred64 mHasQuality mBuf
       mBufDataLen mBufUsedLen mHasNoLineBreakAtEnd ctx state].
  destruct (ends_with path (s2b ".gz")).
  - destruct (fs w path); reflexivity.
  - destruct (list_eq_dec ascii_dec path (s2b "/dev/stdin")).
    + reflexivity.
    + destruct (fs w path); reflexivity.
Qed.

Lemma opened_handle :
  forall path hq p64 d, handle (opened path hq p64 d) = Some (mkStream d false).
Proof.
  intros. unfold handle, opened. cbn [mZipped mZipFile mFile].
  destruct (ends_with path (s2b ".gz")); reflexivity.
Qed.

(** The constructor on a path that opens on bytes: a ready reader. *)
Lemma new_ready_source :
  forall w path hasQuality phred64 data,
  source_of w path = Some data -> data <> [] ->
  exists r,
    FastqReader_new w path hasQuality phred64 = Ret r /\
    ready r /\ pending r = data /\
    mHasQuality r = hasQuality /\ mPhred64 r = phred64 /\
    len (ctx r) + Z.of_nat (length (unread_of r)) = Z.of_nat (length data).
Proof.
  intros w path hq p64 data Hsrc Hd. rewrite new_cases, Hsrc.
  apply readToBuf_ready;
    [apply opened_handle|exact Hd|reflexivity|reflexivity].
Qed.

(** The calls of [read] on an input made of well-formed records. *)
Lemma whole_input_reads :
  forall w path hasQuality phred64 recs fuel,
  source_of w path = Some (file_of hasQuality recs) ->
  recs <> [] -> forallb (record_ok hasQuality) recs = true ->
  exists r0,
    FastqReader_new w path hasQuality phred64 = Ret r0 /\
    (Z.of_nat (length (file_of hasQuality recs)) mod FQ_BUF_SIZE <> 0 ->
     forall k, exists r_end,
       reads fuel (length recs + S k) r0
       = Ret (map (record_read hasQuality phred64) recs
              ++ repeat None (S k), r_end) /\
       state r_end = DONE) /\
    (Z.of_nat (length (file_of hasQuality recs)) mod FQ_BUF_SIZE = 0 ->
     reads fuel (length recs + 1) r0 = Fault (BufIndex (-1))).
Proof.
  intros w path hq p64 recs fuel Hsrc Hne Hok.
  destruct (new_ready_source w path hq p64 _ Hsrc
              (file_of_not_empty hq recs Hne))
    as (r0 & Hnew & Hr0 & Hp0 & Hq & Hph & Hlen).
  exists r0. split; [exact Hnew|].
  assert (Ha0 : accounts (Z.of_nat (length (file_of hq recs))) r0).
  { split; [apply (sc_cap r0 (proj1 Hr0))|]. exists 0. lia. }
  rewrite <- Hq in Hok, Hp0.
  destruct (reads_records _ fuel recs r0 Hr0 Ha0 Hp0 Hok)
    as (r' & Hreads & Hr' & Ha' & Hp').
  rewrite Hq, Hph in Hreads.
  destruct (accounts_end _ r' Hr' Ha' Hp') as [Hshort Hfull].
  split; intro Hm.
  - intro k.
    destruct (ready_read_end fuel r' Hr' Hp' (Hshort Hm)) as (r1 & H1 & Hd).
    exists r1. split; [|exact Hd].
    rewrite reads_app, Hreads. cbn [bind reads]. rewrite H1. cbn [bind].
    rewrite (reads_DONE fuel k r1 Hd). reflexivity.
  - rewrite reads_app, Hreads. cbn [bind reads].
    rewrite (ready_read_end_full fuel r' Hr' Hp' (Hfull Hm)). reflexivity.
Qed.

(** A ready reader on the bytes of records, with more bytes after them. *)
Lemma reads_records_then :
  forall t fuel recs r rest,
  ready r -> accounts t r ->
  pending r = file_of (mHasQuality r) recs ++ rest ->
  forallb (record_ok (mHasQuality r)) recs = true ->
  exists r',
    reads fuel (length recs) r
    = Ret (map (record_read (mHasQuality r) (mPhred64 r)) recs, r') /\
    ready r' /\ accounts t r' /\ pending r' = rest /\
    mHasQuality r' = mHasQuality r /\ mPhred64 r' = mPhred64 r.
Proof.
  intros t fuel recs.
  induction recs as [|rc recs IH]; intros r rest Hr Ha Hp Hok.
  - exists r. split; [reflexivity|]. split; [exact Hr|].
    split; [exact Ha|]. split; [exact Hp|]. split; reflexivity.
  - cbn [forallb] in Hok. apply andb_true_iff in Hok.
    destruct Hok as [Hok1 Hok].
    unfold file_of in Hp. cbn [map concat] in Hp.
    rewrite <- app_assoc in Hp.
    destruct (ready_read fuel r rc _ Hr Hp Hok1)
      as (r1 & Hread & R1 & P1 & Q1 & F1).
    pose proof (read_accounts t fuel r _ r1 Hread Ha) as A1.
    rewrite <- Q1 in Hok.
    destruct (IH r1 rest R1 A1) as (r' & Hreads & R' & A' & P' & Q' & F');
      [rewrite Q1; exact P1|exact Hok|].
    exists r'. split; [|split; [exact R'|split; [exact A'|split; [exact P'|]]]].
    + cbn [length reads]. rewrite Hread. cbn [bind]. rewrite Hreads.
      cbn [bind map]. rewrite Q1, F1. reflexivity.
    + split; congruence.
Qed.

(** A reader whose source was delivered whole in one chunk shorter than
    the capacity, at the head of that chunk, is ready. *)
Lemma ready_one_chunk :
  forall r,
  state r = INITIAL ->
  ctx r = mkCtx (Z.of_nat (length (mBuf r))) 0 0 [] ->
  mBuf r <> [] ->
  (Z.of_nat (length (mBuf r)) <? FQ_BUF_SIZE) = true ->
  mBufDataLen r = Z.of_nat (length (mBuf r)) ->
  mBufUsedLen r = 0 ->
  handle r = Some (mkStream [] true) ->
  ready r /\ pending r = mBuf r.
Proof.
  intros r Hs Hc Hb Hlt Hd Hu Hh. apply Z.ltb_lt in Hlt.
  assert (Hpos : 0 < Z.of_nat (length (mBuf r))).
  { destruct (mBuf r); [contradiction|]. cbn [length]. lia. }
  split; [split; [split|]|].
  - exact Hs.
  - rewrite Hc. reflexivity.
  - rewrite Hc. cbn [start len]. lia.
  - rewrite Hc. reflexivity.
  - rewrite Hc. cbn [len]. lia.
  - rewrite Hc. exact Hd.
  - exact Hu.
  - rewrite Hc. intros [].
  - exists (mkStream [] true). split; [exact Hh|].
    rewrite Hc. cbn [len]. split; intros _; [reflexivity|exact Hlt].
  - rewrite Hc. reflexivity.
  - unfold pending, unread_of. rewrite Hc, Hh.
    cbn [start partial unread]. rewrite Z2Nat.inj_0, skipn_O, app_nil_l.
    apply app_nil_r.
Qed.

(** ** C1: a length mismatch ends one call, not the stream *)

(** C1, as stated, fails: on [short_quality_then_good] the first call of
    [read] returns null because of the mismatch of record 1, and the call
    after it returns record 2 instead of null. *)
Lemma C1_counterexample :
  exists r0 r1 r2,
    FastqReader_new (one_file short_quality_then_good) (s2b "in.fq")
                    true false = Ret r0 /\
    read 0 r0 = Ret (None, r1) /\
    read 0 r1 =
    Ret (Some (mkRead (s2b "@r2") (s2b "GGTT") (s2b "+") (s2b "JJJJ") false),
         r2).
Proof.
  do 3 eexists. split; [|split].
  - vm_compute. reflexivity.
  - vm_compute. reflexivity.
  - vm_compute. reflexivity.
Qed.

(** C1, amended: for a reader with quality that is between two calls and
    whose pending bytes start with the four lines of a record (none of
    them empty, the first starting with the marker), when the quality
    line and the sequence line differ in length [read] returns null on
    that call, wherever the chunks end.  Nothing is latched: the reader
    is left ready on the bytes after the quality line, and if a record
    follows there, the next call returns what [read] makes of it. *)
Theorem C1_mismatch_is_null_for_that_call :
  forall fuel r n s p q rest,
  ready r -> mHasQuality r = true ->
  pending r = record_bytes true (n, s, p, q) ++ rest ->
  record_ok true (n, s, p, q) = true ->
  length (chomp q) <> length (chomp s) ->
  exists r',
    read fuel r = Ret (None, r') /\
    ready r' /\ pending r' = rest /\
    (forall rc rest2,
       rest = record_bytes true rc ++ rest2 -> record_ok true rc = true ->
       exists r'',
         read fuel r' = Ret (record_read true (mPhred64 r) rc, r'') /\
         ready r'' /\ pending r'' = rest2).
Proof.
  intros fuel r n s p q rest Hr Hq Hp Hok Hne.
  assert (Hp1 : pending r = record_bytes (mHasQuality r) (n, s, p, q) ++ rest)
    by (rewrite Hq; exact Hp).
  assert (Hok1 : record_ok (mHasQuality r) (n, s, p, q) = true)
    by (rewrite Hq; exact Hok).
  destruct (ready_read fuel r (n, s, p, q) rest Hr Hp1 Hok1)
    as (r' & Hread & Hr' & Hp' & Hq' & Hf').
  rewrite Hq in Hread. cbn [record_read] in Hread.
  apply Nat.eqb_neq in Hne. rewrite Hne in Hread.
  exists r'. split; [exact Hread|]. split; [exact Hr'|]. split; [exact Hp'|].
  intros rc rest2 -> Hok2.
  assert (Hq2 : mHasQuality r' = true) by congruence.
  assert (Hp2 : pending r' = record_bytes (mHasQuality r') rc ++ rest2)
    by (rewrite Hq2; exact Hp').
  assert (Hok3 : record_ok (mHasQuality r') rc = true)
    by (rewrite Hq2; exact Hok2).
  destruct (ready_read fuel r' rc rest2 Hr' Hp2 Hok3)
    as (r'' & Hread2 & Hr'' & Hp'' & _).
  rewrite Hq2, Hf' in Hread2.
  exists r''. split; [exact Hread2|]. split; assumption.
Qed.

(** The instance of C1 on the reader opened on [short_quality_then_good]. *)
Lemma C1_witness :
  exists r',
    read 0 short_quality_reader = Ret (None, r') /\
    ready r' /\ pending r' = nl ["@r2"; "GGTT"; "+"; "JJJJ"]%string /\
    (forall rc rest2,
       nl ["@r2"; "GGTT"; "+"; "JJJJ"]%string
       = record_bytes true rc ++ rest2 -> record_ok true rc = true ->
       exists r'',
         read 0 r' = Ret (record_read true (mPhred64 short_quality_reader) rc,
                          r'') /\
         ready r'' /\ pending r'' = rest2).
Proof.
  destruct (ready_one_chunk short_quality_reader) as [Hr Hp];
    try reflexivity; try discriminate.
  apply (C1_mismatch_is_null_for_that_call 0 short_quality_reader
           (s2b "r1") (s2b "ACGT") (s2b "+") (s2b "III")
           (nl ["@r2"; "GGTT"; "+"; "JJJJ"]%string)).
  - exact Hr.
  - reflexivity.
  - rewrite Hp. reflexivity.
  - reflexivity.
  - vm_compute. lia.
Defined.

Example short_quality_reader_opened :
  FastqReader_new (one_file short_quality_then_good) (s2b "in.fq") true false
  = Ret short_quality_reader.
Proof. vm_compute. reflexivity. Qed.

(** ** C2: a last line without terminator *)

(** C2 does not hold of the code: [getLine] leaves its loop in the
    terminal state with [return string()], and what it has accumulated
    stays in [partial] for ever.  With its trailing line feed the file
    yields the record; without it the quality line is read as empty, the
    lengths differ, and [read] returns null, now and on every later call. *)
Theorem C2_unterminated_last_line_is_lost :
  forall fuel,
  (exists r0 r1,
     FastqReader_new (one_file one_record) (s2b "in.fq") true false = Ret r0 /\
     read fuel r0 =
     Ret (Some (mkRead (s2b "@r1") (s2b "ACGT") (s2b "+") (s2b "IIII") false),
          r1))
  /\
  (exists r0 r1,
     one_record_cut ++ [LF] = one_record /\
     FastqReader_new (one_file one_record_cut) (s2b "in.fq") true false
     = Ret r0 /\
     read fuel r0 = Ret (None, r1) /\
     state r1 = DONE /\
     partial (ctx r1) = s2b "IIII" /\
     forall k, reads fuel k r1 = Ret (repeat None k, r1)).
Proof.
  intros fuel. split.
  - destruct fuel; do 2 eexists;
      (split; [vm_compute; reflexivity|vm_compute; reflexivity]).
  - destruct fuel; do 2 eexists;
      (split; [reflexivity|]);
      (split; [vm_compute; reflexivity|]);
      (split; [vm_compute; reflexivity|]);
      (split; [reflexivity|]);
      (split; [reflexivity|]);
      intro k; apply reads_DONE; reflexivity.
Qed.

(** ** C3: the skipping loop *)

(** In the terminal state, with a last chunk that is not empty, the
    condition of the skipping loop stays true on the empty line: the loop
    has no exit. *)
Lemma skip_loop_spins :
  forall fuel r,
  state r = DONE -> mBufUsedLen r < mBufDataLen r ->
  skip_loop fuel [] r = Spin.
Proof.
  induction fuel as [|fuel IH]; intros r Hd Hlt.
  - simpl. unfold not_a_name, used_up. simpl.
    destruct (mBufDataLen r <=? mBufUsedLen r) eqn:E; [lia|]. reflexivity.
  - simpl. unfold not_a_name, used_up. simpl.
    destruct (mBufDataLen r <=? mBufUsedLen r) eqn:E; [lia|]. simpl.
    rewrite getLine_DONE by assumption. cbn [bind].
    apply IH; assumption.
Qed.

(** A whole input of lines without the marker: the skipping loop goes
    past every line, reaches the end of the stream, and then asks for
    lines for ever. *)
Lemma skip_loop_garbage :
  forall t ls fuel name r,
  ready r -> accounts t r -> t mod FQ_BUF_SIZE <> 0 ->
  pending r = lines_bytes ls -> forallb skipped_line ls = true ->
  (Ascii.eqb (hd zero name) "@"%char) = false ->
  skip_loop fuel name r = Spin.
Proof.
  intros t.
  assert (Cond : forall name r,
    ready r -> (Ascii.eqb (hd zero name) "@"%char) = false ->
    not_a_name name r = true).
  { intros name r Hr Hh. unfold not_a_name.
    destruct (live_guards r (ready_live r Hr)) as [_ Hu]. rewrite Hu, Hh.
    destruct name; reflexivity. }
  induction ls as [|l ls IH]; intros fuel name r Hr Ha Hm Hp Hok Hh.
  - destruct fuel as [|fuel]; cbn [skip_loop]; rewrite (Cond name r Hr Hh);
      [reflexivity|].
    destruct (scanning_getLine_unterminated t _ r (Nat.le_refl _)
                (proj1 Hr) Ha Hm) as (r' & Hg & Hd & _ & Hlt).
    { rewrite Hp. intros []. }
    rewrite Hg. cbn [bind]. apply skip_loop_spins; assumption.
  - cbn [forallb] in Hok. apply andb_true_iff in Hok.
    destruct Hok as [Hl Hok]. unfold skipped_line in Hl.
    apply andb_true_iff in Hl. destruct Hl as [Hl Hat].
    apply negb_true_iff in Hat.
    destruct fuel as [|fuel]; cbn [skip_loop]; rewrite (Cond name r Hr Hh);
      [reflexivity|].
    unfold lines_bytes in Hp. cbn [map concat] in Hp.
    rewrite <- app_assoc in Hp. cbn [app] in Hp.
    destruct (ready_getLine r l _ Hr Hp Hl) as (r1 & Hg & Hr1 & Hp1 & _).
    rewrite Hg. cbn [bind].
    apply (IH fuel (chomp l) r1); try assumption.
    apply (getLine_loop_accounts t _ r _ r1 Hg Ha).
Qed.

(** [read] on such an input, when what [getLine] returns for the first
    line is not empty, never returns. *)
Lemma read_garbage_spins :
  forall w path hasQuality phred64 l ls fuel,
  fs w path = Some (lines_bytes (l :: ls)) -> path <> s2b "/dev/stdin" ->
  forallb skipped_line (l :: ls) = true -> empty (chomp l) = false ->
  Z.of_nat (length (lines_bytes (l :: ls))) mod FQ_BUF_SIZE <> 0 ->
  exists r0,
    FastqReader_new w path hasQuality phred64 = Ret r0 /\
    read fuel r0 = Spin.
Proof.
  intros w path hq p64 l ls fuel Hfs Hpath Hok Hne Hm.
  assert (Hd : lines_bytes (l :: ls) <> []).
  { unfold lines_bytes. cbn [map concat]. destruct l; discriminate. }
  destruct (new_ready w path hq p64 _ Hfs Hpath Hd)
    as (r0 & Hnew & Hr0 & Hp0 & _ & _ & Hlen).
  exists r0. split; [exact Hnew|].
  assert (Ha0 : accounts (Z.of_nat (length (lines_bytes (l :: ls)))) r0).
  { split; [apply (sc_cap r0 (proj1 Hr0))|]. exists 0. lia. }
  cbn [forallb] in Hok. apply andb_true_iff in Hok.
  destruct Hok as [Hl Hok]. unfold skipped_line in Hl.
  apply andb_true_iff in Hl. destruct Hl as [Hl Hat].
  apply negb_true_iff in Hat.
  assert (Hp : pending r0 = l ++ LF :: lines_bytes ls).
  { rewrite Hp0. unfold lines_bytes. cbn [map concat].
    rewrite <- app_assoc. reflexivity. }
  destruct (ready_getLine r0 l _ Hr0 Hp Hl) as (r1 & Hg & Hr1 & Hp1 & _).
  unfold read.
  destruct (live_guards r0 (ready_live r0 Hr0)) as [Hz Hu]. rewrite Hz, Hu.
  rewrite Hg. cbn [bind]. rewrite Hne.
  rewrite (skip_loop_garbage _ ls fuel (chomp l) r1 Hr1
             (getLine_loop_accounts _ _ r0 _ r1 Hg Ha0) Hm Hp1 Hok Hat).
  reflexivity.
Qed.

(** C3 does not hold of the code: on the eight bytes "garbage\n" the
    first line does not start with the marker, the next [getLine] finds
    the source exhausted and answers the empty line, and from then on the
    loop asks for lines for ever: [mBufUsedLen] is never advanced, so
    the test [mBufUsedLen >= mBufDataLen] stays false.  No amount of fuel
    lets [read] return. *)
Theorem C3_skip_loop_never_ends :
  exists r0,
    FastqReader_new (one_file garbage) (s2b "in.fq") true false = Ret r0 /\
    forall fuel, read fuel r0 = Spin.
Proof.
  eexists. split; [vm_compute; reflexivity|].
  intros fuel. unfold read.
  match goal with
  | |- context [getLine ?r] =>
      let x := eval vm_compute in (getLine r) in
      replace (getLine r) with x by (vm_compute; reflexivity)
  end.
  cbn [mZipped andb used_up mBufDataLen mBufUsedLen Z.leb Z.compare
       bind empty].
  destruct fuel as [|fuel]; [reflexivity|].
  cbn [skip_loop].
  replace (not_a_name _ _) with true by (vm_compute; reflexivity).
  match goal with
  | |- context [getLine ?r] =>
      let x := eval vm_compute in (getLine r) in
      replace (getLine r) with x by (vm_compute; reflexivity)
  end.
  cbn [bind].
  rewrite skip_loop_spins; [reflexivity|reflexivity|reflexivity].
Qed.

(** ** C4: a path that cannot be opened *)

(** A plain path that cannot be opened ends the process. *)
Lemma init_plain_unopened :
  forall w path hasQuality phred64,
  ends_with path (s2b ".gz") = false -> path <> s2b "/dev/stdin" ->
  fs w path = None ->
  FastqReader_new w path hasQuality phred64
  = Exit (s2b "Failed to open file: " ++ path).
Proof.
  intros w path hq p64 He Hp Hfs. unfold FastqReader_new, init, open_stream.
  cbn [mFilename]. rewrite He, Hfs.
  destruct (list_eq_dec ascii_dec path (s2b "/dev/stdin")); [contradiction|].
  reflexivity.
Qed.

(** A gzip path that cannot be opened does not: the null handle goes to
    [gzread], which answers -1, and [readToBuf] reads [mBuf[-2]]. *)
Lemma init_gz_unopened :
  forall w path hasQuality phred64,
  ends_with path (s2b ".gz") = true -> fs w path = None ->
  FastqReader_new w path hasQuality phred64 = Fault (BufIndex (-2)).
Proof.
  intros w path hq p64 He Hfs. unfold FastqReader_new, init, open_stream.
  cbn [mFilename]. rewrite He, Hfs. reflexivity.
Qed.

(** C4 does not hold of the code for gzip paths.  The plain path that
    cannot be opened ends the process with "Failed to open file"; the
    gzip path never reaches [error_exit]: [init] does not test the handle
    [gzopen] answers, and goes on to the refill, which reads outside the
    array.  On the reader this leaves, [read] answers null at its test of
    the null handle, on every call. *)
Theorem C4_gzip_open_failure_is_not_fatal :
  forall hasQuality phred64,
  FastqReader_new no_files (s2b "reads.fq") hasQuality phred64
  = Exit (s2b "Failed to open file: reads.fq") /\
  FastqReader_new no_files (s2b "reads.fq.gz") hasQuality phred64
  = Fault (BufIndex (-2)) /\
  forall flag fuel k,
    reads fuel k (unopened_gz hasQuality phred64 flag)
    = Ret (repeat None k, unopened_gz hasQuality phred64 flag).
Proof.
  intros hq p64. split; [|split].
  - apply init_plain_unopened; [reflexivity|discriminate|reflexivity].
  - apply init_gz_unopened; reflexivity.
  - intros flag fuel k. induction k as [|k IH]; [reflexivity|].
    cbn [reads]. unfold read at 1. cbn [mZipped mZipFile unopened_gz andb].
    cbn [bind]. rewrite IH. reflexivity.
Qed.

(** ** C5: the flag for a missing last line break *)

(** What a refill that returns does to the flag: it raises it when the
    chunk is short and its last byte is no line feed, and never lowers it. *)
Lemma readToBuf_flag :
  forall r r', readToBuf r = Ret r' ->
  0 < mBufDataLen r' /\
  exists c,
    buf_at (mBuf r') (mBufDataLen r' - 1) = Some c /\
    mHasNoLineBreakAtEnd r' =
    mHasNoLineBreakAtEnd r
    || ((mBufDataLen r' <? FQ_BUF_SIZE) && negb (Ascii.eqb c LF)).
Proof.
  intros r r' H.
  destruct (readToBuf_Ret r r' H)
    as (s & d & s' & Hh & Hs & Hd & _ & _ & Hb & Hl & _).
  split; [lia|].
  assert (Hc : exists c, buf_at d (Z.of_nat (length d) - 1) = Some c).
  { unfold buf_at. destruct (Z.of_nat (length d) - 1 <? 0) eqn:E; [lia|].
    destruct (nth_error d (Z.to_nat (Z.of_nat (length d) - 1))) eqn:En;
      [eexists; reflexivity|].
    apply nth_error_None in En. lia. }
  destruct Hc as [c Hc]. exists c. rewrite Hb, Hl. split; [exact Hc|].
  unfold readToBuf, pull in H. unfold handle in Hh.
  destruct (mZipped r).
  - rewrite Hh, Hs in H. cbn [bind] in H. rewrite Hc in H.
    destruct (Z.of_nat (length d) <? FQ_BUF_SIZE); cbn [bind] in H;
      inversion H; subst; cbn [mHasNoLineBreakAtEnd];
      destruct (Ascii.eqb c LF), (mHasNoLineBreakAtEnd r); reflexivity.
  - rewrite Hh, Hs in H. cbn [bind] in H. rewrite Hc in H.
    destruct (Z.of_nat (length d) <? FQ_BUF_SIZE); cbn [bind] in H;
      inversion H; subst; cbn [mHasNoLineBreakAtEnd];
      destruct (Ascii.eqb c LF), (mHasNoLineBreakAtEnd r); reflexivity.
Qed.

(** C5 does not hold of the code: [readToBuf] has no test for a refill
    of zero bytes, and reads [mBuf[-1]], outside the array, to decide the
    flag; opening an empty file does so at once.  Nor is the flag computed
    anew: a refill of the two bytes "A\n" leaves a raised flag raised,
    where the predicate of C5 is false. *)
Theorem C5_refill_of_zero_bytes :
  readToBuf (unfilled [] false) = Fault (BufIndex (-1)) /\
  FastqReader_new (one_file []) (s2b "in.fq") true false
  = Fault (BufIndex (-1)) /\
  exists r',
    readToBuf (unfilled (s2b "A" ++ [LF]) true) = Ret r' /\
    mBufDataLen r' = 2 /\
    buf_at (mBuf r') 1 = Some LF /\
    mHasNoLineBreakAtEnd r' = true.
Proof.
  split; [vm_compute; reflexivity|].
  split; [vm_compute; reflexivity|].
  eexists. split; [vm_compute; reflexivity|].
  split; [reflexivity|]. split; reflexivity.
Qed.

(** ** C6: the two-record example *)

Lemma two_records_opened :
  forall w path phred64,
  fs w path = Some two_records -> path <> s2b "/dev/stdin" ->
  FastqReader_new w path true phred64
  = Ret (two_records_reader path (ends_with path (s2b ".gz")) phred64).
Proof.
  intros w path phred64 Hfs Hp. unfold FastqReader_new, init, open_stream.
  cbn [mFilename mZipFile mFile mStdinMode mPhred64 mHasQuality mBuf
       mBufDataLen mBufUsedLen mHasNoLineBreakAtEnd ctx state].
  rewrite Hfs. cbn [option_map].
  destruct (ends_with path (s2b ".gz")).
  - vm_compute. reflexivity.
  - destruct (list_eq_dec ascii_dec path (s2b "/dev/stdin")) as [E|E];
      [contradiction|].
    vm_compute. reflexivity.
Qed.

(** C6: on the input "@r1\nACGT\n+\nIIII\n@r2\nGGTT\n+\nJJJJ\n", read
    with quality, the successive calls of [read] return the record
    (@r1, ACGT, IIII), then the record (@r2, GGTT, JJJJ), and null on
    every call after, whatever the fuel given to the skipping loop. *)
Theorem C6_two_records_then_null :
  forall w path phred64 fuel k,
  fs w path = Some two_records -> path <> s2b "/dev/stdin" ->
  exists r0 r_end,
    FastqReader_new w path true phred64 = Ret r0 /\
    reads fuel (2 + k) r0 =
    Ret (Some (mkRead (s2b "@r1") (s2b "ACGT") (s2b "+") (s2b "IIII") phred64)
         :: Some (mkRead (s2b "@r2") (s2b "GGTT") (s2b "+") (s2b "JJJJ")
                         phred64)
         :: repeat None k,
         r_end).
Proof.
  intros w path phred64 fuel k Hfs Hp.
  exists (two_records_reader path (ends_with path (s2b ".gz")) phred64).
  assert (H3 : exists r3,
    reads fuel 3 (two_records_reader path (ends_with path (s2b ".gz"))
                                     phred64)
    = Ret ([Some (mkRead (s2b "@r1") (s2b "ACGT") (s2b "+") (s2b "IIII")
                         phred64);
            Some (mkRead (s2b "@r2") (s2b "GGTT") (s2b "+") (s2b "JJJJ")
                         phred64);
            None], r3) /\ state r3 = DONE).
  { destruct (ends_with path (s2b ".gz")); destruct fuel;
      eexists; (split; [vm_compute; reflexivity|reflexivity]). }
  destruct H3 as (r3 & H3 & Hd).
  destruct k as [|k].
  - rewrite (two_records_opened w path phred64 Hfs Hp).
    destruct (ends_with path (s2b ".gz")); destruct fuel;
      eexists; (split; [reflexivity|vm_compute; reflexivity]).
  - exists r3. split; [apply two_records_opened; assumption|].
    replace (2 + S k)%nat with (3 + k)%nat by lia.
    rewrite reads_app, H3. cbn [bind].
    rewrite (reads_DONE fuel k r3 Hd). cbn [bind app]. reflexivity.
Qed.

Lemma C6_witness :
  exists r0 r_end,
    FastqReader_new (one_file two_records) (s2b "in.fq") true false = Ret r0 /\
    reads 0 (2 + 3) r0 =
    Ret (Some (mkRead (s2b "@r1") (s2b "ACGT") (s2b "+") (s2b "IIII") false)
         :: Some (mkRead (s2b "@r2") (s2b "GGTT") (s2b "+") (s2b "JJJJ")
                         false)
         :: repeat None 3,
         r_end).
Proof.
  apply (C6_two_records_then_null (one_file two_records) (s2b "in.fq")
           false 0%nat 3%nat).
  - reflexivity.
  - discriminate.
Defined.

(** ** C7: the placeholder quality *)

(** C7: every record [read] returns when the reader was opened without
    quality has a quality string as long as its sequence and made of the
    character K only, and the last line taken from the input for it is
    its third line (the call ends in the state in which the [getLine] of
    that line left the reader).  On the stream: a reader without quality
    whose pending bytes start with the three lines of a record returns
    the record with that quality, and all the bytes after the third line
    are still pending. *)
Theorem C7_placeholder_quality :
  (forall fuel r rec r',
     mHasQuality r = false ->
     read fuel r = Ret (Some rec, r') ->
     length (mQuality rec) = length (mSeq rec) /\
     Forall (fun c => c = "K"%char) (mQuality rec) /\
     exists r2 r3,
       getLine r2 = Ret (mSeq rec, r3) /\
       getLine r3 = Ret (mStrand rec, r'))
  /\
  (forall fuel r n s p q rest,
     ready r -> mHasQuality r = false ->
     pending r = record_bytes false (n, s, p, q) ++ rest ->
     record_ok false (n, s, p, q) = true ->
     exists r',
       read fuel r =
       Ret (Some (mkRead ("@"%char :: chomp n) (chomp s) (chomp p)
                         (repeat "K"%char (length (chomp s))) (mPhred64 r)),
            r') /\
       ready r' /\ pending r' = rest).
Proof.
  split.
  - intros fuel r rec r' Hq H. unfold read in H.
    destruct (_ && _); [discriminate|].
    destruct (used_up r); [discriminate|].
    destruct (getLine r) as [[name r1]| | |] eqn:E1; try discriminate.
    cbn [bind] in H.
    destruct (empty name); [discriminate|].
    destruct (skip_loop fuel name r1) as [[name' r2]| | |] eqn:E2;
      try discriminate.
    cbn [bind] in H.
    destruct (empty name'); [discriminate|].
    destruct (getLine r2) as [[sequence r3]| | |] eqn:E3; try discriminate.
    cbn [bind] in H.
    destruct (getLine r3) as [[strand r4]| | |] eqn:E4; try discriminate.
    cbn [bind] in H.
    assert (Hq4 : mHasQuality r4 = false).
    { apply getLine_keeps in E1, E3, E4. apply skip_loop_keeps in E2.
      destruct E1, E2, E3, E4. congruence. }
    rewrite Hq4 in H. cbn [negb] in H. inversion H; subst; clear H.
    cbn [mQuality mSeq mStrand].
    split; [apply repeat_length|].
    split; [apply Forall_forall; intros c Hc; apply repeat_spec in Hc;
            exact Hc|].
    exists r2, r3. split; assumption.
  - intros fuel r n s p q rest Hr Hq Hp Hok.
    assert (Hp1 : pending r
                  = record_bytes (mHasQuality r) (n, s, p, q) ++ rest)
      by (rewrite Hq; exact Hp).
    assert (Hok1 : record_ok (mHasQuality r) (n, s, p, q) = true)
      by (rewrite Hq; exact Hok).
    destruct (ready_read fuel r (n, s, p, q) rest Hr Hp1 Hok1)
      as (r' & Hread & Hr' & Hp' & _).
    rewrite Hq in Hread. cbn [record_read] in Hread.
    exists r'. split; [exact Hread|]. split; assumption.
Qed.

Example no_quality_reader_opened :
  FastqReader_new (one_file two_records_no_quality) (s2b "in.fq") false false
  = Ret no_quality_reader.
Proof. vm_compute. reflexivity. Qed.

(** The instance of C7 on the spec's example without quality lines. *)
Lemma C7_witness :
  (let rec := mkRead (s2b "@r1") (s2b "ACGT") (s2b "+") (s2b "KKKK") false in
   length (mQuality rec) = length (mSeq rec) /\
   Forall (fun c => c = "K"%char) (mQuality rec) /\
   exists r2 r3,
     getLine r2 = Ret (mSeq rec, r3) /\
     getLine r3 =
     Ret (mStrand rec,
          set_ctx (mkCtx 22 11 11 []) no_quality_reader))
  /\
  (exists r',
     read 0 no_quality_reader =
     Ret (Some (mkRead ("@"%char :: chomp (s2b "r1")) (chomp (s2b "ACGT"))
                       (chomp (s2b "+"))
                       (repeat "K"%char (length (chomp (s2b "ACGT"))))
                       (mPhred64 no_quality_reader)),
          r') /\
     ready r' /\ pending r' = nl ["@r2"; "GGTT"; "+"]%string).
Proof.
  split.
  - apply (proj1 C7_placeholder_quality 0%nat no_quality_reader).
    + reflexivity.
    + vm_compute. reflexivity.
  - destruct (ready_one_chunk no_quality_reader) as [Hr Hp];
      try reflexivity; try discriminate.
    apply (proj2 C7_placeholder_quality 0%nat no_quality_reader
             (s2b "r1") (s2b "ACGT") (s2b "+") []
             (nl ["@r2"; "GGTT"; "+"]%string)).
    + exact Hr.
    + reflexivity.
    + rewrite Hp. reflexivity.
    + reflexivity.
Defined.

(** ** C8: carriage returns *)

(** C8, as stated, fails in its last part: the line "a\r\r\n" ends in
    "\r\n", and the value [getLine] returns for it, "a\r", has a trailing
    carriage return. *)
Lemma C8_counterexample :
  exists r0 r1 line,
    FastqReader_new (one_file double_cr) (s2b "in.fq") true false = Ret r0 /\
    getLine r0 = Ret (line, r1) /\
    line = s2b "a" ++ [CR] /\
    back line = Some CR.
Proof.
  do 3 eexists. split; [|split; [|split]].
  - vm_compute. reflexivity.
  - vm_compute. reflexivity.
  - reflexivity.
  - reflexivity.
Qed.

(** C8, amended: on the terminator-found path, when the reassembled line
    (what was accumulated, then the bytes up to the terminator) is not
    empty, [getLine] returns it with one trailing carriage return removed
    if it ends in one, and unchanged otherwise.  On the stream, wherever
    the chunks end: a line that is not empty is returned so, and a line
    written [l ++ "\r\n"] yields [l], whatever [l] ends in. *)
Theorem C8_one_carriage_return_stripped :
  (forall r result cx,
     state r = INITIAL ->
     next (mBuf r) (ctx r) = (result, true, cx) ->
     let line := partial (ctx r) ++ result in
     empty line = false ->
     exists out,
       getLine r = Ret (out, set_ctx (set_partial [] cx) r) /\
       (forall body, line = body ++ [CR] -> out = body) /\
       (back line <> Some CR -> out = line))
  /\
  (forall r line rest,
     ready r -> pending r = line ++ LF :: rest -> is_line line = true ->
     exists out r',
       getLine r = Ret (out, r') /\ ready r' /\ pending r' = rest /\
       (forall body, line = body ++ [CR] -> out = body) /\
       (back line <> Some CR -> out = line))
  /\
  (forall r l rest,
     ready r -> pending r = (l ++ [CR]) ++ LF :: rest -> no_lf l = true ->
     exists r', getLine r = Ret (l, r') /\ ready r' /\ pending r' = rest).
Proof.
  split; [|split].
  - intros r result cx Hs Hn line He.
    exists (chomp line). split; [|split].
    + rewrite (getLine_complete r result cx Hs Hn). fold line.
      destruct (back line) eqn:Eb; [reflexivity|].
      apply back_None in Eb. rewrite Eb in He. discriminate.
    + intros body ->. apply chomp_CR.
    + apply chomp_other.
  - intros r line rest Hr Hp Hl.
    destruct (ready_getLine r line rest Hr Hp Hl)
      as (r' & Hg & Hr' & Hp' & _).
    exists (chomp line), r'. split; [exact Hg|]. split; [exact Hr'|].
    split; [exact Hp'|]. split.
    + intros body ->. apply chomp_CR.
    + apply chomp_other.
  - intros r l rest Hr Hp Hl.
    assert (Hl' : is_line (l ++ [CR]) = true).
    { unfold is_line. apply andb_true_iff. split.
      - destruct l; reflexivity.
      - unfold no_lf in *. rewrite forallb_app, Hl. reflexivity. }
    destruct (ready_getLine r (l ++ [CR]) rest Hr Hp Hl')
      as (r' & Hg & Hr' & Hp' & _).
    rewrite chomp_CR in Hg.
    exists r'. split; [exact Hg|]. split; assumption.
Qed.

Example crlf_reader_opened :
  FastqReader_new
    (one_file ((s2b "ACGT" ++ [CR]) ++ LF :: s2b "+" ++ [CR; LF]))
    (s2b "in.fq") true false
  = Ret crlf_reader.
Proof. vm_compute. reflexivity. Qed.

(** The instances of C8 on a reader in the middle of a line and on a
    reader at the head of a file with "\r\n" line ends. *)
Lemma C8_witness :
  (exists out,
     getLine mid_line_reader =
     Ret (out, set_ctx (set_partial [] (mkCtx 6 4 4 (s2b "AC")))
                       mid_line_reader) /\
     (forall body, s2b "AC" ++ s2b "GT" ++ [CR] = body ++ [CR] ->
                   out = body) /\
     (back (s2b "AC" ++ s2b "GT" ++ [CR]) <> Some CR ->
      out = s2b "AC" ++ s2b "GT" ++ [CR]))
  /\
  (exists out r',
     getLine short_quality_reader = Ret (out, r') /\ ready r' /\
     pending r' = nl ["ACGT"; "+"; "III"; "@r2"; "GGTT"; "+"; "JJJJ"]%string /\
     (forall body, s2b "@r1" = body ++ [CR] -> out = body) /\
     (back (s2b "@r1") <> Some CR -> out = s2b "@r1"))
  /\
  (exists r',
     getLine crlf_reader = Ret (s2b "ACGT", r') /\ ready r' /\
     pending r' = s2b "+" ++ [CR; LF]).
Proof.
  split; [|split].
  - apply (proj1 C8_one_carriage_return_stripped mid_line_reader
             (s2b "GT" ++ [CR]) (mkCtx 6 4 4 (s2b "AC"))).
    + reflexivity.
    + reflexivity.
    + reflexivity.
  - destruct (ready_one_chunk short_quality_reader) as [Hr Hp];
      try reflexivity; try discriminate.
    apply (proj1 (proj2 C8_one_carriage_return_stripped)
             short_quality_reader (s2b "@r1")
             (nl ["ACGT"; "+"; "III"; "@r2"; "GGTT"; "+"; "JJJJ"]%string)).
    + exact Hr.
    + rewrite Hp. reflexivity.
    + reflexivity.
  - destruct (ready_one_chunk crlf_reader) as [Hr Hp];
      try reflexivity; try discriminate.
    apply (proj2 (proj2 C8_one_carriage_return_stripped) crlf_reader
             (s2b "ACGT") (s2b "+" ++ [CR; LF])).
    + exact Hr.
    + rewrite Hp. reflexivity.
    + reflexivity.
Defined.

(** ** C9: the paired reader *)

(** The calls of an interleaved paired reader, from those of its source. *)
Lemma interleaved_by_two :
  forall fuel n l mr xs l',
  reads fuel (2 * n) l = Ret (xs, l') ->
  pair_reads fuel n (mkPair l mr true) = Ret (pairs xs, mkPair l' mr true).
Proof.
  unfold mkPair. intros fuel n.
  induction n as [|n IH]; intros l mr xs l' H.
  - cbn in H. inversion H; subst. reflexivity.
  - replace (2 * S n)%nat with (S (S (2 * n))) in H by lia.
    cbn [reads] in H.
    split_bind H y1 H1. destruct y1 as [a l1].
    split_bind H y2 H2. destruct y2 as [ys l3].
    split_bind H2 y3 H3. destruct y3 as [b l2].
    split_bind H2 y4 H4. destruct y4 as [zs l4].
    inversion H2; subst; clear H2. inversion H; subst; clear H.
    cbn [pair_reads]. unfold FastqReaderPair_read.
    cbn [mLeft mRight mInterleaved shares_stdin]. rewrite H1. cbn [bind].
    rewrite H3. cbn [bind]. rewrite (IH _ mr _ _ H4). reflexivity.
Qed.

(** The calls of a paired reader on two sources, from those of the sources. *)
Lemma in_step :
  forall fuel n l r xs ys l' r',
  reads fuel n l = Ret (xs, l') -> reads fuel n r = Ret (ys, r') ->
  pair_reads fuel n (mkPair l (Some r) false)
  = Ret (side_by_side xs ys, mkPair l' (Some r') false).
Proof.
  unfold mkPair. intros fuel n.
  induction n as [|n IH]; intros l r xs ys l' r' Hl Hr.
  - cbn in Hl, Hr. inversion Hl; inversion Hr; subst. reflexivity.
  - cbn [reads] in Hl, Hr.
    split_bind Hl y1 H1. destruct y1 as [a l1].
    split_bind Hl y2 H2. destruct y2 as [as_ l2].
    inversion Hl; subst; clear Hl.
    split_bind Hr z1 K1. destruct z1 as [b r1].
    split_bind Hr z2 K2. destruct z2 as [bs r2].
    inversion Hr; subst; clear Hr.
    cbn [pair_reads]. unfold FastqReaderPair_read.
    cbn [mLeft mRight mInterleaved shares_stdin]. rewrite H1. cbn [bind].
    rewrite K1. cbn [bind]. unfold mkPair.
    rewrite (IH _ _ _ _ _ _ H2 K2). reflexivity.
Qed.

(** What [read] makes of a record whose quality fits its sequence. *)
Lemma record_read_fits :
  forall hasQuality phred64 rc,
  record_fits hasQuality rc = true ->
  record_read hasQuality phred64 rc
  = Some (record_of hasQuality phred64 rc).
Proof.
  intros hq p64 [[[n s] p] q] H. unfold record_read, record_of.
  unfold record_fits in H. destruct hq; [rewrite H|]; reflexivity.
Qed.

Lemma firstn_repeat_le :
  forall (A : Type) (x : A) k m,
  (k <= m)%nat -> firstn k (repeat x m) = repeat x k.
Proof.
  intros A x k. induction k as [|k IH]; intros m H; [reflexivity|].
  destruct m as [|m]; [lia|]. cbn [repeat firstn].
  rewrite IH by lia. reflexivity.
Qed.

Lemma side_by_side_none_r :
  forall xs k, length xs = k ->
  side_by_side xs (repeat None k) = repeat None k.
Proof.
  intros xs. induction xs as [|x xs IH]; intros k H; subst k;
    [reflexivity|].
  cbn [length repeat]. unfold side_by_side in *.
  cbn [combine map fst snd]. rewrite (IH _ eq_refl).
  destruct x; reflexivity.
Qed.

Lemma pairs_none :
  forall k, pairs (repeat None (2 * k)) = repeat None k.
Proof.
  induction k as [|k IH]; [reflexivity|].
  replace (2 * S k)%nat with (S (S (2 * k))) by lia.
  cbn [repeat pairs pair_up]. rewrite IH. reflexivity.
Qed.

(** The first [j] calls on an input made of well-formed records. *)
Lemma whole_input_calls :
  forall w path hasQuality phred64 recs fuel,
  source_of w path = Some (file_of hasQuality recs) ->
  recs <> [] -> forallb (record_ok hasQuality) recs = true ->
  Z.of_nat (length (file_of hasQuality recs)) mod FQ_BUF_SIZE <> 0 ->
  exists r0,
    FastqReader_new w path hasQuality phred64 = Ret r0 /\
    forall j, exists r',
      reads fuel j r0
      = Ret (firstn j (map (record_read hasQuality phred64) recs
                       ++ repeat None j), r').
Proof.
  intros w path hq p64 recs fuel Hsrc Hne Hok Hm.
  destruct (whole_input_reads w path hq p64 recs fuel Hsrc Hne Hok)
    as (r0 & Hnew & Hshort & _).
  exists r0. split; [exact Hnew|]. intro j.
  destruct (Nat.le_gt_cases j (length recs)) as [Hj|Hj].
  - destruct (new_ready_source w path hq p64 _ Hsrc
                (file_of_not_empty hq recs Hne))
      as (r1 & Hnew1 & Hr & Hp & Hq & Hph & Hlen).
    assert (r1 = r0) by congruence. subst r1.
    assert (Ha : accounts (Z.of_nat (length (file_of hq recs))) r0).
    { split; [apply (sc_cap r0 (proj1 Hr))|]. exists 0. lia. }
    assert (Hsplit : pending r0
                     = file_of (mHasQuality r0) (firstn j recs)
                       ++ file_of hq (skipn j recs)).
    { rewrite Hp, Hq. unfold file_of. rewrite <- concat_app, <- map_app.
      rewrite firstn_skipn. reflexivity. }
    assert (Hok' : forallb (record_ok (mHasQuality r0)) (firstn j recs)
                   = true).
    { rewrite Hq. apply forallb_forall. intros x Hx.
      rewrite forallb_forall in Hok. apply Hok.
      rewrite <- (firstn_skipn j recs). apply in_or_app. left. exact Hx. }
    destruct (reads_records_then _ fuel (firstn j recs) r0 _ Hr Ha Hsplit Hok')
      as (r' & Hreads & _).
    exists r'. rewrite length_firstn, Nat.min_l in Hreads by exact Hj.
    rewrite Hreads, Hq, Hph. rewrite firstn_app, length_map.
    replace (j - length recs)%nat with 0%nat by lia.
    rewrite firstn_O, app_nil_r, firstn_map. reflexivity.
  - destruct (Hshort Hm (j - length recs - 1)%nat) as (r' & Hreads & _).
    replace (length recs + S (j - length recs - 1))%nat with j
      in Hreads by lia.
    exists r'. rewrite Hreads. rewrite firstn_app, length_map.
    rewrite firstn_all2 by (rewrite length_map; lia).
    rewrite firstn_repeat_le by lia.
    replace (S (j - length recs - 1)) with (j - length recs)%nat by lia.
    reflexivity.
Qed.

(** C9, as stated, fails.  A left file of 3 records whose first record
    has a quality line one character short, with a right file of 2
    records: the first call returns null and the second a pair.  A left
    file of 3 records with a right file of 2 records whose last line has
    no line feed, and an interleaved file of 4 records whose last line has
    none: one pair, then null. *)
Lemma C9_counterexample :
  (exists p0 p_end,
     FastqReaderPair_new short_quality_files (s2b "R1.fq") (s2b "R2.fq")
                         true false false = Ret p0 /\
     pair_reads 0 3 p0 = Ret ([None; Some pair_b; None], p_end))
  /\
  (exists p0 p_end,
     FastqReaderPair_new cut_right_files (s2b "R1.fq") (s2b "R2.fq")
                         true false false = Ret p0 /\
     pair_reads 0 3 p0 = Ret ([Some pair_a; None; None], p_end))
  /\
  (exists p0 p_end,
     FastqReaderPair_new cut_interleaved_file (s2b "R12.fq") []
                         true false true = Ret p0 /\
     pair_reads 0 3 p0 = Ret ([Some pair_a; None; None], p_end)).
Proof.
  split; [|split]; do 2 eexists;
    (split; [vm_compute; reflexivity|vm_compute; reflexivity]).
Qed.

(** C9, amended: the calls of a paired reader on two sources return the
    results of the calls of [read] on the left and on the right source
    taken side by side, one of each per call; interleaved, those of the
    calls on the single source taken two by two; the pair of the two
    where both are records and null where either is null, the other being
    drawn and dropped, and the calls after go on reading.  So, for inputs
    made of well-formed records, each line ended by a line feed, quality
    and sequence of the same length in the records paired, the lengths of
    the inputs no multiples of the capacity, and the two sources not both
    standard input: a left input of 3 records with a right input of 2
    yields the pairs of their first and of their second records and then
    null on every call, and an interleaved input of 4 records yields the
    pairs of its records (1,2) and (3,4) and then null on every call. *)
Theorem C9_pairs_in_lock_step :
  (forall fuel n l r xs ys l' r',
     reads fuel n l = Ret (xs, l') -> reads fuel n r = Ret (ys, r') ->
     pair_reads fuel n (mkPair l (Some r) false)
     = Ret (side_by_side xs ys, mkPair l' (Some r') false))
  /\
  (forall fuel n l mr xs l',
     reads fuel (2 * n) l = Ret (xs, l') ->
     pair_reads fuel n (mkPair l mr true) = Ret (pairs xs, mkPair l' mr true))
  /\
  (forall a b,
     (pair_up a b = None <-> a = None \/ b = None) /\
     (forall x y, pair_up a b = Some (mkReadPair x y)
                  <-> a = Some x /\ b = Some y))
  /\
  (forall w leftName rightName hasQuality phred64 a1 a2 a3 b1 b2 fuel k,
     source_of w leftName = Some (file_of hasQuality [a1; a2; a3]) ->
     source_of w rightName = Some (file_of hasQuality [b1; b2]) ->
     on_stdin leftName && on_stdin rightName = false ->
     forallb (record_ok hasQuality) [a1; a2; a3; b1; b2] = true ->
     forallb (record_fits hasQuality) [a1; a2; b1; b2] = true ->
     Z.of_nat (length (file_of hasQuality [a1; a2; a3])) mod FQ_BUF_SIZE
     <> 0 ->
     Z.of_nat (length (file_of hasQuality [b1; b2])) mod FQ_BUF_SIZE <> 0 ->
     exists p0 p_end,
       FastqReaderPair_new w leftName rightName hasQuality phred64 false
       = Ret p0 /\
       pair_reads fuel (2 + k) p0
       = Ret (Some (mkReadPair (record_of hasQuality phred64 a1)
                               (record_of hasQuality phred64 b1))
              :: Some (mkReadPair (record_of hasQuality phred64 a2)
                                  (record_of hasQuality phred64 b2))
              :: repeat None k, p_end))
  /\
  (forall w path rightName hasQuality phred64 a1 a2 a3 a4 fuel k,
     source_of w path = Some (file_of hasQuality [a1; a2; a3; a4]) ->
     forallb (record_ok hasQuality) [a1; a2; a3; a4] = true ->
     forallb (record_fits hasQuality) [a1; a2; a3; a4] = true ->
     Z.of_nat (length (file_of hasQuality [a1; a2; a3; a4])) mod FQ_BUF_SIZE
     <> 0 ->
     exists p0 p_end,
       FastqReaderPair_new w path rightName hasQuality phred64 true
       = Ret p0 /\
       pair_reads fuel (2 + k) p0
       = Ret (Some (mkReadPair (record_of hasQuality phred64 a1)
                               (record_of hasQuality phred64 a2))
              :: Some (mkReadPair (record_of hasQuality phred64 a3)
                                  (record_of hasQuality phred64 a4))
              :: repeat None k, p_end)).
Proof.
  split; [exact in_step|].
  split; [exact interleaved_by_two|].
  split; [|split].
  - intros a b. split.
    + destruct a, b; simpl; split; intro H; auto; try discriminate;
        destruct H; discriminate.
    + intros x y. destruct a, b; simpl; split; intro H;
        try discriminate; try (destruct H; discriminate).
      * inversion H; subst. auto.
      * destruct H as [H1 H2]. inversion H1; inversion H2; subst.
        reflexivity.
  - intros w ln rn hq p64 a1 a2 a3 b1 b2 fuel k HsL HsR Hns Hok Hfit HmL HmR.
    cbn [forallb] in Hok, Hfit.
    repeat (apply andb_true_iff in Hok; destruct Hok as [?Hok Hok]).
    repeat (apply andb_true_iff in Hfit; destruct Hfit as [?Hfit Hfit]).
    assert (HokL : forallb (record_ok hq) [a1; a2; a3] = true).
    { cbn [forallb]. rewrite Hok0, Hok1, Hok2. reflexivity. }
    assert (HokR : forallb (record_ok hq) [b1; b2] = true).
    { cbn [forallb]. rewrite Hok3, Hok4. reflexivity. }
    destruct (whole_input_calls w ln hq p64 [a1; a2; a3] fuel HsL
                ltac:(discriminate) HokL HmL) as (l0 & HnewL & HcallsL).
    destruct (whole_input_calls w rn hq p64 [b1; b2] fuel HsR
                ltac:(discriminate) HokR HmR) as (r0 & HnewR & HcallsR).
    destruct (HcallsL (2 + k)%nat) as (l_end & HreadsL).
    destruct (HcallsR (2 + k)%nat) as (r_end & HreadsR).
    exists (mkPair l0 (Some r0) false), (mkPair l_end (Some r_end) false).
    split.
    + unfold FastqReaderPair_new. rewrite HnewL. cbn [bind].
      rewrite Hns, HnewR. reflexivity.
    + rewrite (in_step _ _ _ _ _ _ _ _ HreadsL HreadsR).
      f_equal. f_equal.
      cbn [map app firstn Nat.add].
      rewrite (record_read_fits hq p64 a1 Hfit0),
              (record_read_fits hq p64 a2 Hfit1),
              (record_read_fits hq p64 b1 Hfit2),
              (record_read_fits hq p64 b2 Hfit3).
      unfold side_by_side. cbn [combine map fst snd pair_up].
      f_equal. f_equal.
      rewrite firstn_repeat_le by lia.
      apply (side_by_side_none_r
               (firstn k (record_read hq p64 a3 :: None :: None
                          :: repeat None k)) k).
      rewrite length_firstn. cbn [length]. rewrite repeat_length. lia.
  - intros w path rn hq p64 a1 a2 a3 a4 fuel k Hs Hok Hfit Hm.
    destruct (whole_input_calls w path hq p64 [a1; a2; a3; a4] fuel Hs
                ltac:(discriminate) Hok Hm) as (r0 & Hnew & Hcalls).
    cbn [forallb] in Hfit.
    repeat (apply andb_true_iff in Hfit; destruct Hfit as [?Hfit Hfit]).
    destruct (Hcalls (2 * (2 + k))%nat) as (r_end & Hreads).
    exists (mkPair r0 None true), (mkPair r_end None true). split.
    + unfold FastqReaderPair_new. rewrite Hnew. reflexivity.
    + rewrite (interleaved_by_two _ _ _ _ _ _ Hreads).
      f_equal. f_equal.
      replace (2 * (2 + k))%nat with (S (S (S (S (2 * k))))) by lia.
      cbn [map app firstn].
      rewrite (record_read_fits hq p64 a1 Hfit0),
              (record_read_fits hq p64 a2 Hfit1),
              (record_read_fits hq p64 a3 Hfit2),
              (record_read_fits hq p64 a4 Hfit3).
      cbn [pairs pair_up]. f_equal. f_equal.
      rewrite firstn_repeat_le by lia. apply pairs_none.
Qed.

(** C9 on two readers of [two_records], and on the inputs [left_three]
    with [right_two] and [interleaved_four]. *)
Lemma C9_witness :
  let src := two_records_reader (s2b "in.fq") false false in
  (exists l1 r1,
     pair_reads 0 1 (mkPair src (Some src) false)
     = Ret (side_by_side [Some (rec4 "@r1" "ACGT" "IIII")]
                         [Some (rec4 "@r1" "ACGT" "IIII")],
            mkPair l1 (Some r1) false))
  /\
  (exists l2,
     pair_reads 0 1 (mkPair src None true)
     = Ret (pairs [Some (rec4 "@r1" "ACGT" "IIII");
                   Some (rec4 "@r2" "GGTT" "JJJJ")],
            mkPair l2 None true))
  /\
  (exists p0 p_end,
     FastqReaderPair_new two_files (s2b "R1.fq") (s2b "R2.fq")
                         true false false = Ret p0 /\
     pair_reads 0 (2 + 3) p0
     = Ret (Some (mkReadPair (record_of true false rec_a1)
                             (record_of true false rec_a2))
            :: Some (mkReadPair (record_of true false rec_b1)
                                (record_of true false rec_b2))
            :: repeat None 3, p_end))
  /\
  (exists p0 p_end,
     FastqReaderPair_new one_interleaved_file (s2b "R12.fq") []
                         true false true = Ret p0 /\
     pair_reads 0 (2 + 3) p0
     = Ret (Some (mkReadPair (record_of true false rec_a1)
                             (record_of true false rec_a2))
            :: Some (mkReadPair (record_of true false rec_b1)
                                (record_of true false rec_b2))
            :: repeat None 3, p_end)).
Proof.
  intro src. split; [|split; [|split]].
  - do 2 eexists.
    apply (proj1 C9_pairs_in_lock_step 0%nat 1%nat src src).
    + vm_compute. reflexivity.
    + vm_compute. reflexivity.
  - eexists.
    apply (proj1 (proj2 C9_pairs_in_lock_step) 0%nat 1%nat src None).
    vm_compute. reflexivity.
  - apply (proj1 (proj2 (proj2 (proj2 C9_pairs_in_lock_step)))
             two_files (s2b "R1.fq") (s2b "R2.fq") true false
             rec_a1 rec_b1 rec_c1 rec_a2 rec_b2 0%nat 3%nat).
    + reflexivity.
    + reflexivity.
    + reflexivity.
    + reflexivity.
    + reflexivity.
    + vm_compute. discriminate.
    + vm_compute. discriminate.
  - apply (proj2 (proj2 (proj2 (proj2 C9_pairs_in_lock_step)))
             one_interleaved_file (s2b "R12.fq") [] true false
             rec_a1 rec_a2 rec_b1 rec_b2 0%nat 3%nat).
    + reflexivity.
    + reflexivity.
    + reflexivity.
    + vm_compute. discriminate.
Defined.

(** ** C10: the last character of an empty line *)

(** C10 does not hold of the code: when a line is empty, [getLine] asks
    for the last character of an empty string.  On the one-byte input
    "\n" the first [getLine] does; on [blank_between] the second [read]
    does, at the blank line, after the first has returned record 1. *)
Theorem C10_back_of_empty_line :
  (exists r0,
     FastqReader_new (one_file [LF]) (s2b "in.fq") true false = Ret r0 /\
     getLine r0 = Fault BackOfEmpty)
  /\
  (forall fuel, exists r0 r1,
     FastqReader_new (one_file blank_between) (s2b "in.fq") true false
     = Ret r0 /\
     read fuel r0 =
     Ret (Some (mkRead (s2b "@r1") (s2b "ACGT") (s2b "+") (s2b "IIII") false),
          r1) /\
     partial (ctx r1) = [] /\
     read fuel r1 = Fault BackOfEmpty).
Proof.
  split.
  - eexists. split; [vm_compute; reflexivity|vm_compute; reflexivity].
  - intros [|fuel]; do 2 eexists;
      (split; [vm_compute; reflexivity|]);
      (split; [vm_compute; reflexivity|]);
      (split; [reflexivity|vm_compute; reflexivity]).
Qed.

(** * More of the reader *)

(** ** The readers of the instances *)

(** The readers of the instances are those the constructor returns. *)
Lemma cut_reader_opened :
  FastqReader_new (one_file one_record_cut) (s2b "in.fq") true false
  = Ret cut_reader.
Proof. vm_compute. reflexivity. Qed.

Lemma cr_reader_opened :
  FastqReader_new (one_file cr_then_record) (s2b "in.fq") true false
  = Ret cr_reader.
Proof. vm_compute. reflexivity. Qed.

Lemma junk_reader_opened :
  FastqReader_new (one_file junk_then_record) (s2b "in.fq") true false
  = Ret junk_reader.
Proof. vm_compute. reflexivity. Qed.

(** ** The scanner, function by function *)

(** [next] on a chunk, from a cursor inside it: the line returned and the
    cursor after. *)
Lemma next_cut :
  forall buf c line complete c',
  0 <= start c <= len c -> end_ c = start c ->
  len c = Z.of_nat (length buf) ->
  next buf c = (line, complete, c') ->
  ~ In LF line /\ partial c' = partial c /\ len c' = len c /\
  if complete
  then skipn (Z.to_nat (start c)) buf
       = line ++ LF :: skipn (Z.to_nat (start c')) buf /\
       start c' = start c + Z.of_nat (length line) + 1 /\
       end_ c' = start c' /\ start c' <= len c
  else skipn (Z.to_nat (start c)) buf = line /\
       start c' = start c /\ end_ c' = len c.
Proof.
  intros buf c line complete c' Hs He Hl H.
  set (pre := firstn (Z.to_nat (start c)) buf).
  set (cur := skipn (Z.to_nat (start c)) buf).
  assert (Hb : buf = pre ++ cur) by (symmetry; apply firstn_skipn).
  assert (Hp : Z.of_nat (length pre) = start c).
  { unfold pre. rewrite length_firstn. lia. }
  assert (Hc : c = mkCtx (Z.of_nat (length buf)) (Z.of_nat (length pre))
                         (Z.of_nat (length pre)) (partial c)).
  { rewrite Hp, <- Hl. rewrite (ctx_eta c) at 1. rewrite He. reflexivity. }
  destruct (split_LF cur) as [Hn|(a & b & Hcur & Ha)].
  - pose proof (next_tail pre cur (partial c) Hn) as Hnx. cbv zeta in Hnx.
    rewrite <- Hb, <- Hc, H in Hnx. inversion Hnx; subst line complete c'.
    cbn [partial len start end_]. repeat split; auto; lia.
  - pose proof (next_line pre a b (partial c) Ha) as Hnx. cbv zeta in Hnx.
    rewrite <- Hcur, <- Hb, <- Hc, H in Hnx.
    inversion Hnx; subst line complete c'.
    cbn [partial len start end_]. rewrite Nat2Z.id.
    split; [exact Ha|]. split; [reflexivity|]. split; [auto|].
    split; [|split; [|split]].
    + fold cur. rewrite Hcur. f_equal. f_equal.
      rewrite Hb at 1. rewrite Hcur.
      replace (pre ++ a ++ LF :: b) with ((pre ++ a ++ [LF]) ++ b)
        by (rewrite <- !app_assoc; reflexivity).
      rewrite skipn_app, skipn_all, Nat.sub_diag. reflexivity.
    + rewrite !length_app. cbn [length]. lia.
    + reflexivity.
    + rewrite Hl, Hb, Hcur, !length_app. cbn [length]. lia.
Qed.

(** X1: [scan_buf] and [next] cut the chunk at the first line feed.  From
    a cursor inside the chunk, [scan_buf] moves [ctx.end] to the first
    line feed at or after it, or to the end of the chunk, and answers
    whether it reached the end; [next] returns the bytes in between,
    which hold no line feed.  When a line feed was found the bytes from
    the cursor on are that line, the line feed and the bytes from the new
    cursor on; when none was found they are that line, the cursor stays
    and [ctx.end] is the end of the chunk. *)
Theorem next_splits_chunk :
  forall buf c line complete c',
  0 <= start c <= len c -> end_ c = start c ->
  len c = Z.of_nat (length buf) ->
  next buf c = (line, complete, c') ->
  scan_buf buf c
  = (mkCtx (len c) (start c) (start c + Z.of_nat (length line)) (partial c),
     negb complete) /\
  ~ In LF line /\ partial c' = partial c /\ len c' = len c /\
  if complete
  then skipn (Z.to_nat (start c)) buf
       = line ++ LF :: skipn (Z.to_nat (start c')) buf /\
       start c' = start c + Z.of_nat (length line) + 1 /\
       end_ c' = start c' /\ start c' <= len c
  else skipn (Z.to_nat (start c)) buf = line /\
       start c' = start c /\ end_ c' = len c.
Proof.
  intros buf c line complete c' Hs He Hl H.
  pose proof (next_cut buf c line complete c' Hs He Hl H) as Hc.
  split; [|exact Hc].
  destruct Hc as (_ & _ & _ & Hx).
  unfold next in H. destruct (scan_buf buf c) as [c1 r] eqn:Hsb.
  assert (Hc1 : c1 = mkCtx (len c) (start c) (end_ c1) (partial c)).
  { unfold scan_buf in Hsb. inversion Hsb; subst. reflexivity. }
  destruct r; injection H as _ E2 E3; subst complete c'.
  - destruct Hx as (Hline & _ & He1). cbn [negb].
    rewrite Hc1 at 1. do 2 f_equal.
    rewrite He1, <- Hline, length_skipn. lia.
  - destruct Hx as (_ & Hs1 & _). cbn [start] in Hs1. cbn [negb].
    rewrite Hc1 at 1. do 2 f_equal. lia.
Qed.

(** An instance of X1. *)
Lemma next_splits_chunk_witness :
  scan_buf (s2b "ab" ++ LF :: s2b "cd") (mkCtx 5 0 0 [])
  = (mkCtx 5 0 (0 + Z.of_nat (length (s2b "ab"))) [], negb true) /\
  ~ In LF (s2b "ab") /\
  partial (mkCtx 5 3 3 []) = [] /\ len (mkCtx 5 3 3 []) = 5 /\
  (skipn (Z.to_nat 0) (s2b "ab" ++ LF :: s2b "cd")
   = s2b "ab" ++ LF :: skipn (Z.to_nat 3) (s2b "ab" ++ LF :: s2b "cd") /\
   start (mkCtx 5 3 3 []) = 0 + Z.of_nat (length (s2b "ab")) + 1 /\
   end_ (mkCtx 5 3 3 []) = start (mkCtx 5 3 3 []) /\
   start (mkCtx 5 3 3 []) <= 5).
Proof.
  apply (next_splits_chunk (s2b "ab" ++ LF :: s2b "cd") (mkCtx 5 0 0 [])
           (s2b "ab") true (mkCtx 5 3 3 [])).
  - cbn. lia.
  - reflexivity.
  - reflexivity.
  - reflexivity.
Defined.

(** The line [next] cuts out holds no line feed, wherever the cursor is. *)
Lemma next_no_LF :
  forall buf c line b cx,
  end_ c = start c -> next buf c = (line, b, cx) ->
  ~ In LF line /\ (b = true -> end_ cx = start cx).
Proof.
  intros buf c line b cx He H. unfold next, scan_buf in H. rewrite He in H.
  cbn [start end_ len partial] in H.
  set (L := skipn (Z.to_nat (start c)) buf) in *.
  assert (Hw : forall e, window buf (start c) e
                         = firstn (Z.to_nat (e - start c)) L)
    by reflexivity.
  rewrite !Hw in H.
  set (W := firstn (Z.to_nat (len c - start c)) L) in *.
  assert (Hline : ~ In LF (firstn (Z.to_nat (scan_from W (start c)
                                              - start c)) L)).
  { destruct (split_LF W) as [Hn|(a & t & HW & Ha)].
    - rewrite scan_from_end by exact Hn.
      replace (Z.to_nat (start c + Z.of_nat (length W) - start c))
        with (length W) by lia.
      intro Hin. apply Hn. unfold W in *.
      rewrite length_firstn in Hin.
      destruct (Nat.le_ge_cases (Z.to_nat (len c - start c)) (length L))
        as [Hle|Hge].
      + rewrite Nat.min_l in Hin by exact Hle. exact Hin.
      + rewrite Nat.min_r in Hin by exact Hge.
        rewrite firstn_all in Hin. rewrite firstn_all2 by exact Hge.
        exact Hin.
    - rewrite HW, scan_from_stop by exact Ha.
      replace (Z.to_nat (start c + Z.of_nat (length a) - start c))
        with (length a) by lia.
      assert (HL : L = (a ++ LF :: t)
                       ++ skipn (Z.to_nat (len c - start c)) L).
      { rewrite <- HW. unfold W. symmetry. apply firstn_skipn. }
      rewrite HL, <- app_assoc, firstn_app, firstn_all, Nat.sub_diag.
      cbn [firstn]. rewrite app_nil_r. exact Ha. }
  destruct (scan_from W (start c) =? len c);
    inversion H; subst; clear H; (split; [exact Hline|]).
  - discriminate.
  - reflexivity.
Qed.

Lemma In_pop_back :
  forall (x : ascii) l, In x (pop_back l) -> In x l.
Proof.
  intros x l H. unfold pop_back in H.
  destruct l as [|a l] using rev_ind; [exact H|].
  rewrite removelast_last in H. apply in_or_app. left. exact H.
Qed.

(** No line feed enters what is accumulated, nor a line returned. *)
Lemma getLine_loop_no_LF :
  forall n r l r',
  (state r = INITIAL -> end_ (ctx r) = start (ctx r)) ->
  ~ In LF (partial (ctx r)) ->
  getLine_loop n r = Ret (l, r') ->
  ~ In LF l /\
  (state r' = INITIAL -> end_ (ctx r') = start (ctx r')) /\
  ~ In LF (partial (ctx r')).
Proof.
  induction n as [|n IH]; intros r l r' He Hp H; simpl in H.
  - destruct (state r) eqn:Hst; inversion H; subst.
    split; [intros []|]. split; [congruence|exact Hp].
  - destruct (state r) eqn:Hst.
    + destruct (next (mBuf r) (ctx r)) as [[result c] cx] eqn:Hn.
      destruct (next_no_LF _ _ _ _ _ (He eq_refl) Hn) as [Hr Hc].
      destruct (next_keeps _ _ _ _ _ Hn) as [Hpk _].
      assert (Hacc : ~ In LF (partial cx ++ result)).
      { rewrite Hpk. intro Hin. apply in_app_or in Hin.
        destruct Hin; contradiction. }
      destruct c.
      * destruct (back _) as [ch|]; inversion H; subst; clear H.
        split; [|split].
        -- destruct (Ascii.eqb ch CR); [|exact Hacc].
           intro Hin. apply Hacc. apply In_pop_back. exact Hin.
        -- intros _. exact (Hc eq_refl).
        -- intros [].
      * apply IH in H; [exact H|discriminate|exact Hacc].
    + destruct (_ || _ || _).
      * apply IH in H; [exact H|discriminate|exact Hp].
      * split_bind H r1 Hr.
        destruct (readToBuf_Ret r r1 Hr)
          as (s & d & s' & _ & _ & _ & _ & _ & _ & _ & _ & Hctx & _).
        apply IH in H; [exact H| |].
        -- intros _. change (ctx (set_state INITIAL r1)) with (ctx r1).
           rewrite Hctx. reflexivity.
        -- change (ctx (set_state INITIAL r1)) with (ctx r1).
           rewrite Hctx. exact Hp.
    + inversion H; subst. split; [intros []|].
      split; [congruence|exact Hp].
Qed.

(** X2: [getLine] always comes back.  Its loop ends within
    [2 * u + 3] rounds, where [u] is the number of bytes the source still
    holds: with that many rounds or more the result is the same, and it
    is a line, a fault or the end of the process, never a loop cut short. *)
Theorem getLine_loop_ends :
  forall r k,
  getLine_loop (2 * left_to_read r + 3 + k) r = getLine r /\
  getLine r <> Spin.
Proof.
  intros r k. split; [|apply getLine_total].
  apply getLine_fuel. unfold rounds. destruct (state r); lia.
Qed.

(** X3: a line [getLine] returns holds no line feed.  This holds from any
    reader whose scan starts where its line starts and that has
    accumulated no line feed, and the reader returned is such a reader
    again. *)
Theorem getLine_returns_no_line_feed :
  forall r l r',
  (state r = INITIAL -> end_ (ctx r) = start (ctx r)) ->
  ~ In LF (partial (ctx r)) ->
  getLine r = Ret (l, r') ->
  ~ In LF l /\
  (state r' = INITIAL -> end_ (ctx r') = start (ctx r')) /\
  ~ In LF (partial (ctx r')).
Proof. intros r l r'. apply getLine_loop_no_LF. Qed.

(** An instance of X3. *)
Lemma getLine_returns_no_line_feed_witness :
  ~ In LF (s2b "@r1") /\
  (state (set_ctx (mkCtx 31 4 4 []) short_quality_reader) = INITIAL ->
   end_ (ctx (set_ctx (mkCtx 31 4 4 []) short_quality_reader))
   = start (ctx (set_ctx (mkCtx 31 4 4 []) short_quality_reader))) /\
  ~ In LF (partial (ctx (set_ctx (mkCtx 31 4 4 []) short_quality_reader))).
Proof.
  apply (getLine_returns_no_line_feed short_quality_reader).
  - reflexivity.
  - intros [].
  - vm_compute. reflexivity.
Defined.

(** X4: the end of the input is final.  Once the scanner is in its
    terminal state, [getLine] answers the empty line, every call of
    [read] answers null, and the reader is left as it is: nothing is
    read from the source. *)
Theorem end_of_input_is_final :
  forall r, state r = DONE ->
  getLine r = Ret ([], r) /\
  forall fuel n, reads fuel n r = Ret (repeat None n, r).
Proof.
  intros r H. split; [apply getLine_DONE; exact H|].
  intros fuel n. apply reads_DONE. exact H.
Qed.

(** An instance of X4. *)
Lemma end_of_input_is_final_witness :
  getLine cut_reader_done = Ret ([], cut_reader_done) /\
  forall fuel n, reads fuel n cut_reader_done
                 = Ret (repeat None n, cut_reader_done).
Proof. apply (end_of_input_is_final cut_reader_done). reflexivity. Defined.

(** ** What a reader keeps *)

Lemma readToBuf_config :
  forall r r', readToBuf r = Ret r' ->
  config r' = config r /\ mStdinMode r' = mStdinMode r.
Proof.
  intros r r' H. unfold readToBuf, pull in H.
  destruct (mZipped r) eqn:Hz.
  - destruct (mZipFile r) as [s|].
    + destruct (stream_read FQ_BUF_SIZE s) as [d s'].
      cbn [bind] in H. split_bind H b Hc.
      inversion H; subst; clear H. unfold config. cbn. rewrite Hz. auto.
    + cbn [bind] in H. split_bind H b Hc.
      inversion H; subst; clear H. unfold config. cbn. rewrite Hz. auto.
  - destruct (mFile r) as [s|]; [|discriminate].
    destruct (stream_read FQ_BUF_SIZE s) as [d s'].
    cbn [bind] in H. split_bind H b Hc.
    inversion H; subst; clear H. unfold config. cbn. rewrite Hz. auto.
Qed.

(** What a refill that returns leaves, on a reader whose flag is down and
    whose source has not signalled its end. *)
Lemma readToBuf_sound :
  forall r r' s,
  readToBuf r = Ret r' -> state r <> DONE ->
  handle r = Some s -> eof_flag s = false ->
  mHasNoLineBreakAtEnd r = false -> mStdinMode r = false ->
  sound r' /\ state r' = state r /\
  partial (ctx r') = partial (ctx r) /\
  start (ctx r') = 0 /\ end_ (ctx r') = 0.
Proof.
  intros r r' s H Hnd Hh He Hf Hsm.
  destruct (readToBuf_config r r' H) as [_ Hsm'].
  destruct (readToBuf_flag r r' H) as (Hpos & c & Hc & Hfl).
  destruct (readToBuf_Ret r r' H)
    as (s0 & d & s' & Hh0 & Hs & Hd & Hh' & Hz & Hbuf & Hdl & Hul & Hctx
        & Hst & _).
  rewrite Hh in Hh0. inversion Hh0; subst s0; clear Hh0.
  unfold stream_read in Hs. apply pair_equal_spec in Hs.
  destruct Hs as [Ed Es].
  pose proof FQ_BUF_SIZE_pos as HC.
  assert (Hlen : Z.of_nat (length d)
                 = Z.min FQ_BUF_SIZE (Z.of_nat (length (unread s)))).
  { rewrite <- Ed, length_firstn. lia. }
  split; [|rewrite Hctx; auto].
  split.
  - exact Hul.
  - rewrite Hdl. lia.
  - rewrite Hctx, Hdl. reflexivity.
  - rewrite Hbuf, Hdl. reflexivity.
  - rewrite Hctx. cbn [start end_ len]. lia.
  - rewrite Hctx. reflexivity.
  - intro Hdn. rewrite Hst in Hdn. contradiction.
  - unfold flag_ok. rewrite Hc, Hfl, Hf. reflexivity.
  - congruence.
  - exists s'. split; [exact Hh'|]. rewrite Hctx. cbn [len].
    rewrite <- Es. cbn [unread eof_flag]. rewrite He. cbn [orb]. split.
    + intro Hlt. apply skipn_all2. lia.
    + intro Ht. apply Z.ltb_lt in Ht. lia.
Qed.

Lemma sound_flag_down :
  forall r, sound r -> (len (ctx r) <? FQ_BUF_SIZE) = false ->
  mHasNoLineBreakAtEnd r = false.
Proof.
  intros r H Hl. rewrite (so_flag r H), <- (so_len r H), Hl. reflexivity.
Qed.

(** A change of the cursor, of what is accumulated and of the state. *)
Lemma sound_move :
  forall r cx st,
  sound r -> len cx = len (ctx r) ->
  0 <= start cx <= end_ cx -> end_ cx <= len cx ->
  (st = INITIAL -> end_ cx = start cx) ->
  (st = DONE -> len cx < FQ_BUF_SIZE) ->
  sound (set_state st (set_ctx cx r)).
Proof.
  intros r cx st [] Hl Hc1 Hc2 Hsc Hdn.
  split; cbn [set_state set_ctx mBufUsedLen mBufDataLen ctx mBuf state
              mStdinMode]; auto; try congruence.
  - rewrite Hl. exact so_source0.
Qed.

Lemma getLine_loop_sound :
  forall n r l r',
  sound r -> getLine_loop n r = Ret (l, r') ->
  sound r' /\ between r' /\ config r' = config r.
Proof.
  induction n as [|n IH]; intros r l r' Hs H; simpl in H.
  - destruct (state r) eqn:Hst; inversion H; subst.
    split; [exact Hs|]. split; [right; exact Hst|reflexivity].
  - destruct (state r) eqn:Hst.
    + destruct (next (mBuf r) (ctx r)) as [[result c] cx] eqn:Hn.
      pose proof (so_cursor r Hs) as Hcur. pose proof (so_scan r Hs Hst) as Hee.
      assert (Hb : len (ctx r) = Z.of_nat (length (mBuf r))).
      { rewrite (so_len r Hs), (so_buf r Hs). reflexivity. }
      destruct (next_cut (mBuf r) (ctx r) result c cx) as (_ & Hp & Hl & Hx);
        [lia|exact Hee|exact Hb|exact Hn|].
      destruct c.
      * destruct Hx as (_ & Hs1 & He1 & Hle).
        destruct (back _); inversion H; subst; clear H.
        assert (Hm : sound (set_state INITIAL
                              (set_ctx (set_partial [] cx) r))).
        { apply sound_move; cbn [set_partial len start end_]; auto;
            try lia; discriminate. }
        split; [|split; [left; split; [exact Hst|reflexivity]|reflexivity]].
        replace (set_ctx (set_partial [] cx) r)
          with (set_state INITIAL (set_ctx (set_partial [] cx) r));
          [exact Hm|].
        rewrite <- Hst. destruct r; reflexivity.
      * destruct Hx as (_ & Hs1 & He1).
        apply IH in H; [exact H|].
        apply sound_move; cbn [set_partial len start end_]; auto; try lia;
          discriminate.
    + destruct ((len (ctx r) <? FQ_BUF_SIZE) || (len (ctx r) =? 0) || eof r)
        eqn:Hc.
      * apply IH in H; [exact H|].
        replace (set_state DONE r) with (set_state DONE (set_ctx (ctx r) r))
          by (destruct r; reflexivity).
        pose proof (so_cursor r Hs). pose proof (so_data r Hs) as Hd.
        pose proof (so_len r Hs) as Hl.
        apply sound_move; auto; try lia; [discriminate|]. intros _.
        destruct (len (ctx r) <? FQ_BUF_SIZE) eqn:E1; [lia|].
        destruct (len (ctx r) =? 0) eqn:E2; [lia|]. cbn [orb] in Hc.
        destruct (so_source r Hs) as (s & Hh & _ & He).
        apply He. unfold eof in Hc. unfold handle in Hh.
        rewrite Hh in Hc. exact Hc.
      * apply orb_false_iff in Hc. destruct Hc as [Hc He].
        apply orb_false_iff in Hc. destruct Hc as [Hlt _].
        split_bind H r1 Hr.
        destruct (so_source r Hs) as (s & Hh & _ & _).
        assert (Hes : eof_flag s = false).
        { unfold eof in He. unfold handle in Hh. rewrite Hh in He. exact He. }
        assert (Hnd : state r <> DONE) by (rewrite Hst; discriminate).
        destruct (readToBuf_sound r r1 s Hr Hnd Hh Hes
                    (sound_flag_down r Hs Hlt) (so_stdin r Hs))
          as (Hs1 & Hst1 & Hp1 & Hs0 & He0).
        destruct (readToBuf_config r r1 Hr) as [Hcf _].
        apply IH in H.
        -- destruct H as (Ha & Hb & Hc). split; [exact Ha|].
           split; [exact Hb|]. rewrite Hc. exact Hcf.
        -- replace (set_state INITIAL r1)
             with (set_state INITIAL (set_ctx (ctx r1) r1))
             by (destruct r1; reflexivity).
           pose proof (so_cursor r1 Hs1).
           apply sound_move; auto; try lia; discriminate.
    + inversion H; subst.
      split; [exact Hs|]. split; [right; exact Hst|reflexivity].
Qed.

Lemma getLine_sound :
  forall r l r',
  sound r -> getLine r = Ret (l, r') ->
  sound r' /\ between r' /\ config r' = config r.
Proof. intros r l r'. apply getLine_loop_sound. Qed.

(** The reader the constructor returns is sound, between two calls, and
    has the settings asked for. *)
Lemma new_sound :
  forall w path hasQuality phred64 r,
  FastqReader_new w path hasQuality phred64 = Ret r ->
  sound r /\ between r /\
  config r = (path, ends_with path (s2b ".gz"), hasQuality, phred64).
Proof.
  intros w path hq p64 r H. rewrite new_cases in H.
  destruct (source_of w path) as [d|].
  - assert (Hnd : state (opened path hq p64 d) <> DONE) by discriminate.
    destruct (readToBuf_sound _ r _ H Hnd (opened_handle path hq p64 d)
                eq_refl eq_refl eq_refl) as (Hs & Hst' & Hp' & _).
    split; [exact Hs|]. split; [left; split; [exact Hst'|exact Hp']|].
    apply (readToBuf_config _ r H).
  - destruct (ends_with path (s2b ".gz")); discriminate.
Qed.

(** What every [getLine] keeps, [read] keeps, and so does any number of
    calls of [read]. *)
Lemma read_keeps :
  forall P : FastqReader -> Prop,
  (forall r l r', P r -> getLine r = Ret (l, r') -> P r') ->
  forall fuel r x r', P r -> read fuel r = Ret (x, r') -> P r'.
Proof.
  intros P G fuel r x r' Hp H.
  assert (S : forall n name a name' b,
             P a -> skip_loop n name a = Ret (name', b) -> P b).
  { induction n as [|n IH]; intros name a name' b Ha Hs; simpl in Hs.
    - destruct (not_a_name name a); inversion Hs; subst; exact Ha.
    - destruct (not_a_name name a); [|inversion Hs; subst; exact Ha].
      split_bind Hs y Hy. destruct y as [l a1].
      exact (IH _ _ _ _ (G _ _ _ Ha Hy) Hs). }
  unfold read in H.
  destruct (_ && _); [inversion H; subst; exact Hp|].
  destruct (used_up r); [inversion H; subst; exact Hp|].
  split_bind H y1 H1. destruct y1 as [name r1].
  pose proof (G _ _ _ Hp H1) as P1.
  destruct (empty name); [inversion H; subst; exact P1|].
  split_bind H y2 H2. destruct y2 as [name' r2].
  pose proof (S _ _ _ _ _ P1 H2) as P2.
  destruct (empty name'); [inversion H; subst; exact P2|].
  split_bind H y3 H3. destruct y3 as [sq r3].
  split_bind H y4 H4. destruct y4 as [sd r4].
  pose proof (G _ _ _ (G _ _ _ P2 H3) H4) as P4.
  destruct (negb (mHasQuality r4)); [inversion H; subst; exact P4|].
  split_bind H y5 H5. destruct y5 as [ql r5].
  pose proof (G _ _ _ P4 H5) as P5.
  destruct (negb _); inversion H; subst; exact P5.
Qed.

Lemma reads_keeps :
  forall P : FastqReader -> Prop,
  (forall r l r', P r -> getLine r = Ret (l, r') -> P r') ->
  forall fuel n r xs r', P r -> reads fuel n r = Ret (xs, r') -> P r'.
Proof.
  intros P G fuel n. induction n as [|n IH]; intros r xs r' Hp H; simpl in H.
  - inversion H; subst; exact Hp.
  - split_bind H y Hy. destruct y as [x r1].
    split_bind H z Hz. destruct z as [ys r2].
    inversion H; subst; clear H.
    exact (IH _ _ _ (read_keeps P G _ _ _ _ Hp Hy) Hz).
Qed.

(** [getLine] keeps the bytes of the input in the buffer and the source. *)
Lemma getLine_loop_feeds :
  forall data n r l r',
  feeds data r -> getLine_loop n r = Ret (l, r') -> feeds data r'.
Proof.
  intros data. induction n as [|n IH]; intros r l r' Hf H; simpl in H.
  - destruct (state r); inversion H; subst; exact Hf.
  - destruct (state r).
    + destruct (next (mBuf r) (ctx r)) as [[result c] cx].
      destruct c.
      * destruct (back _); inversion H; subst. exact Hf.
      * apply IH in H; [exact H|exact Hf].
    + destruct (_ || _ || _).
      * apply IH in H; [exact H|exact Hf].
      * split_bind H r1 Hr.
        apply IH in H; [exact H|].
        destruct (readToBuf_Ret r r1 Hr)
          as (s & d & s' & Hh & Hs & _ & Hh' & _ & Hb & _).
        unfold stream_read in Hs. apply pair_equal_spec in Hs.
        destruct Hs as [Ed Es].
        destruct Hf as [pre Hpre]. exists (pre ++ mBuf r).
        unfold unread_of in *.
        change (handle (set_state INITIAL r1)) with (handle r1).
        change (mBuf (set_state INITIAL r1)) with (mBuf r1).
        rewrite Hh in Hpre. rewrite Hh', Hb, <- Ed, <- Es. cbn [unread].
        rewrite firstn_skipn, <- app_assoc. exact Hpre.
    + inversion H; subst; exact Hf.
Qed.

(** What holds of the reader the constructor returned after any number
    of calls of [read]. *)
Lemma reads_sound :
  forall w path hasQuality phred64 fuel n r0 xs r,
  FastqReader_new w path hasQuality phred64 = Ret r0 ->
  reads fuel n r0 = Ret (xs, r) ->
  sound r /\ between r /\
  config r = (path, ends_with path (s2b ".gz"), hasQuality, phred64) /\
  exists data, source_of w path = Some data /\ feeds data r.
Proof.
  intros w path hq p64 fuel n r0 xs r Hnew Hreads.
  destruct (new_sound _ _ _ _ _ Hnew) as (Hs & Hb & Hc).
  assert (Hf : exists data, source_of w path = Some data /\ feeds data r0).
  { rewrite new_cases in Hnew.
    destruct (source_of w path) as [d|];
      [|destruct (ends_with path (s2b ".gz")); discriminate].
    exists d. split; [reflexivity|].
    destruct (readToBuf_Ret _ r0 Hnew)
      as (s & d' & s' & Hh & Hst & _ & Hh' & _ & Hbuf & _).
    rewrite opened_handle in Hh. inversion Hh; subst s; clear Hh.
    unfold stream_read in Hst. apply pair_equal_spec in Hst.
    destruct Hst as [Ed Es]. exists [].
    unfold unread_of. rewrite Hh', Hbuf, <- Ed, <- Es. cbn [unread].
    rewrite app_nil_l. symmetry. apply firstn_skipn. }
  destruct Hf as (data & Hsrc & Hf).
  pose (P := fun a => (sound a /\ between a /\
                       config a = (path, ends_with path (s2b ".gz"), hq, p64))
                      /\ feeds data a).
  assert (G : forall a l b, P a -> getLine a = Ret (l, b) -> P b).
  { intros a l b [(Hs1 & Hb1 & Hc1) Hf1] Hg. split.
    - destruct (getLine_sound a l b Hs1 Hg) as (Hs2 & Hb2 & Hc2).
      split; [exact Hs2|]. split; [exact Hb2|]. congruence.
    - exact (getLine_loop_feeds data _ a l b Hf1 Hg). }
  destruct (reads_keeps P G fuel n r0 xs r) as [(Ha & Hb' & Hc') Hf'];
    [split; [split; [exact Hs|split; [exact Hb|exact Hc]]|exact Hf]
    |exact Hreads|].
  split; [exact Ha|]. split; [exact Hb'|]. split; [exact Hc'|].
  exists data. split; assumption.
Qed.

Lemma buf_at_last :
  forall l, l <> [] ->
  buf_at l (Z.of_nat (length l) - 1) = Some (last l LF).
Proof.
  intros l Hl. destruct l as [|x l] using rev_ind; [contradiction|].
  rewrite last_last, length_app. cbn [length]. unfold buf_at.
  destruct (Z.ltb_spec (Z.of_nat (length l + 1) - 1) 0) as [E|E]; [lia|].
  replace (Z.to_nat (Z.of_nat (length l + 1) - 1)) with (length l) by lia.
  rewrite nth_error_app2, Nat.sub_diag by lia. reflexivity.
Qed.

Lemma last_app_right :
  forall (a b : bytes) d, b <> [] -> last (a ++ b) d = last b d.
Proof.
  intros a b d Hb. destruct b as [|x b] using rev_ind; [contradiction|].
  rewrite app_assoc, !last_last. reflexivity.
Qed.

(** X5: the settings of a reader never change.  After any number of calls
    of [read], the reader the constructor returned for [path] still has
    that file name, is zipped exactly when the name ends in ".gz", has the
    quality and encoding settings it was given, and [mStdinMode] is false,
    for "/dev/stdin" too: no statement of the reader sets it. *)
Theorem settings_never_change :
  forall w path hasQuality phred64 fuel n r0 xs r,
  FastqReader_new w path hasQuality phred64 = Ret r0 ->
  reads fuel n r0 = Ret (xs, r) ->
  mFilename r = path /\ isZipped r = ends_with path (s2b ".gz") /\
  mHasQuality r = hasQuality /\ mPhred64 r = phred64 /\
  mStdinMode r = false.
Proof.
  intros w path hq p64 fuel n r0 xs r Hnew Hreads.
  destruct (reads_sound _ _ _ _ _ _ _ _ _ Hnew Hreads) as (Hs & _ & Hc & _).
  unfold config in Hc. injection Hc as E1 E2 E3 E4.
  split; [exact E1|]. split; [exact E2|]. split; [exact E3|].
  split; [exact E4|exact (so_stdin r Hs)].
Qed.

(** An instance of X5. *)
Lemma settings_never_change_witness :
  mFilename after_first_record = s2b "in.fq" /\
  isZipped after_first_record = ends_with (s2b "in.fq") (s2b ".gz") /\
  mHasQuality after_first_record = true /\
  mPhred64 after_first_record = false /\
  mStdinMode after_first_record = false.
Proof.
  apply (settings_never_change (one_file two_records) (s2b "in.fq")
           true false 0%nat 1%nat
           (two_records_reader (s2b "in.fq") false false)
           [Some (rec4 "@r1" "ACGT" "IIII")] after_first_record).
  - vm_compute. reflexivity.
  - vm_compute. reflexivity.
Defined.

(** X6: [mBufUsedLen] is never advanced, so the test of [read] for a
    used-up buffer at the end of the file never holds; and of the three
    tests that end the scanning of a chunk, the first decides alone: a
    chunk is never empty, and the source signals its end only together
    with a short chunk. *)
Theorem used_length_stays_zero :
  forall w path hasQuality phred64 fuel n r0 xs r,
  FastqReader_new w path hasQuality phred64 = Ret r0 ->
  reads fuel n r0 = Ret (xs, r) ->
  mBufUsedLen r = 0 /\ 0 < mBufDataLen r <= FQ_BUF_SIZE /\
  used_up r = false /\
  (len (ctx r) <? FQ_BUF_SIZE) || (len (ctx r) =? 0) || eof r
  = (len (ctx r) <? FQ_BUF_SIZE).
Proof.
  intros w path hq p64 fuel n r0 xs r Hnew Hreads.
  destruct (reads_sound _ _ _ _ _ _ _ _ _ Hnew Hreads) as (Hs & _).
  pose proof (so_data r Hs) as Hd. pose proof (so_len r Hs) as Hl.
  split; [exact (so_used r Hs)|]. split; [exact Hd|]. split.
  - unfold used_up. rewrite (so_used r Hs).
    destruct (mBufDataLen r <=? 0) eqn:E; [lia|reflexivity].
  - destruct (len (ctx r) <? FQ_BUF_SIZE) eqn:E1; [reflexivity|].
    destruct (len (ctx r) =? 0) eqn:E2; [lia|]. cbn [orb].
    destruct (so_source r Hs) as (s & Hh & _ & He).
    unfold eof. unfold handle in Hh. rewrite Hh.
    destruct (eof_flag s); [|reflexivity]. specialize (He eq_refl). lia.
Qed.

(** An instance of X6. *)
Lemma used_length_stays_zero_witness :
  mBufUsedLen after_first_record = 0 /\
  0 < mBufDataLen after_first_record <= FQ_BUF_SIZE /\
  used_up after_first_record = false /\
  (len (ctx after_first_record) <? FQ_BUF_SIZE)
  || (len (ctx after_first_record) =? 0) || eof after_first_record
  = (len (ctx after_first_record) <? FQ_BUF_SIZE).
Proof.
  apply (used_length_stays_zero (one_file two_records) (s2b "in.fq")
           true false 0%nat 1%nat
           (two_records_reader (s2b "in.fq") false false)
           [Some (rec4 "@r1" "ACGT" "IIII")] after_first_record).
  - vm_compute. reflexivity.
  - vm_compute. reflexivity.
Defined.

(** X7: the cursor of the scanner stays inside the chunk.  Between two
    calls of [read] the chunk in the buffer has [ctx.len] bytes, at most
    the capacity, and [0 <= ctx.start <= ctx.end <= ctx.len]; the scanner
    is either about to scan, with [ctx.end = ctx.start] and nothing
    accumulated, or in its terminal state, which it enters only on a chunk
    shorter than the capacity, with a source that holds no more byte. *)
Theorem cursor_stays_in_chunk :
  forall w path hasQuality phred64 fuel n r0 xs r,
  FastqReader_new w path hasQuality phred64 = Ret r0 ->
  reads fuel n r0 = Ret (xs, r) ->
  len (ctx r) = Z.of_nat (length (mBuf r)) /\
  len (ctx r) <= FQ_BUF_SIZE /\
  0 <= start (ctx r) <= end_ (ctx r) /\ end_ (ctx r) <= len (ctx r) /\
  ((state r = INITIAL /\ end_ (ctx r) = start (ctx r) /\
    partial (ctx r) = [])
   \/ (state r = DONE /\ len (ctx r) < FQ_BUF_SIZE /\ unread_of r = [])).
Proof.
  intros w path hq p64 fuel n r0 xs r Hnew Hreads.
  destruct (reads_sound _ _ _ _ _ _ _ _ _ Hnew Hreads) as (Hs & Hb & _).
  pose proof (so_data r Hs) as Hd. pose proof (so_len r Hs) as Hl.
  pose proof (so_buf r Hs) as Hbuf. destruct (so_cursor r Hs) as [Hc1 Hc2].
  split; [lia|]. split; [lia|]. split; [exact Hc1|]. split; [exact Hc2|].
  destruct Hb as [[Hst Hp]|Hst].
  - left. split; [exact Hst|]. split; [exact (so_scan r Hs Hst)|exact Hp].
  - right. split; [exact Hst|]. pose proof (so_done r Hs Hst) as Hlt.
    split; [exact Hlt|].
    destruct (so_source r Hs) as (s & Hh & Hu & _).
    unfold unread_of. rewrite Hh. exact (Hu Hlt).
Qed.

(** An instance of X7. *)
Lemma cursor_stays_in_chunk_witness :
  len (ctx cut_reader_done) = Z.of_nat (length (mBuf cut_reader_done)) /\
  len (ctx cut_reader_done) <= FQ_BUF_SIZE /\
  0 <= start (ctx cut_reader_done) <= end_ (ctx cut_reader_done) /\
  end_ (ctx cut_reader_done) <= len (ctx cut_reader_done) /\
  ((state cut_reader_done = INITIAL /\
    end_ (ctx cut_reader_done) = start (ctx cut_reader_done) /\
    partial (ctx cut_reader_done) = [])
   \/ (state cut_reader_done = DONE /\
       len (ctx cut_reader_done) < FQ_BUF_SIZE /\
       unread_of cut_reader_done = [])).
Proof.
  apply (cursor_stays_in_chunk (one_file one_record_cut) (s2b "in.fq")
           true false 0%nat 1%nat cut_reader [None] cut_reader_done).
  - vm_compute. reflexivity.
  - vm_compute. reflexivity.
Defined.

(** X8: what [hasNoLineBreakAtEnd] answers.  After any number of calls of
    [read] the flag is raised exactly when the chunk in the buffer is
    shorter than the capacity and its last byte is no line feed; so, once
    the scanner is in its terminal state, it says whether the last byte
    of the whole input is something else than a line feed. *)
Theorem flag_tells_last_byte :
  forall w path hasQuality phred64 fuel n r0 xs r data,
  source_of w path = Some data ->
  FastqReader_new w path hasQuality phred64 = Ret r0 ->
  reads fuel n r0 = Ret (xs, r) ->
  hasNoLineBreakAtEnd r
  = (mBufDataLen r <? FQ_BUF_SIZE) && negb (Ascii.eqb (last (mBuf r) LF) LF)
  /\
  (state r = DONE ->
   hasNoLineBreakAtEnd r = negb (Ascii.eqb (last data LF) LF)).
Proof.
  intros w path hq p64 fuel n r0 xs r data Hsrc Hnew Hreads.
  destruct (reads_sound _ _ _ _ _ _ _ _ _ Hnew Hreads)
    as (Hs & _ & _ & data' & Hsrc' & Hf).
  rewrite Hsrc in Hsrc'. inversion Hsrc'; subst data'; clear Hsrc'.
  pose proof (so_data r Hs) as Hd. pose proof (so_buf r Hs) as Hbuf.
  assert (Hne : mBuf r <> []).
  { intro E. rewrite E in Hbuf. cbn [length Z.of_nat] in Hbuf. lia. }
  assert (Hfl : hasNoLineBreakAtEnd r
                = (mBufDataLen r <? FQ_BUF_SIZE)
                  && negb (Ascii.eqb (last (mBuf r) LF) LF)).
  { unfold hasNoLineBreakAtEnd. rewrite (so_flag r Hs), <- Hbuf.
    rewrite (buf_at_last _ Hne). reflexivity. }
  split; [exact Hfl|].
  intro Hst. rewrite Hfl.
  pose proof (so_done r Hs Hst) as Hlt. pose proof (so_len r Hs) as Hl.
  destruct (mBufDataLen r <? FQ_BUF_SIZE) eqn:E; [|lia]. cbn [andb].
  destruct (so_source r Hs) as (s & Hh & Hu & _).
  destruct Hf as [pre Hpre]. unfold unread_of in Hpre.
  rewrite Hh, (Hu Hlt), app_nil_r in Hpre.
  rewrite Hpre, (last_app_right pre (mBuf r) LF Hne). reflexivity.
Qed.

(** An instance of X8. *)
Lemma flag_tells_last_byte_witness :
  hasNoLineBreakAtEnd cut_reader_done
  = (mBufDataLen cut_reader_done <? FQ_BUF_SIZE)
    && negb (Ascii.eqb (last (mBuf cut_reader_done) LF) LF)
  /\
  (state cut_reader_done = DONE ->
   hasNoLineBreakAtEnd cut_reader_done
   = negb (Ascii.eqb (last one_record_cut LF) LF)).
Proof.
  apply (flag_tells_last_byte (one_file one_record_cut) (s2b "in.fq")
           true false 0%nat 1%nat cut_reader [None] cut_reader_done
           one_record_cut).
  - reflexivity.
  - vm_compute. reflexivity.
  - vm_compute. reflexivity.
Defined.

(** ** The constructor and whole inputs *)

(** The first refill on a source that holds no byte. *)
Lemma readToBuf_opened_empty :
  forall path hq p64,
  readToBuf (opened path hq p64 []) = Fault (BufIndex (-1)).
Proof.
  intros path hq p64. pose proof FQ_BUF_SIZE_pos as HC.
  unfold readToBuf, pull, opened.
  cbn [mZipped mZipFile mFile].
  destruct (ends_with path (s2b ".gz")); unfold stream_read;
    cbn [unread]; rewrite firstn_nil; cbn [length Z.of_nat bind];
    destruct (0 <? FQ_BUF_SIZE) eqn:E; try lia; reflexivity.
Qed.

(** X9: the outcomes of the constructor, by what the path opens on.  A
    path that cannot be opened ends the process with "Failed to open
    file: " and the path, unless it ends in ".gz", where the null handle
    is read from ([mBuf[-2]]); a source without bytes makes the first
    refill read [mBuf[-1]]; every other source gives a reader about to
    scan, with all the bytes of the source pending.  "/dev/stdin" is
    standard input, whatever the file system holds under that name. *)
Theorem constructor_outcomes :
  forall w path hasQuality phred64,
  match source_of w path with
  | None =>
      FastqReader_new w path hasQuality phred64 =
      if ends_with path (s2b ".gz") then Fault (BufIndex (-2))
      else Exit (s2b "Failed to open file: " ++ path)
  | Some [] =>
      FastqReader_new w path hasQuality phred64 = Fault (BufIndex (-1))
  | Some (c :: d) =>
      exists r,
        FastqReader_new w path hasQuality phred64 = Ret r /\
        ready r /\ pending r = c :: d
  end
  /\ source_of w (s2b "/dev/stdin") = Some (stdin_data w).
Proof.
  intros w path hq p64. split; [|reflexivity].
  destruct (source_of w path) as [[|c d]|] eqn:Hsrc.
  - rewrite new_cases, Hsrc. apply readToBuf_opened_empty.
  - destruct (new_ready_source w path hq p64 (c :: d) Hsrc)
      as (r & Hnew & Hr & Hp & _); [discriminate|].
    exists r. split; [exact Hnew|]. split; assumption.
  - rewrite new_cases, Hsrc. reflexivity.
Qed.

(** X10: the records of a whole input.  On an input made of well-formed
    records, whatever its length and wherever the chunks end, the calls
    of [read] return the records in order (null in the place of a record
    whose quality and sequence differ in length).  When the length of the
    input is no multiple of the capacity, every later call returns null
    and leaves the scanner in its terminal state; when it is one, the
    call after the last record asks for a refill that delivers nothing
    and reads [mBuf[-1]]. *)
Theorem reads_whole_input :
  forall w path hasQuality phred64 recs fuel,
  source_of w path = Some (file_of hasQuality recs) ->
  recs <> [] -> forallb (record_ok hasQuality) recs = true ->
  exists r0,
    FastqReader_new w path hasQuality phred64 = Ret r0 /\
    (Z.of_nat (length (file_of hasQuality recs)) mod FQ_BUF_SIZE <> 0 ->
     forall k, exists r_end,
       reads fuel (length recs + S k) r0
       = Ret (map (record_read hasQuality phred64) recs
              ++ repeat None (S k), r_end) /\
       state r_end = DONE) /\
    (Z.of_nat (length (file_of hasQuality recs)) mod FQ_BUF_SIZE = 0 ->
     reads fuel (length recs + 1) r0 = Fault (BufIndex (-1))).
Proof. exact whole_input_reads. Qed.

(** An instance of X10. *)
Lemma reads_whole_input_witness :
  exists r0,
    FastqReader_new (one_file two_records) (s2b "in.fq") true false = Ret r0 /\
    (Z.of_nat (length (file_of true two_recs)) mod FQ_BUF_SIZE <> 0 ->
     forall k, exists r_end,
       reads 0 (length two_recs + S k) r0
       = Ret (map (record_read true false) two_recs ++ repeat None (S k),
              r_end) /\
       state r_end = DONE) /\
    (Z.of_nat (length (file_of true two_recs)) mod FQ_BUF_SIZE = 0 ->
     reads 0 (length two_recs + 1) r0 = Fault (BufIndex (-1))).
Proof.
  apply (reads_whole_input (one_file two_records) (s2b "in.fq") true false
           two_recs 0%nat).
  - reflexivity.
  - discriminate.
  - reflexivity.
Defined.



(** X12: an input without the marker is never read to its end.  On an
    input of lines that are not empty, of which none starts with "@" and
    the first is more than a carriage return, and whose length is no
    multiple of the capacity, the first call of [read] does not return:
    the skipping loop goes past every line, and at the end of the input
    asks for lines for ever. *)
Theorem input_without_marker_never_returns :
  forall w path hasQuality phred64 l ls fuel,
  source_of w path = Some (lines_bytes (l :: ls)) ->
  forallb skipped_line (l :: ls) = true -> empty (chomp l) = false ->
  Z.of_nat (length (lines_bytes (l :: ls))) mod FQ_BUF_SIZE <> 0 ->
  exists r0,
    FastqReader_new w path hasQuality phred64 = Ret r0 /\
    read fuel r0 = Spin.
Proof.
  intros w path hq p64 l ls fuel Hsrc Hok Hne Hm.
  assert (Hd : lines_bytes (l :: ls) <> []).
  { unfold lines_bytes. cbn [map concat]. destruct l; discriminate. }
  destruct (new_ready_source w path hq p64 _ Hsrc Hd)
    as (r0 & Hnew & Hr0 & Hp0 & _ & _ & Hlen).
  exists r0. split; [exact Hnew|].
  assert (Ha0 : accounts (Z.of_nat (length (lines_bytes (l :: ls)))) r0).
  { split; [apply (sc_cap r0 (proj1 Hr0))|]. exists 0. lia. }
  cbn [forallb] in Hok. apply andb_true_iff in Hok.
  destruct Hok as [Hl Hok]. unfold skipped_line in Hl.
  apply andb_true_iff in Hl. destruct Hl as [Hl Hat].
  apply negb_true_iff in Hat.
  assert (Hp : pending r0 = l ++ LF :: lines_bytes ls).
  { rewrite Hp0. unfold lines_bytes. cbn [map concat].
    rewrite <- app_assoc. reflexivity. }
  destruct (ready_getLine r0 l _ Hr0 Hp Hl) as (r1 & Hg & Hr1 & Hp1 & _).
  unfold read.
  destruct (live_guards r0 (ready_live r0 Hr0)) as [Hz Hu]. rewrite Hz, Hu.
  rewrite Hg. cbn [bind]. rewrite Hne.
  rewrite (skip_loop_garbage _ ls fuel (chomp l) r1 Hr1
             (getLine_loop_accounts _ _ r0 _ r1 Hg Ha0) Hm Hp1 Hok Hat).
  reflexivity.
Qed.

(** An instance of X12. *)
Lemma input_without_marker_never_returns_witness :
  exists r0,
    FastqReader_new (one_file garbage) (s2b "in.fq") true false = Ret r0 /\
    read 5 r0 = Spin.
Proof.
  apply (input_without_marker_never_returns (one_file garbage) (s2b "in.fq")
           true false (s2b "garbage") [] 5%nat).
  - reflexivity.
  - reflexivity.
  - reflexivity.
  - vm_compute. discriminate.
Defined.

(** ** The lines [read] stops at and goes past *)

(** X13: a line that is one carriage return reads as the end.  [getLine]
    strips the carriage return and returns the empty line, which [read]
    takes for the end of the input: it returns null, although the reader
    is left ready on the bytes after that line, and a later call goes on
    from there. *)
Theorem carriage_return_line_reads_as_null :
  forall fuel r rest,
  ready r -> pending r = CR :: LF :: rest ->
  exists r', read fuel r = Ret (None, r') /\ ready r' /\ pending r' = rest.
Proof.
  intros fuel r rest Hr Hp.
  destruct (ready_getLine r [CR] rest Hr Hp eq_refl)
    as (r' & Hg & Hr' & Hp' & _).
  exists r'. split; [|split; assumption].
  unfold read. destruct (live_guards r (ready_live r Hr)) as [Hz Hu].
  rewrite Hz, Hu, Hg. reflexivity.
Qed.

(** An instance of X13. *)
Lemma carriage_return_line_reads_as_null_witness :
  exists r', read 0 cr_reader = Ret (None, r') /\ ready r' /\
             pending r' = one_record.
Proof.
  destruct (ready_one_chunk cr_reader) as [Hr Hp];
    try reflexivity; try discriminate.
  apply (carriage_return_line_reads_as_null 0%nat cr_reader one_record).
  - exact Hr.
  - rewrite Hp. reflexivity.
Defined.

(** On a ready reader the skipping loop goes on from a name that does not
    start with the marker. *)
Lemma ready_not_a_name :
  forall name r,
  ready r -> Ascii.eqb (hd zero name) "@"%char = false ->
  not_a_name name r = true.
Proof.
  intros name r Hr Hh. unfold not_a_name.
  destruct (live_guards r (ready_live r Hr)) as [_ Hu]. rewrite Hu, Hh.
  destruct name; reflexivity.
Qed.

(** The skipping loop goes past lines without the marker, and stops at
    the first line that starts with it. *)
Lemma skip_to_marker :
  forall ls fuel name r n rest,
  ready r ->
  pending r = lines_bytes ls ++ ("@"%char :: n) ++ LF :: rest ->
  forallb skipped_line ls = true -> no_lf n = true ->
  Ascii.eqb (hd zero name) "@"%char = false ->
  (length ls < fuel)%nat ->
  exists r',
    skip_loop fuel name r = Ret ("@"%char :: chomp n, r') /\
    ready r' /\ pending r' = rest /\
    mHasQuality r' = mHasQuality r /\ mPhred64 r' = mPhred64 r.
Proof.
  induction ls as [|l ls IH]; intros fuel name r n rest Hr Hp Hok Hn Hh Hf.
  - destruct fuel as [|fuel]; [cbn [length] in Hf; lia|].
    cbn [skip_loop]. rewrite (ready_not_a_name name r Hr Hh).
    assert (Hl : is_line ("@"%char :: n) = true)
      by (unfold is_line; simpl; exact Hn).
    destruct (ready_getLine r _ _ Hr Hp Hl)
      as (r1 & Hg & Hr1 & Hp1 & Hq & Hph).
    rewrite Hg. cbn [bind]. rewrite chomp_name.
    rewrite skip_loop_stop by reflexivity.
    exists r1. split; [reflexivity|]. split; [exact Hr1|].
    split; [exact Hp1|]. split; assumption.
  - destruct fuel as [|fuel]; [cbn [length] in Hf; lia|].
    cbn [skip_loop]. rewrite (ready_not_a_name name r Hr Hh).
    cbn [forallb] in Hok. apply andb_true_iff in Hok.
    destruct Hok as [Hl Hok]. unfold skipped_line in Hl.
    apply andb_true_iff in Hl. destruct Hl as [Hl Hat].
    apply negb_true_iff in Hat.
    unfold lines_bytes in Hp. cbn [map concat] in Hp.
    rewrite <- !app_assoc in Hp. cbn [app] in Hp.
    destruct (ready_getLine r l _ Hr Hp Hl)
      as (r1 & Hg & Hr1 & Hp1 & Hq & Hph).
    rewrite Hg. cbn [bind].
    destruct (IH fuel (chomp l) r1 n rest Hr1)
      as (r' & Hs & Hr' & Hp' & Hq' & Hph'); try assumption.
    + cbn [length] in Hf. lia.
    + exists r'. split; [exact Hs|]. split; [exact Hr'|].
      split; [exact Hp'|]. split; congruence.
Qed.

(** X14: [read] skips to the next line that starts with the marker.  When
    the pending bytes are lines that are not empty, of which none starts
    with "@" and the first is more than a carriage return, followed by
    the lines of a record, [read] goes past those lines and returns the
    record (null when its quality and sequence differ in length), with
    the reader left ready after the record.  The loop makes one round
    per line skipped. *)
Theorem read_skips_to_marker :
  forall fuel r l ls rc rest,
  ready r ->
  pending r
  = lines_bytes (l :: ls) ++ record_bytes (mHasQuality r) rc ++ rest ->
  forallb skipped_line (l :: ls) = true -> empty (chomp l) = false ->
  record_ok (mHasQuality r) rc = true ->
  (length ls < fuel)%nat ->
  exists r',
    read fuel r = Ret (record_read (mHasQuality r) (mPhred64 r) rc, r') /\
    ready r' /\ pending r' = rest.
Proof.
  intros fuel r l ls [[[n s] p] q] rest Hr Hp Hsk Hne Hok Hf.
  unfold record_ok in Hok.
  apply andb_true_iff in Hok. destruct Hok as [Hok Hq0].
  apply andb_true_iff in Hok. destruct Hok as [Hok Hp0].
  apply andb_true_iff in Hok. destruct Hok as [Hn Hs0].
  cbn [forallb] in Hsk. apply andb_true_iff in Hsk.
  destruct Hsk as [Hl Hsk]. unfold skipped_line in Hl.
  apply andb_true_iff in Hl. destruct Hl as [Hl Hat].
  apply negb_true_iff in Hat.
  set (tail := if mHasQuality r then q ++ LF :: rest else rest).
  assert (Hp1 : pending r
                 = l ++ LF :: lines_bytes ls ++ ("@"%char :: n) ++ LF ::
                   s ++ LF :: p ++ LF :: tail).
  { rewrite Hp. unfold lines_bytes, record_bytes, tail.
    cbn [map concat].
    destruct (mHasQuality r);
      repeat first [rewrite <- app_assoc | progress cbn [app]];
      reflexivity. }
  destruct (ready_getLine r l _ Hr Hp1 Hl) as (r1 & G1 & R1 & P1 & Q1 & F1).
  destruct (skip_to_marker ls fuel (chomp l) r1 n _ R1 P1 Hsk Hn Hat Hf)
    as (r2 & G2 & R2 & P2 & Q2 & F2).
  destruct (ready_getLine r2 _ _ R2 P2 Hs0) as (r3 & G3 & R3 & P3 & Q3 & F3).
  destruct (ready_getLine r3 _ _ R3 P3 Hp0) as (r4 & G4 & R4 & P4 & Q4 & F4).
  assert (Hq4 : mHasQuality r4 = mHasQuality r) by congruence.
  assert (Hf4 : mPhred64 r4 = mPhred64 r) by congruence.
  unfold read.
  destruct (live_guards r (ready_live r Hr)) as [Hz Hu]. rewrite Hz, Hu.
  rewrite G1. cbn [bind]. rewrite Hne. rewrite G2. cbn [bind empty].
  rewrite G3. cbn [bind]. rewrite G4. cbn [bind]. rewrite Hq4.
  unfold record_read, tail in *.
  destruct (mHasQuality r); cbn [negb].
  - destruct (ready_getLine r4 _ _ R4 P4 Hq0) as (r5 & G5 & R5 & P5 & Q5 & F5).
    exists r5. rewrite G5. cbn [bind].
    replace (mPhred64 r5) with (mPhred64 r) by congruence.
    split; [|split; assumption].
    destruct (length (chomp q) =? length (chomp s))%nat; reflexivity.
  - exists r4. rewrite Hf4. split; [reflexivity|]. split; assumption.
Qed.

(** An instance of X14. *)
Lemma read_skips_to_marker_witness :
  exists r',
    read 2 junk_reader
    = Ret (record_read (mHasQuality junk_reader) (mPhred64 junk_reader)
             (s2b "r1", s2b "ACGT", s2b "+", s2b "IIII"), r') /\
    ready r' /\ pending r' = [].
Proof.
  destruct (ready_one_chunk junk_reader) as [Hr Hp];
    try reflexivity; try discriminate.
  apply (read_skips_to_marker 2%nat junk_reader (s2b "junk")
           [s2b "more junk"] (s2b "r1", s2b "ACGT", s2b "+", s2b "IIII") []).
  - exact Hr.
  - rewrite Hp. reflexivity.
  - reflexivity.
  - reflexivity.
  - reflexivity.
  - cbn. lia.
Defined.

(** The skipping loop returns only a name on which its condition is
    false. *)
Lemma skip_loop_Ret :
  forall n name r name' r',
  skip_loop n name r = Ret (name', r') -> not_a_name name' r' = false.
Proof.
  induction n as [|n IH]; intros name r name' r' H; simpl in H.
  - destruct (not_a_name name r) eqn:E; inversion H; subst. exact E.
  - destruct (not_a_name name r) eqn:E; [|inversion H; subst; exact E].
    split_bind H y Hy. destruct y as [l r1]. exact (IH _ _ _ _ H).
Qed.

(** X15: what a record [read] returns is like.  Its name starts with "@",
    its quality is as long as its sequence, with or without quality
    lines in the input, and it carries the encoding setting of the
    reader. *)
Theorem returned_record_is_well_formed :
  forall fuel r rec r',
  read fuel r = Ret (Some rec, r') ->
  (exists rest, mName rec = "@"%char :: rest) /\
  length (mQuality rec) = length (mSeq rec) /\
  mHasPhred64 rec = mPhred64 r.
Proof.
  intros fuel r rec r' H. unfold read in H.
  destruct (_ && _); [discriminate|].
  destruct (used_up r); [discriminate|].
  split_bind H y1 H1. destruct y1 as [name r1].
  destruct (empty name); [discriminate|].
  split_bind H y2 H2. destruct y2 as [name' r2].
  destruct (empty name') eqn:Ee; [discriminate|].
  split_bind H y3 H3. destruct y3 as [sq r3].
  split_bind H y4 H4. destruct y4 as [sd r4].
  assert (Hname : exists rest, name' = "@"%char :: rest).
  { pose proof (skip_loop_Ret _ _ _ _ _ H2) as Hc.
    unfold not_a_name in Hc. rewrite Ee in Hc. cbn [andb negb orb] in Hc.
    apply negb_false_iff in Hc. apply Ascii.eqb_eq in Hc.
    destruct name' as [|c rest]; [discriminate|].
    cbn [hd] in Hc. subst c. exists rest. reflexivity. }
  assert (Hph : mPhred64 r4 = mPhred64 r).
  { apply getLine_keeps in H1, H3, H4. apply skip_loop_keeps in H2.
    destruct H1, H2, H3, H4. congruence. }
  destruct (negb (mHasQuality r4)).
  - inversion H; subst; clear H. cbn [mName mQuality mSeq mHasPhred64].
    split; [exact Hname|]. split; [apply repeat_length|exact Hph].
  - split_bind H y5 H5. destruct y5 as [ql r5].
    destruct (length ql =? length sq)%nat eqn:El; [|discriminate].
    cbn [negb] in H. inversion H; subst; clear H.
    cbn [mName mQuality mSeq mHasPhred64].
    split; [exact Hname|]. split; [apply Nat.eqb_eq; exact El|].
    apply getLine_keeps in H5. destruct H5. congruence.
Qed.

(** An instance of X15. *)
Lemma returned_record_is_well_formed_witness :
  (exists rest, mName (rec4 "@r1" "ACGT" "IIII") = "@"%char :: rest) /\
  length (mQuality (rec4 "@r1" "ACGT" "IIII"))
  = length (mSeq (rec4 "@r1" "ACGT" "IIII")) /\
  mHasPhred64 (rec4 "@r1" "ACGT" "IIII")
  = mPhred64 (two_records_reader (s2b "in.fq") false false).
Proof.
  apply (returned_record_is_well_formed 0%nat
           (two_records_reader (s2b "in.fq") false false)
           (rec4 "@r1" "ACGT" "IIII") after_first_record).
  vm_compute. reflexivity.
Defined.

(** ** Records in the buffer, and [close] *)

Lemma advance_advance :
  forall a b r, advance b (advance a r) = advance (a + b) r.
Proof.
  intros a b r. unfold advance, set_ctx. cbn.
  rewrite <- !Z.add_assoc. reflexivity.
Qed.

(** [getLine] on a line that lies in the buffer with its terminator: the
    cursor moves past the terminator, and nothing else changes. *)
Lemma framed_getLine :
  forall r l rest,
  framed r ->
  skipn (Z.to_nat (start (ctx r))) (mBuf r) = l ++ LF :: rest ->
  is_line l = true ->
  getLine r = Ret (chomp l, advance (Z.of_nat (length l) + 1) r) /\
  framed (advance (Z.of_nat (length l) + 1) r) /\
  skipn (Z.to_nat (start (ctx r) + (Z.of_nat (length l) + 1))) (mBuf r)
  = rest.
Proof.
  intros r l rest [Hst He Hs Hl Hp] Hcur Hline.
  apply is_line_spec in Hline. destruct Hline as [Hn Hne].
  set (pre := firstn (Z.to_nat (start (ctx r))) (mBuf r)).
  assert (Hb : mBuf r = pre ++ l ++ LF :: rest).
  { rewrite <- Hcur. symmetry. apply firstn_skipn. }
  assert (Hpre : Z.of_nat (length pre) = start (ctx r)).
  { unfold pre. rewrite length_firstn. lia. }
  assert (Hc : ctx r = mkCtx (Z.of_nat (length (mBuf r)))
                             (Z.of_nat (length pre))
                             (Z.of_nat (length pre)) []).
  { rewrite Hpre, <- Hl, <- Hp. rewrite (ctx_eta (ctx r)) at 1.
    rewrite He. reflexivity. }
  pose proof (next_line pre l rest [] Hn) as Hnx. cbv zeta in Hnx.
  rewrite <- Hb, <- Hc in Hnx.
  assert (Hk : Z.of_nat (length (pre ++ l ++ [LF]))
               = start (ctx r) + (Z.of_nat (length l) + 1)).
  { rewrite !length_app. cbn [length]. lia. }
  rewrite Hk in Hnx.
  split; [|split].
  - rewrite (getLine_complete r _ _ Hst Hnx), Hp. cbn [app].
    destruct (back l) eqn:Eb; [|apply back_None in Eb; contradiction].
    unfold advance, set_partial. cbn [len start end_]. rewrite <- Hl.
    reflexivity.
  - split; unfold advance; cbn [set_ctx ctx state mBuf len start end_ partial];
      auto.
    rewrite Hl, Hb, !length_app. cbn [length]. lia.
  - rewrite <- Hk, Nat2Z.id. rewrite Hb.
    replace (pre ++ l ++ LF :: rest) with ((pre ++ l ++ [LF]) ++ rest)
      by (rewrite <- !app_assoc; reflexivity).
    rewrite skipn_app, skipn_all, Nat.sub_diag. reflexivity.
Qed.

Lemma length_record_bytes :
  forall hq n s p q,
  Z.of_nat (length (record_bytes hq (n, s, p, q)))
  = (Z.of_nat (length ("@"%char :: n)) + 1)
    + (Z.of_nat (length s) + 1) + (Z.of_nat (length p) + 1)
    + (if hq then Z.of_nat (length q) + 1 else 0).
Proof.
  intros hq n s p q. unfold record_bytes.
  rewrite length_app. cbn [length]. rewrite length_app. cbn [length].
  rewrite length_app. cbn [length].
  destruct hq; [rewrite length_app|]; cbn [length]; lia.
Qed.

(** [read] on a record that lies in the buffer. *)
Lemma framed_read :
  forall fuel r rc rest,
  framed r -> mBufUsedLen r < mBufDataLen r ->
  (mZipped r = true -> mZipFile r <> None) ->
  skipn (Z.to_nat (start (ctx r))) (mBuf r)
  = record_bytes (mHasQuality r) rc ++ rest ->
  record_ok (mHasQuality r) rc = true ->
  read fuel r
  = Ret (record_read (mHasQuality r) (mPhred64 r) rc,
         advance (Z.of_nat (length (record_bytes (mHasQuality r) rc))) r).
Proof.
  intros fuel r [[[n s] p] q] rest Hf Hlt Hz Hcur Hok.
  unfold record_ok in Hok.
  apply andb_true_iff in Hok. destruct Hok as [Hok Hq0].
  apply andb_true_iff in Hok. destruct Hok as [Hok Hp0].
  apply andb_true_iff in Hok. destruct Hok as [Hn Hs0].
  assert (Hn' : is_line ("@"%char :: n) = true).
  { unfold is_line. simpl. exact Hn. }
  rewrite length_record_bytes.
  unfold record_bytes in Hcur.
  replace ((("@"%char :: n) ++ LF :: s ++ LF :: p ++ LF ::
            (if mHasQuality r then q ++ [LF] else [])) ++ rest)
    with (("@"%char :: n) ++ LF :: s ++ LF :: p ++ LF ::
          (if mHasQuality r then q ++ LF :: rest else rest))
    in Hcur.
  2:{ rewrite <- app_assoc. simpl. do 2 f_equal.
      rewrite <- app_assoc. simpl. do 2 f_equal.
      rewrite <- app_assoc. simpl. do 2 f_equal.
      destruct (mHasQuality r); [|reflexivity].
      rewrite <- app_assoc. reflexivity. }
  set (k1 := Z.of_nat (length ("@"%char :: n)) + 1).
  set (k2 := Z.of_nat (length s) + 1).
  set (k3 := Z.of_nat (length p) + 1).
  destruct (framed_getLine r _ _ Hf Hcur Hn') as (G1 & F1 & C1).
  fold k1 in G1, F1, C1.
  assert (C1' : skipn (Z.to_nat (start (ctx (advance k1 r))))
                      (mBuf (advance k1 r))
                = s ++ LF :: p ++ LF ::
                  (if mHasQuality r then q ++ LF :: rest else rest))
    by exact C1.
  destruct (framed_getLine _ _ _ F1 C1' Hs0) as (G2 & F2 & C2).
  fold k2 in G2, F2, C2. rewrite advance_advance in G2, F2.
  assert (C2' : skipn (Z.to_nat (start (ctx (advance (k1 + k2) r))))
                      (mBuf (advance (k1 + k2) r))
                = p ++ LF ::
                  (if mHasQuality r then q ++ LF :: rest else rest)).
  { rewrite <- C2. unfold advance. cbn [set_ctx ctx start mBuf].
    f_equal. lia. }
  destruct (framed_getLine _ _ _ F2 C2' Hp0) as (G3 & F3 & C3).
  fold k3 in G3, F3, C3. rewrite advance_advance in G3, F3.
  assert (Hg : mZipped r
               && (match mZipFile r with None => true | Some _ => false end)
               = false).
  { destruct (mZipped r); [|reflexivity].
    destruct (mZipFile r); [reflexivity|].
    exfalso. exact (Hz eq_refl eq_refl). }
  assert (Hu : used_up r = false).
  { unfold used_up. destruct (mBufDataLen r <=? mBufUsedLen r) eqn:E;
      [lia|reflexivity]. }
  unfold read. rewrite Hg, Hu, G1. cbn [bind].
  rewrite chomp_name. cbn [empty].
  rewrite skip_loop_stop by reflexivity. cbn [bind empty].
  rewrite G2. cbn [bind]. rewrite G3. cbn [bind].
  change (mHasQuality (advance (k1 + k2 + k3) r)) with (mHasQuality r).
  change (mPhred64 (advance (k1 + k2 + k3) r)) with (mPhred64 r).
  unfold record_read.
  destruct (mHasQuality r) eqn:Hq; cbn [negb].
  - assert (C3' : skipn (Z.to_nat (start (ctx (advance (k1 + k2 + k3) r))))
                        (mBuf (advance (k1 + k2 + k3) r))
                  = q ++ LF :: rest).
    { rewrite <- C3. unfold advance. cbn [set_ctx ctx start mBuf].
      f_equal. lia. }
    destruct (framed_getLine _ _ _ F3 C3' Hq0) as (G4 & F4 & C4).
    rewrite advance_advance in G4. rewrite G4. cbn [bind].
    change (mPhred64 (advance _ r)) with (mPhred64 r).
    destruct (length (chomp q) =? length (chomp s))%nat; reflexivity.
  - rewrite Z.add_0_r. reflexivity.
Qed.

(** X16: a record that lies in the buffer is read without the source.
    When the bytes from the cursor on are the lines of a record, [read]
    returns the record (null when quality and sequence differ in
    length), and the reader after the call differs from the reader
    before in the cursor alone, which is past the record: no refill is
    made and the handle is not looked at, so this holds of a plain reader
    whose handle is null too. *)
Theorem read_takes_buffered_record :
  forall fuel r rc rest,
  framed r -> mBufUsedLen r < mBufDataLen r ->
  (mZipped r = true -> mZipFile r <> None) ->
  skipn (Z.to_nat (start (ctx r))) (mBuf r)
  = record_bytes (mHasQuality r) rc ++ rest ->
  record_ok (mHasQuality r) rc = true ->
  read fuel r
  = Ret (record_read (mHasQuality r) (mPhred64 r) rc,
         advance (Z.of_nat (length (record_bytes (mHasQuality r) rc))) r)
  /\ skipn (Z.to_nat (start (ctx r)
                      + Z.of_nat (length (record_bytes (mHasQuality r) rc))))
           (mBuf r) = rest.
Proof.
  intros fuel r rc rest Hf Hlt Hz Hcur Hok.
  split; [exact (framed_read fuel r rc rest Hf Hlt Hz Hcur Hok)|].
  pose proof (fr_start r Hf) as Hs.
  replace (Z.to_nat (start (ctx r)
                     + Z.of_nat (length (record_bytes (mHasQuality r) rc))))
    with (length (record_bytes (mHasQuality r) rc)
          + Z.to_nat (start (ctx r)))%nat by lia.
  rewrite <- skipn_skipn, Hcur, skipn_app, skipn_all, Nat.sub_diag.
  reflexivity.
Qed.

(** An instance of X16. *)
Lemma read_takes_buffered_record_witness :
  let r := close (two_records_reader (s2b "in.fq") false false) in
  let rc := (s2b "r1", s2b "ACGT", s2b "+", s2b "IIII") in
  read 0 r
  = Ret (record_read (mHasQuality r) (mPhred64 r) rc,
         advance (Z.of_nat (length (record_bytes (mHasQuality r) rc))) r)
  /\ skipn (Z.to_nat (start (ctx r)
                      + Z.of_nat (length (record_bytes (mHasQuality r) rc))))
           (mBuf r) = nl ["@r2"; "GGTT"; "+"; "JJJJ"]%string.
Proof.
  intros r rc.
  apply (read_takes_buffered_record 0%nat r rc
           (nl ["@r2"; "GGTT"; "+"; "JJJJ"]%string)).
  - split; [reflexivity|reflexivity|cbn; lia|reflexivity|reflexivity].
  - reflexivity.
  - discriminate.
  - reflexivity.
  - reflexivity.
Defined.

Lemma close_framed : forall r, framed r -> framed (close r).
Proof.
  intros r [H1 H2 H3 H4 H5]. unfold close.
  destruct (mZipped r); split; assumption.
Qed.

Lemma close_advance :
  forall k r, close (advance k r) = advance k (close r).
Proof.
  intros k r. unfold close, advance, set_ctx. cbn.
  destruct (mZipped r); reflexivity.
Qed.

(** X17: what [close] stops.  [close] is idempotent and leaves the handle
    in use null.  After it a gzip reader answers null to every [read],
    at the test of its handle, and is left as it is.  A plain reader has
    no such test: a record that lies in its buffer is still returned
    after [close], as before it. *)
Theorem close_then_read :
  (forall r, close (close r) = close r /\ handle (close r) = None)
  /\
  (forall fuel n r,
     mZipped r = true ->
     reads fuel n (close r) = Ret (repeat None n, close r))
  /\
  (forall fuel r rc rest,
     mZipped r = false ->
     framed r -> mBufUsedLen r < mBufDataLen r ->
     skipn (Z.to_nat (start (ctx r))) (mBuf r)
     = record_bytes (mHasQuality r) rc ++ rest ->
     record_ok (mHasQuality r) rc = true ->
     read fuel (close r)
     = Ret (record_read (mHasQuality r) (mPhred64 r) rc,
            close (advance
                     (Z.of_nat (length (record_bytes (mHasQuality r) rc)))
                     r))).
Proof.
  split; [|split].
  - intro r. unfold close, handle.
    destruct (mZipped r) eqn:Hz; cbn; try rewrite Hz; split; reflexivity.
  - intros fuel n r Hz.
    assert (H1 : mZipped (close r) = true)
      by (unfold close; rewrite Hz; reflexivity).
    assert (H2 : mZipFile (close r) = None)
      by (unfold close; rewrite Hz; reflexivity).
    induction n as [|n IH]; [reflexivity|].
    cbn [reads]. unfold read at 1. rewrite H1, H2.
    cbn [andb bind]. rewrite IH. reflexivity.
  - intros fuel r rc rest Hz Hf Hlt Hcur Hok.
    rewrite close_advance.
    assert (Hq : mHasQuality (close r) = mHasQuality r)
      by (unfold close; destruct (mZipped r); reflexivity).
    assert (Hp : mPhred64 (close r) = mPhred64 r)
      by (unfold close; destruct (mZipped r); reflexivity).
    rewrite <- Hq, <- Hp.
    apply (framed_read fuel (close r) rc rest).
    + apply close_framed. exact Hf.
    + unfold close. rewrite Hz. exact Hlt.
    + unfold close. rewrite Hz. cbn [mZipped]. discriminate.
    + rewrite Hq. unfold close. rewrite Hz. exact Hcur.
    + rewrite Hq. exact Hok.
Qed.

(** An instance of X17. *)
Lemma close_then_read_witness :
  (close (close cut_reader) = close cut_reader /\
   handle (close cut_reader) = None)
  /\
  reads 0 2 (close (two_records_reader (s2b "in.fq.gz") true false))
  = Ret (repeat None 2,
         close (two_records_reader (s2b "in.fq.gz") true false))
  /\
  (let r := two_records_reader (s2b "in.fq") false false in
   let rc := (s2b "r1", s2b "ACGT", s2b "+", s2b "IIII") in
   read 0 (close r)
   = Ret (record_read (mHasQuality r) (mPhred64 r) rc,
          close (advance
                   (Z.of_nat (length (record_bytes (mHasQuality r) rc)))
                   r))).
Proof.
  split; [|split].
  - apply (proj1 close_then_read cut_reader).
  - apply (proj1 (proj2 close_then_read) 0%nat 2%nat
             (two_records_reader (s2b "in.fq.gz") true false)).
    reflexivity.
  - intros r rc.
    apply (proj2 (proj2 close_then_read) 0%nat r rc
             (nl ["@r2"; "GGTT"; "+"; "JJJJ"]%string)).
    + reflexivity.
    + split; [reflexivity|reflexivity|cbn; lia|reflexivity|reflexivity].
    + reflexivity.
    + reflexivity.
    + reflexivity.
Defined.

(** ** Gzip and plain sources, and [test] *)

Lemma twin_move :
  forall a b c st,
  twin a b -> twin (set_state st (set_ctx c a)) (set_state st (set_ctx c b)).
Proof.
  intros a b c st (Hh & H1 & H2 & H3 & H4 & H5 & H6 & H7 & H8).
  unfold twin. cbn. repeat split; auto.
Qed.

Lemma twin_set_ctx :
  forall a b c, twin a b -> twin (set_ctx c a) (set_ctx c b).
Proof.
  intros a b c (Hh & H1 & H2 & H3 & H4 & H5 & H6 & H7 & H8).
  unfold twin. cbn. repeat split; auto.
Qed.

Lemma twin_set_state :
  forall a b st, twin a b -> twin (set_state st a) (set_state st b).
Proof.
  intros a b st (Hh & H1 & H2 & H3 & H4 & H5 & H6 & H7 & H8).
  unfold twin. cbn. repeat split; auto.
Qed.

Lemma twin_eof : forall a b, twin a b -> eof a = eof b.
Proof.
  intros a b ((s & Ha & Hb) & _). unfold eof. unfold handle in Ha, Hb.
  rewrite Ha, Hb. reflexivity.
Qed.

Lemma twin_left : forall a b, twin a b -> left_to_read a = left_to_read b.
Proof.
  intros a b ((s & Ha & Hb) & _). rewrite !left_to_read_handle, Ha, Hb.
  reflexivity.
Qed.

(** A refill does the same to twin readers. *)
Lemma twin_readToBuf :
  forall a b, twin a b -> agree twin (readToBuf a) (readToBuf b).
Proof.
  intros a b ((s & Ha & Hb) & H1 & H2 & H3 & H4 & H5 & H6 & H7 & H8).
  assert (P : forall r, handle r = Some s ->
    pull r = let '(d, s') := stream_read FQ_BUF_SIZE s in
             Ret (Z.of_nat (length d), d,
                  (if mZipped r then Some s' else mZipFile r),
                  (if mZipped r then mFile r else Some s'))).
  { intros r Hr. unfold pull. unfold handle in Hr.
    destruct (mZipped r); rewrite Hr;
      destruct (stream_read FQ_BUF_SIZE s); reflexivity. }
  unfold readToBuf. rewrite (P a Ha), (P b Hb).
  destruct (stream_read FQ_BUF_SIZE s) as [d s']. cbn [bind].
  rewrite H6.
  destruct (Z.of_nat (length d) <? FQ_BUF_SIZE).
  - destruct (buf_at d (Z.of_nat (length d) - 1)); cbn [bind agree];
      [|reflexivity].
    unfold twin, handle. cbn. rewrite H7.
    split; [exists s'; destruct (mZipped a), (mZipped b); auto|].
    repeat split; auto.
  - cbn [bind agree]. unfold twin, handle. cbn. rewrite H7.
    split; [exists s'; destruct (mZipped a), (mZipped b); auto|].
    repeat split; auto.
Qed.

Lemma agree_bind :
  forall (A B : Type) (R : A -> A -> Prop) (S : B -> B -> Prop)
         (x y : outcome A) (k k' : A -> outcome B),
  agree R x y ->
  (forall a b, R a b -> agree S (k a) (k' b)) ->
  agree S (bind x k) (bind y k').
Proof.
  intros A B R S [a| | |] [b| | |] k k' H K; cbn in *;
    try contradiction; auto.
Qed.

Lemma agree_ret :
  forall (A : Type) (v : A) a b,
  twin a b -> agree same_and_twin (Ret (v, a)) (Ret (v, b)).
Proof. intros A v a b Ht. split; [reflexivity|exact Ht]. Qed.

Lemma twin_getLine_loop :
  forall n a b,
  twin a b -> agree same_and_twin (getLine_loop n a) (getLine_loop n b).
Proof.
  induction n as [|n IH]; intros a b Ht.
  - pose proof Ht as (_ & _ & _ & _ & _ & _ & _ & _ & H8).
    simpl. rewrite <- H8. destruct (state a); try exact I.
    apply agree_ret. exact Ht.
  - pose proof Ht as (_ & _ & _ & H3 & _ & _ & _ & H7 & H8).
    simpl. rewrite <- H8, <- H3, <- H7. destruct (state a).
    + destruct (next (mBuf a) (ctx a)) as [[result c] cx].
      destruct c.
      * destruct (back _); [|reflexivity].
        apply agree_ret. apply twin_set_ctx. exact Ht.
      * apply IH. apply twin_move. exact Ht.
    + rewrite <- (twin_eof a b Ht).
      destruct (_ || _ || _).
      * apply IH. apply twin_set_state. exact Ht.
      * apply (agree_bind _ _ twin); [apply twin_readToBuf; exact Ht|].
        intros a1 b1 Ht1. apply IH. apply twin_set_state. exact Ht1.
    + apply agree_ret. exact Ht.
Qed.

Lemma twin_getLine :
  forall a b, twin a b -> agree same_and_twin (getLine a) (getLine b).
Proof.
  intros a b Ht. unfold getLine. rewrite <- (twin_left a b Ht).
  apply twin_getLine_loop. exact Ht.
Qed.

Lemma twin_used_up : forall a b, twin a b -> used_up a = used_up b.
Proof.
  intros a b Ht. pose proof Ht as (_ & _ & _ & _ & H4 & H5 & _).
  unfold used_up. rewrite H4, H5, (twin_eof a b Ht). reflexivity.
Qed.

(** After a [getLine] on twin readers: the same line, twin readers. *)
Ltac twin_line name a1 b1 Ht :=
  apply (agree_bind _ _ same_and_twin);
  [apply twin_getLine; assumption|];
  let m := fresh "m" in
  let E := fresh "E" in
  intros [name a1] [m b1] [E Ht]; cbn [fst snd] in E, Ht; subst m;
  cbv beta iota zeta.

Lemma twin_skip_loop :
  forall n name a b,
  twin a b -> agree same_and_twin (skip_loop n name a) (skip_loop n name b).
Proof.
  induction n as [|n IH]; intros name a b Ht; simpl;
    unfold not_a_name; rewrite <- (twin_used_up a b Ht);
    destruct (_ || _); try exact I; try (apply agree_ret; exact Ht).
  twin_line l a1 b1 Ht1. apply IH. exact Ht1.
Qed.

(** [read] does the same on twin readers. *)
Lemma twin_read :
  forall fuel a b,
  twin a b -> agree same_and_twin (read fuel a) (read fuel b).
Proof.
  intros fuel a b Ht.
  pose proof Ht as ((s & Ha & Hb) & H1 & H2 & _).
  unfold read. rewrite <- (twin_used_up a b Ht).
  assert (Ga : mZipped a
               && (match mZipFile a with None => true | Some _ => false end)
               = false).
  { unfold handle in Ha. destruct (mZipped a); [rewrite Ha|]; reflexivity. }
  assert (Gb : mZipped b
               && (match mZipFile b with None => true | Some _ => false end)
               = false).
  { unfold handle in Hb. destruct (mZipped b); [rewrite Hb|]; reflexivity. }
  rewrite Ga, Gb.
  destruct (used_up a); [apply agree_ret; exact Ht|].
  twin_line name a1 b1 Ht1.
  destruct (empty name); [apply agree_ret; exact Ht1|].
  apply (agree_bind _ _ same_and_twin);
    [apply twin_skip_loop; exact Ht1|].
  intros [name' a2] [m b2] [E Ht2]; cbn [fst snd] in E, Ht2; subst m;
    cbv beta iota zeta.
  destruct (empty name'); [apply agree_ret; exact Ht2|].
  twin_line sq a3 b3 Ht3.
  twin_line sd a4 b4 Ht4.
  pose proof Ht4 as (_ & P4 & Q4 & _). rewrite <- P4, <- Q4.
  destruct (negb (mHasQuality a4)); [apply agree_ret; exact Ht4|].
  twin_line ql a5 b5 Ht5.
  pose proof Ht5 as (_ & P5 & _). rewrite <- P5.
  destruct (negb _); apply agree_ret; exact Ht5.
Qed.

Lemma twin_reads :
  forall fuel n a b,
  twin a b -> agree same_and_twin (reads fuel n a) (reads fuel n b).
Proof.
  intros fuel n. induction n as [|n IH]; intros a b Ht; cbn [reads].
  - apply agree_ret. exact Ht.
  - apply (agree_bind _ _ same_and_twin); [apply twin_read; exact Ht|].
    intros [x a1] [y b1] [E Ht1]; cbn [fst snd] in E, Ht1; subst y;
      cbv beta iota zeta.
    apply (agree_bind _ _ same_and_twin); [apply IH; exact Ht1|].
    intros [xs a2] [ys b2] [E Ht2]; cbn [fst snd] in E, Ht2; subst ys;
      cbv beta iota zeta.
    apply agree_ret. exact Ht2.
Qed.

(** Two paths that open on the same bytes give twin readers. *)
Lemma twin_new :
  forall w p1 p2 hasQuality phred64 d,
  source_of w p1 = Some d -> source_of w p2 = Some d ->
  agree twin (FastqReader_new w p1 hasQuality phred64)
             (FastqReader_new w p2 hasQuality phred64).
Proof.
  intros w p1 p2 hq p64 d H1 H2. rewrite !new_cases, H1, H2.
  apply twin_readToBuf. unfold twin. rewrite !opened_handle.
  split; [exists (mkStream d false); auto|].
  repeat split; reflexivity.
Qed.

(** X18: a gzip source and a plain source that deliver the same bytes are
    read alike.  Two paths that open on the same bytes, whichever of them
    ends in ".gz", give the same results call after call: the same
    records and nulls, or the same fault. *)
Theorem same_bytes_same_records :
  forall w p1 p2 hasQuality phred64 d fuel n,
  source_of w p1 = Some d -> source_of w p2 = Some d ->
  agree (fun x y => fst x = fst y)
        (r <- FastqReader_new w p1 hasQuality phred64 ;; reads fuel n r)
        (r <- FastqReader_new w p2 hasQuality phred64 ;; reads fuel n r).
Proof.
  intros w p1 p2 hq p64 d fuel n H1 H2.
  apply (agree_bind _ _ twin); [exact (twin_new w p1 p2 hq p64 d H1 H2)|].
  intros a b Ht. pose proof (twin_reads fuel n a b Ht) as H.
  destruct (reads fuel n a) as [x| | |], (reads fuel n b) as [y| | |];
    cbn [agree] in *; try contradiction; try exact H.
  exact (proj1 H).
Qed.

(** An instance of X18. *)
Lemma same_bytes_same_records_witness :
  agree (fun x y => fst x = fst y)
        (r <- FastqReader_new test_files (s2b "testdata/R1.fq") true false ;;
         reads 0 3 r)
        (r <- FastqReader_new test_files (s2b "testdata/R1.fq.gz") true false ;;
         reads 0 3 r).
Proof.
  apply (same_bytes_same_records test_files (s2b "testdata/R1.fq")
           (s2b "testdata/R1.fq.gz") true false two_records 0%nat 3%nat).
  - reflexivity.
  - reflexivity.
Defined.

Lemma test_loop_twin :
  forall n fuel a b, twin a b -> test_loop n fuel a b <> Ret false.
Proof.
  induction n as [|n IH]; intros fuel a b Ht; cbn [test_loop];
    [discriminate|].
  pose proof (twin_read fuel a b Ht) as H.
  destruct (read fuel a) as [[x a1]| | |], (read fuel b) as [[y b1]| | |];
    cbn [agree bind] in *; try contradiction; try discriminate.
  destruct H as [E Ht1]. cbn [fst snd] in E, Ht1. subst y.
  destruct x as [x|]; [|discriminate].
  destruct (list_eq_dec ascii_dec (mSeq x) (mSeq x)) as [_|Hn];
    [|contradiction].
  apply IH. exact Ht1.
Qed.

Lemma mSeq_record_read :
  forall hq p1 p2 rc x y,
  record_read hq p1 rc = Some x -> record_read hq p2 rc = Some y ->
  mSeq x = mSeq y.
Proof.
  intros hq p1 p2 [[[n s] p] q] x y Hx Hy. unfold record_read in *.
  destruct hq.
  - destruct (_ =? _)%nat; [|discriminate].
    inversion Hx; inversion Hy; subst. reflexivity.
  - inversion Hx; inversion Hy; subst. reflexivity.
Qed.

Lemma test_loop_records :
  forall t hq recs n fuel a b,
  ready a -> ready b -> accounts t a -> accounts t b ->
  mHasQuality a = hq -> mHasQuality b = hq ->
  pending a = file_of hq recs -> pending b = file_of hq recs ->
  forallb (record_ok hq) recs = true ->
  t mod FQ_BUF_SIZE <> 0 ->
  (length recs < n)%nat ->
  test_loop n fuel a b = Ret true.
Proof.
  intros t hq recs. induction recs as [|rc recs IH];
    intros n fuel a b Ra Rb Aa Ab Qa Qb Pa Pb Hok Hm Hn.
  - destruct n as [|n]; [cbn [length] in Hn; lia|]. cbn [test_loop].
    destruct (accounts_end t a Ra Aa Pa) as [Hshort _].
    destruct (ready_read_end fuel a Ra Pa (Hshort Hm)) as (a1 & Ha & _).
    destruct (accounts_end t b Rb Ab Pb) as [Hshortb _].
    destruct (ready_read_end fuel b Rb Pb (Hshortb Hm)) as (b1 & Hb & _).
    rewrite Ha. cbn [bind]. rewrite Hb. reflexivity.
  - destruct n as [|n]; [cbn [length] in Hn; lia|]. cbn [test_loop].
    cbn [forallb] in Hok. apply andb_true_iff in Hok.
    destruct Hok as [Hok1 Hok].
    unfold file_of in Pa, Pb. cbn [map concat] in Pa, Pb.
    rewrite <- Qa in Pa at 1. rewrite <- Qb in Pb at 1.
    assert (Oa : record_ok (mHasQuality a) rc = true)
      by (rewrite Qa; exact Hok1).
    assert (Ob : record_ok (mHasQuality b) rc = true)
      by (rewrite Qb; exact Hok1).
    destruct (ready_read fuel a rc _ Ra Pa Oa)
      as (a1 & Ha & Ra1 & Pa1 & Qa1 & _).
    destruct (ready_read fuel b rc _ Rb Pb Ob)
      as (b1 & Hb & Rb1 & Pb1 & Qb1 & _).
    rewrite Ha. cbn [bind]. rewrite Hb. cbn [bind].
    rewrite Qa, Qb.
    destruct (record_read hq (mPhred64 a) rc) as [x|] eqn:Ex; [|reflexivity].
    destruct (record_read hq (mPhred64 b) rc) as [y|] eqn:Ey; [|reflexivity].
    destruct (list_eq_dec ascii_dec (mSeq x) (mSeq y)) as [_|Hne].
    + apply IH; try assumption; try congruence.
      * exact (read_accounts t fuel a _ a1 Ha Aa).
      * exact (read_accounts t fuel b _ b1 Hb Ab).
      * cbn [length] in Hn. lia.
    + exfalso. apply Hne. exact (mSeq_record_read hq _ _ rc x y Ex Ey).
Qed.

(** X19: the self-test.  When "testdata/R1.fq" and "testdata/R1.fq.gz" open
    on the same bytes, [test] never answers false, whatever the bytes
    are and for either value of the two settings.  When the bytes are
    well-formed records, and their length is no multiple of the capacity,
    it answers true, within one round per record and one more. *)
Theorem test_on_equal_inputs :
  (forall w hasQuality phred64 n fuel d,
     fs w (s2b "testdata/R1.fq") = Some d ->
     fs w (s2b "testdata/R1.fq.gz") = Some d ->
     test w hasQuality phred64 n fuel <> Ret false)
  /\
  (forall w hasQuality phred64 n fuel recs,
     fs w (s2b "testdata/R1.fq") = Some (file_of hasQuality recs) ->
     fs w (s2b "testdata/R1.fq.gz") = Some (file_of hasQuality recs) ->
     recs <> [] -> forallb (record_ok hasQuality) recs = true ->
     Z.of_nat (length (file_of hasQuality recs)) mod FQ_BUF_SIZE <> 0 ->
     (length recs < n)%nat ->
     test w hasQuality phred64 n fuel = Ret true).
Proof.
  split.
  - intros w hq p64 n fuel d H1 H2. unfold test.
    pose proof (twin_new w (s2b "testdata/R1.fq") (s2b "testdata/R1.fq.gz")
                  hq p64 d H1 H2) as Hn.
    destruct (FastqReader_new w (s2b "testdata/R1.fq") hq p64) as [a| | |],
             (FastqReader_new w (s2b "testdata/R1.fq.gz") hq p64)
               as [b| | |];
      cbn [agree bind] in *; try contradiction; try discriminate.
    apply test_loop_twin. exact Hn.
  - intros w hq p64 n fuel recs H1 H2 Hne Hok Hm Hlt. unfold test.
    pose proof (file_of_not_empty hq recs Hne) as Hd.
    destruct (new_ready_source w (s2b "testdata/R1.fq") hq p64 _ H1 Hd)
      as (a & Ha & Ra & Pa & Qa & _ & La).
    destruct (new_ready_source w (s2b "testdata/R1.fq.gz") hq p64 _ H2 Hd)
      as (b & Hb & Rb & Pb & Qb & _ & Lb).
    rewrite Ha. cbn [bind]. rewrite Hb. cbn [bind].
    apply (test_loop_records (Z.of_nat (length (file_of hq recs))) hq recs);
      try assumption.
    + split; [apply (sc_cap a (proj1 Ra))|]. exists 0. lia.
    + split; [apply (sc_cap b (proj1 Rb))|]. exists 0. lia.
Qed.

(** An instance of X19. *)
Lemma test_on_equal_inputs_witness :
  test test_files true false 3 0 <> Ret false /\
  test test_files true false 3 0 = Ret true.
Proof.
  split.
  - apply (proj1 test_on_equal_inputs test_files true false 3%nat 0%nat
             two_records); reflexivity.
  - apply (proj2 test_on_equal_inputs test_files true false 3%nat 0%nat
             two_recs).
    + reflexivity.
    + reflexivity.
    + discriminate.
    + reflexivity.
    + vm_compute. discriminate.
    + cbn. lia.
Defined.

(** ** The paired reader on whole inputs *)









(** ** Standard input on both sides *)

Lemma source_of_stdin :
  forall w, source_of w (s2b "/dev/stdin") = Some (stdin_data w).
Proof. reflexivity. Qed.

Lemma on_stdin_stdin : on_stdin (s2b "/dev/stdin") = true.
Proof. reflexivity. Qed.

Lemma stream_read_rest :
  forall n s d s',
  stream_read n s = (d, s') -> unread s' = skipn (Z.to_nat n) (unread s).
Proof.
  intros n s d s' H. unfold stream_read in H.
  apply pair_equal_spec in H. destruct H as [_ <-]. reflexivity.
Qed.

(** The outcome of the constructor on standard input. *)
Lemma new_on_stdin :
  forall w hasQuality phred64,
  Z.of_nat (length (stdin_data w)) <= FQ_BUF_SIZE ->
  FastqReader_new w (s2b "/dev/stdin") hasQuality phred64
  = Fault (BufIndex (-1))
  \/ exists l,
       FastqReader_new w (s2b "/dev/stdin") hasQuality phred64 = Ret l /\
       stdin_after l = [].
Proof.
  intros w hq p64 Hlen.
  rewrite new_cases, source_of_stdin.
  destruct (stdin_data w) as [|c d] eqn:Hd.
  - left. apply readToBuf_opened_empty.
  - right.
    destruct (readToBuf_some (opened (s2b "/dev/stdin") hq p64 (c :: d)) _
                (opened_handle _ _ _ _)) as [l Hl]; [discriminate|].
    exists l. split; [exact Hl|].
    destruct (readToBuf_Ret _ _ Hl)
      as (s0 & b & s' & Hh0 & Hs & _ & Hh' & Hz & _).
    rewrite opened_handle in Hh0.
    assert (E0 : s0 = mkStream (c :: d) false) by congruence. subst s0.
    assert (Hzl : mZipped l = false) by (rewrite Hz; reflexivity).
    unfold handle in Hh'. rewrite Hzl in Hh'.
    unfold stdin_after. rewrite Hh'.
    rewrite (stream_read_rest _ _ _ _ Hs).
    apply skipn_all2. cbn [unread]. lia.
Qed.

(** X25: standard input given for both sides.  The two readers share the
    one stream, and the left constructor takes its first chunk.  When
    standard input holds no more than the capacity, nothing is left for
    the first refill of the right reader: it delivers no byte and reads
    [mBuf[-1]], as the refill of the left reader does already when
    standard input is empty. *)
Theorem standard_input_on_both_sides :
  forall w hasQuality phred64,
  Z.of_nat (length (stdin_data w)) <= FQ_BUF_SIZE ->
  FastqReaderPair_new w (s2b "/dev/stdin") (s2b "/dev/stdin")
                      hasQuality phred64 false
  = Fault (BufIndex (-1)).
Proof.
  intros w hq p64 Hlen. unfold FastqReaderPair_new.
  destruct (new_on_stdin w hq p64 Hlen) as [Hnew|(l & Hnew & Hrest)];
    rewrite Hnew; [reflexivity|].
  cbn [bind]. rewrite on_stdin_stdin. cbn [andb].
  rewrite Hrest, new_cases, source_of_stdin.
  rewrite readToBuf_opened_empty. reflexivity.
Qed.

(** An instance of X25. *)
Lemma standard_input_on_both_sides_witness :
  FastqReaderPair_new (piped two_records) (s2b "/dev/stdin")
                      (s2b "/dev/stdin") true false false
  = Fault (BufIndex (-1)).
Proof.
  apply (standard_input_on_both_sides (piped two_records) true false).
  vm_compute. discriminate.
Defined.

(** ** File names *)

Lemma ends_with_iff :
  forall s suf, ends_with s suf = true <-> exists pre, s = pre ++ suf.
Proof.
  intros s suf. unfold ends_with. split.
  - intro H. apply andb_true_iff in H. destruct H as [_ H].
    destruct (list_eq_dec ascii_dec _ suf) as [E|]; [|discriminate].
    exists (firstn (length s - length suf) s).
    rewrite <- E at 2. symmetry. apply firstn_skipn.
  - intros [pre ->]. rewrite length_app. apply andb_true_iff. split.
    + apply Nat.leb_le. lia.
    + replace (length pre + length suf - length suf)%nat with (length pre)
        by lia.
      rewrite skipn_app, skipn_all, Nat.sub_diag. cbn [skipn app].
      destruct (list_eq_dec ascii_dec suf suf); [reflexivity|contradiction].
Qed.

Lemma ends_with_app :
  forall a b c, ends_with (a ++ c) (b ++ c) = ends_with a b.
Proof.
  intros a b c.
  destruct (ends_with a b) eqn:E.
  - apply ends_with_iff in E. destruct E as [pre ->].
    apply ends_with_iff. exists pre. rewrite app_assoc. reflexivity.
  - destruct (ends_with (a ++ c) (b ++ c)) eqn:F; [|reflexivity].
    apply ends_with_iff in F. destruct F as [pre F].
    rewrite app_assoc in F. apply app_inv_tail in F.
    assert (G : ends_with a b = true) by (apply ends_with_iff; eauto).
    congruence.
Qed.

Lemma ends_with_last :
  forall s suf, ends_with s suf = true -> suf <> [] ->
  last s LF = last suf LF.
Proof.
  intros s suf H Hne. apply ends_with_iff in H. destruct H as [pre ->].
  apply last_app_right. exact Hne.
Qed.

Lemma ends_with_longer :
  forall s a b, ends_with s (a ++ b) = true -> ends_with s b = true.
Proof.
  intros s a b H. apply ends_with_iff in H. destruct H as [pre ->].
  apply ends_with_iff. exists (pre ++ a). rewrite app_assoc. reflexivity.
Qed.

Lemma isZipFastq_gz :
  forall f, isZipFastq f = true -> ends_with f (s2b ".gz") = true.
Proof.
  intros f H. unfold isZipFastq in H.
  destruct (ends_with f (s2b ".fastq.gz")) eqn:E1;
    [exact (ends_with_longer f (s2b ".fastq") (s2b ".gz") E1)|].
  destruct (ends_with f (s2b ".fq.gz")) eqn:E2;
    [exact (ends_with_longer f (s2b ".fq") (s2b ".gz") E2)|].
  destruct (ends_with f (s2b ".fasta.gz")) eqn:E3;
    [exact (ends_with_longer f (s2b ".fasta") (s2b ".gz") E3)|].
  destruct (ends_with f (s2b ".fa.gz")) eqn:E4;
    [exact (ends_with_longer f (s2b ".fa") (s2b ".gz") E4)|].
  discriminate.
Qed.

Lemma isFastq_not_gz :
  forall f, isFastq f = true -> ends_with f (s2b ".gz") = false.
Proof.
  intros f H.
  destruct (ends_with f (s2b ".gz")) eqn:G; [|reflexivity].
  pose proof (ends_with_last f _ G) as Lz.
  unfold isFastq in H.
  destruct (ends_with f (s2b ".fastq")) eqn:E1;
    [pose proof (ends_with_last f _ E1) as L|
     destruct (ends_with f (s2b ".fq")) eqn:E2;
       [pose proof (ends_with_last f _ E2) as L|
        destruct (ends_with f (s2b ".fasta")) eqn:E3;
          [pose proof (ends_with_last f _ E3) as L|
           destruct (ends_with f (s2b ".fa")) eqn:E4;
             [pose proof (ends_with_last f _ E4) as L|discriminate]]]].
  all: rewrite Lz in L by discriminate; cbn in L.
  all: specialize (L ltac:(discriminate)); discriminate.
Qed.

(** X24: the two tests of a file name.  [isZipFastq] accepts a name exactly
    when it is a name [isFastq] accepts followed by ".gz"; the two never
    accept the same name; and the constructor agrees with them: a name
    [isZipFastq] accepts is read as a gzip file, a name [isFastq]
    accepts as a plain one. *)
Theorem name_tests_agree_with_constructor :
  (forall f, isZipFastq (f ++ s2b ".gz") = isFastq f) /\
  (forall f, isZipFastq f = true ->
             exists g, f = g ++ s2b ".gz" /\ isFastq g = true) /\
  (forall f, isZipFastq f = true -> isFastq f = false) /\
  (forall w f hasQuality phred64 r,
     FastqReader_new w f hasQuality phred64 = Ret r ->
     (isZipFastq f = true -> mZipped r = true) /\
     (isFastq f = true -> mZipped r = false)).
Proof.
  assert (A : forall f, isZipFastq (f ++ s2b ".gz") = isFastq f).
  { intro f. unfold isZipFastq, isFastq.
    change (s2b ".fastq.gz") with (s2b ".fastq" ++ s2b ".gz").
    change (s2b ".fq.gz") with (s2b ".fq" ++ s2b ".gz").
    change (s2b ".fasta.gz") with (s2b ".fasta" ++ s2b ".gz").
    change (s2b ".fa.gz") with (s2b ".fa" ++ s2b ".gz").
    rewrite !ends_with_app. reflexivity. }
  split; [exact A|]. split; [|split].
  - intros f H. pose proof (isZipFastq_gz f H) as G.
    apply ends_with_iff in G. destruct G as [g ->].
    exists g. split; [reflexivity|]. rewrite <- A. exact H.
  - intros f H. apply isZipFastq_gz in H.
    destruct (isFastq f) eqn:E; [|reflexivity].
    apply isFastq_not_gz in E. congruence.
  - intros w f hq p64 r H.
    destruct (new_sound w f hq p64 r H) as (_ & _ & Hc).
    unfold config in Hc. injection Hc as _ Hz _ _.
    split; intro Hn; rewrite Hz.
    + apply isZipFastq_gz. exact Hn.
    + apply isFastq_not_gz. exact Hn.
Qed.

(** An instance of X24. *)
Lemma name_tests_agree_with_constructor_witness :
  isZipFastq (s2b "reads.fq" ++ s2b ".gz") = isFastq (s2b "reads.fq") /\
  (exists g, s2b "reads.fq.gz" = g ++ s2b ".gz" /\ isFastq g = true) /\
  isFastq (s2b "reads.fq.gz") = false /\
  ((isZipFastq (s2b "in.fq") = true ->
    mZipped (two_records_reader (s2b "in.fq") false false) = true) /\
   (isFastq (s2b "in.fq") = true ->
    mZipped (two_records_reader (s2b "in.fq") false false) = false)).
Proof.
  split; [|split; [|split]].
  - apply (proj1 name_tests_agree_with_constructor (s2b "reads.fq")).
  - apply (proj1 (proj2 name_tests_agree_with_constructor)
             (s2b "reads.fq.gz")).
    reflexivity.
  - apply (proj1 (proj2 (proj2 name_tests_agree_with_constructor))
             (s2b "reads.fq.gz")).
    reflexivity.
  - apply (proj2 (proj2 (proj2 name_tests_agree_with_constructor))
             (one_file two_records) (s2b "in.fq") true false).
    vm_compute. reflexivity.
Defined.
